(** * pre-commit-hooks: the scenario table of [tests/test_hooks.py], its
    executor, and the cppcheck wrapper of [hooks/cppcheck.py].

    Python [str] and [bytes] values are both carried by [string] (a list of
    bytes): a [str] is held in its UTF-8 encoding, so that [encode] does not
    change the carrier and the code-point order of [str] comparison is the
    byte order of the carrier.  Exceptions are results in the [result]
    monad. *)

From Stdlib Require Import ZArith Ascii DecimalString.
From Stdlib Require String.
From stdpp Require Import base option list gmap strings.

Local Open Scope Z_scope.

(** ** Exceptions and the result monad *)

Inductive exn : Type :=
  | KeyError (key : string)
  | IndexError
  | ValueError
  | AttributeError (what : string)
  | CalledProcessError
  | AssertionError
  | FileNotFoundError
  | PytestFail (msg : string).

Inductive result (A : Type) : Type :=
  | Ok (a : A)
  | Raise (e : exn).
Arguments Ok {A} a.
Arguments Raise {A} e.

#[global] Instance result_bind : MBind result := fun _ _ f m =>
  match m with Ok a => f a | Raise e => Raise e end.
#[global] Instance result_fmap : FMap result := fun _ _ f m =>
  match m with Ok a => Ok (f a) | Raise e => Raise e end.

(** [l[i]] on a Python list. *)
Definition py_index {A} (l : list A) (i : nat) : result A :=
  match l !! i with Some x => Ok x | None => Raise IndexError end.

(** [d[k]] on a Python dict with string keys. *)
Definition py_getitem {A} (d : gmap string A) (k : string) : result A :=
  match d !! k with Some x => Ok x | None => Raise (KeyError k) end.

(** [for x in l: s = body(s, x)], stopping at the first exception. *)
Fixpoint for_each {A S} (l : list A) (body : S -> A -> result S) (s : S)
  : result S :=
  match l with
  | [] => Ok s
  | x :: l' => s' ← body s x; for_each l' body s'
  end.

(** ** Python string operations *)

Abbreviation bytes := string (only parsing).

(** [s.encode()]: the carrier already is the UTF-8 encoding. *)
Definition encode (s : string) : bytes := s.

Definition is_digit (c : ascii) : bool :=
  let n := nat_of_ascii c in (48 <=? n)%nat && (n <=? 57)%nat.

Definition digit_val (c : ascii) : nat := (nat_of_ascii c - 48)%nat.

(** [needle in hay] *)
Fixpoint str_in (needle hay : string) : bool :=
  String.prefix needle hay ||
  match hay with
  | EmptyString => false
  | String _ hay' => str_in needle hay'
  end.

Fixpoint string_drop (n : nat) (s : string) : string :=
  match n, s with
  | O, _ => s
  | S n', String _ s' => string_drop n' s'
  | S _, EmptyString => EmptyString
  end.

(** [s.endswith(suffix)] *)
Definition endswith (s suffix : string) : bool :=
  (String.length suffix <=? String.length s)%nat &&
  String.eqb (string_drop (String.length s - String.length suffix) s) suffix.

(** [s.replace(old, new)] for a non-empty [old]: leftmost, non-overlapping
    occurrences; [skip] counts the characters of a match still to be
    dropped. *)
Fixpoint replace_go (old new : string) (skip : nat) (s : string) : string :=
  match s with
  | EmptyString => EmptyString
  | String c s' =>
      match skip with
      | S k => replace_go old new k s'
      | O =>
          if String.prefix old s
          then new +:+ replace_go old new (String.length old - 1) s'
          else String c (replace_go old new 0 s')
      end
  end.

Fixpoint intersperse_str (new s : string) : string :=
  match s with
  | EmptyString => EmptyString
  | String c s' => String c (new +:+ intersperse_str new s')
  end.

Definition replace (old new s : string) : string :=
  match old with
  | EmptyString => new +:+ intersperse_str new s
  | _ => replace_go old new 0 s
  end.

(** [sep.join(l)] *)
Fixpoint str_join (sep : string) (l : list string) : string :=
  match l with
  | [] => EmptyString
  | [x] => x
  | x :: l' => x +:+ sep +:+ str_join sep l'
  end.

(** [a <= b], [a >= b], [a > b] on [str]: lexicographic on code points. *)
Definition str_le (a b : string) : bool := String.leb a b.
Definition str_ge (a b : string) : bool := String.leb b a.
Definition str_gt (a b : string) : bool := String.ltb b a.

(** [template.format(args...)].  The templates of the test table use the
    replacement fields [{}] and [{N}] and the escapes [{{] and [}}]; every
    other use of a brace is reported as [ValueError]. *)
Inductive fmt_state : Type :=
  | FText
  | FOpen
  | FIndex (n : nat)
  | FClose.

Inductive numbering : Type :=
  | NUnset
  | NAuto (next : nat)
  | NManual.

Fixpoint format_go (st : fmt_state) (num : numbering) (args : list string)
  (t : string) : result string :=
  match t with
  | EmptyString =>
      match st with FText => Ok EmptyString | _ => Raise ValueError end
  | String c t' =>
      match st with
      | FText =>
          if Ascii.eqb c "{" then format_go FOpen num args t'
          else if Ascii.eqb c "}" then format_go FClose num args t'
          else String c <$> format_go FText num args t'
      | FOpen =>
          if Ascii.eqb c "{" then String c <$> format_go FText num args t'
          else if Ascii.eqb c "}" then
            match num with
            | NManual => Raise ValueError
            | NUnset =>
                a ← py_index args 0;
                String.append a <$> format_go FText (NAuto 1) args t'
            | NAuto n =>
                a ← py_index args n;
                String.append a <$> format_go FText (NAuto (S n)) args t'
            end
          else if is_digit c then format_go (FIndex (digit_val c)) num args t'
          else Raise ValueError
      | FIndex n =>
          if Ascii.eqb c "}" then
            match num with
            | NAuto _ => Raise ValueError
            | _ =>
                a ← py_index args n;
                String.append a <$> format_go FText NManual args t'
            end
          else if is_digit c
          then format_go (FIndex (10 * n + digit_val c)) num args t'
          else Raise ValueError
      | FClose =>
          if Ascii.eqb c "}" then String c <$> format_go FText num args t'
          else Raise ValueError
      end
  end.

Definition str_format (template : string) (args : list string)
  : result string :=
  format_go FText NUnset args template.

(** A value that is a [str] or a [bytes] at run time; [bytes] has no
    [format] method. *)
Inductive str_or_bytes : Type :=
  | PStr (s : string)
  | PBytes (b : bytes).

Definition dyn_format (v : str_or_bytes) (args : list string)
  : result string :=
  match v with
  | PStr t => str_format t args
  | PBytes _ => Raise (AttributeError "format")
  end.

Definition nl : string := String (ascii_of_nat 10) EmptyString.
Definition dquote : string := String (ascii_of_nat 34) EmptyString.

(** ** os.path

    [os.name] selects the flavour.  [posixpath.join] is modelled in full.
    [ntpath.join] is modelled for components without a drive, which is what
    the table builder passes after the working directory; a working
    directory is kept whole, its drive included, which agrees with
    [ntpath.join] whenever something follows the drive (every absolute
    path). *)

Definition is_nt (os_name : string) : bool := String.eqb os_name "nt".

Definition last_char (s : string) : option ascii :=
  match String.length s with
  | O => None
  | S n => String.get n s
  end.

Definition is_nt_sep (c : ascii) : bool := Ascii.eqb c "\" || Ascii.eqb c "/".

Definition posix_join1 (path b : string) : string :=
  if String.prefix "/" b then b
  else if String.eqb path "" || endswith path "/" then path +:+ b
  else path +:+ "/" +:+ b.

Definition nt_join1 (path b : string) : string :=
  match b with
  | String c _ =>
      if is_nt_sep c then b
      else
        match last_char path with
        | Some l => if is_nt_sep l then path +:+ b else path +:+ "\" +:+ b
        | None => path +:+ b
        end
  | EmptyString =>
      match last_char path with
      | Some l => if is_nt_sep l then path else path +:+ "\"
      | None => path
      end
  end.

(** [os.path.join(a, *p)] *)
Definition os_path_join (os_name : string) (a : string) (p : list string)
  : string :=
  fold_left (if is_nt os_name then nt_join1 else posix_join1) p a.

Fixpoint has_sep (is_sep : ascii -> bool) (s : string) : bool :=
  match s with
  | EmptyString => false
  | String c s' => is_sep c || has_sep is_sep s'
  end.

Fixpoint tail_after_last (is_sep : ascii -> bool) (s : string) : string :=
  match s with
  | EmptyString => EmptyString
  | String c s' =>
      if has_sep is_sep s' then tail_after_last is_sep s'
      else if is_sep c then s' else s
  end.

(** [os.path.split(f)[-1]] *)
Definition os_path_split_last (os_name : string) (f : string) : string :=
  tail_after_last
    (if is_nt os_name then is_nt_sep else (fun c => Ascii.eqb c "/")) f.

(** ** Regular expressions of the harness *)

Fixpoint take_while (p : ascii -> bool) (s : string) : string :=
  match s with
  | EmptyString => EmptyString
  | String c s' => if p c then String c (take_while p s') else EmptyString
  end.

Fixpoint has_newline (s : string) : bool :=
  match s with
  | EmptyString => false
  | String c s' => Ascii.eqb c (ascii_of_nat 10) || has_newline s'
  end.

(** [re.sub(rb"\[INFO\].*\n", b"", s)]: a match starts at [[INFO]] and runs
    through the next newline; [skipping] is set inside a match. *)
Fixpoint sub_info_go (skipping : bool) (s : string) : string :=
  match s with
  | EmptyString => EmptyString
  | String c s' =>
      if skipping then
        sub_info_go (negb (Ascii.eqb c (ascii_of_nat 10))) s'
      else if String.prefix "[INFO]" s && has_newline s then sub_info_go true s'
      else String c (sub_info_go false s')
  end.

Definition sub_info (s : bytes) : bytes := sub_info_go false s.

Definition is_digit_or_comma (c : ascii) : bool := is_digit c || Ascii.eqb c ",".

(** Length of the match of [[\d,]+ warnings and ] at the head of [s]. *)
Definition warnings_match (s : string) : option nat :=
  let run := take_while is_digit_or_comma s in
  match run with
  | EmptyString => None
  | _ =>
      if String.prefix " warnings and " (string_drop (String.length run) s)
      then Some (String.length run + 14)%nat
      else None
  end.

(** [re.sub(rb"[\d,]+ warnings and ", b"", s)] *)
Fixpoint sub_warnings_go (skip : nat) (s : string) : string :=
  match s with
  | EmptyString => EmptyString
  | String c s' =>
      match skip with
      | S k => sub_warnings_go k s'
      | O =>
          match warnings_match s with
          | Some n => sub_warnings_go (n - 1) s'
          | None => String c (sub_warnings_go 0 s')
          end
      end
  end.

Definition sub_warnings (s : bytes) : bytes := sub_warnings_go 0 s.

(** The zeros of the decimal digits of Unicode 14.0, the character database
    of CPython 3.11: a code point is a decimal digit when it is one of the
    ten that start at an entry of this list.  In a [str] pattern [\d]
    matches exactly these. *)
Definition decimal_zeros : list N :=
  [48; 1632; 1776; 1984; 2406; 2534; 2662; 2790; 2918; 3046; 3174; 3302;
   3430; 3558; 3664; 3792; 3872; 4160; 4240; 6112; 6160; 6470; 6608; 6784;
   6800; 6992; 7088; 7232; 7248; 42528; 43216; 43264; 43472; 43504; 43600;
   44016; 65296; 66720; 68912; 69734; 69872; 69942; 70096; 70384; 70736;
   70864; 71248; 71360; 71472; 71904; 72016; 72784; 73040; 73120; 92768;
   92864; 93008; 120782; 120792; 120802; 120812; 120822; 123200; 123632;
   125264; 130032]%N.

Definition is_decimal (cp : N) : bool :=
  existsb (fun z => (z <=? cp)%N && (cp <? z + 10)%N) decimal_zeros.

(** The payload of a UTF-8 continuation byte. *)
Definition continuation (c : ascii) : option N :=
  let b := N_of_ascii c in
  if (128 <=? b)%N && (b <? 192)%N then Some (b - 128)%N else None.

(** The code point whose UTF-8 encoding stands at the head of [s], with the
    number of bytes of that encoding.  Encodings longer than needed,
    surrogates and code points above U+10FFFF are no characters. *)
Definition utf8_head (s : string) : option (N * nat) :=
  match s with
  | EmptyString => None
  | String c0 s1 =>
      let b0 := N_of_ascii c0 in
      if (b0 <? 128)%N then Some (b0, 1%nat)
      else if (b0 <? 192)%N then None
      else if (b0 <? 224)%N then
        match s1 with
        | String c1 _ =>
            x1 ← continuation c1;
            let cp := ((b0 - 192) * 64 + x1)%N in
            if (128 <=? cp)%N then Some (cp, 2%nat) else None
        | _ => None
        end
      else if (b0 <? 240)%N then
        match s1 with
        | String c1 (String c2 _) =>
            x1 ← continuation c1;
            x2 ← continuation c2;
            let cp := ((b0 - 224) * 4096 + x1 * 64 + x2)%N in
            if (2048 <=? cp)%N && negb ((55296 <=? cp)%N && (cp <? 57344)%N)
            then Some (cp, 3%nat) else None
        | _ => None
        end
      else if (b0 <? 248)%N then
        match s1 with
        | String c1 (String c2 (String c3 _)) =>
            x1 ← continuation c1;
            x2 ← continuation c2;
            x3 ← continuation c3;
            let cp := ((b0 - 240) * 262144 + x1 * 4096 + x2 * 64 + x3)%N in
            if (65536 <=? cp)%N && (cp <? 1114112)%N
            then Some (cp, 4%nat) else None
        | _ => None
        end
      else None
  end.

(** The greedy match of [[\d.]+] at the head of the text [s], the carrier
    being its UTF-8 encoding: dots and decimal digits, ASCII or not;
    [skip] counts the bytes of a matched character still to be taken. *)
Fixpoint digits_and_dots (skip : nat) (s : string) : string :=
  match s with
  | EmptyString => EmptyString
  | String c s' =>
      match skip with
      | S k => String c (digits_and_dots k s')
      | O =>
          if Ascii.eqb c "." then String c (digits_and_dots 0 s')
          else
            match utf8_head s with
            | Some (cp, n) =>
                if is_decimal cp then String c (digits_and_dots (n - 1) s')
                else EmptyString
            | None => EmptyString
            end
      end
  end.

(** The part of [s] before its last dot. *)
Fixpoint upto_last_dot (s : string) : option string :=
  match s with
  | EmptyString => None
  | String c s' =>
      match upto_last_dot s' with
      | Some g => Some (String c g)
      | None => if Ascii.eqb c "." then Some EmptyString else None
      end
  end.

(** Group 1 of [OCLint version ([\d.]+)\.] matched at the head of [s]: the
    greedy run of digits and dots, given back up to its last dot. *)
Definition oclint_version_at (s : string) : option string :=
  if String.prefix "OCLint version " s then
    match digits_and_dots 0 (string_drop 15 s) with
    | String c0 rest => String c0 <$> upto_last_dot rest
    | EmptyString => None
    end
  else None.

(** [re.search(r"OCLint version ([\d.]+)\.", s)], then [.group(1)]: the
    leftmost position with a match. *)
Fixpoint oclint_version_search (s : string) : option string :=
  match oclint_version_at s with
  | Some g => Some g
  | None =>
      match s with
      | EmptyString => None
      | String _ s' => oclint_version_search s'
      end
  end.

Definition search_group1 (s : string) : result string :=
  match oclint_version_search s with
  | Some g => Ok g
  | None => Raise (AttributeError "group")
  end.

(** ** The scenario table: [GeneratorT] *)

(** The wrapper classes imported by the test module. *)
Inductive CmdClass : Type :=
  | ClangFormatCmd
  | ClangTidyCmd
  | CppcheckCmd
  | CpplintCmd
  | IncludeWhatYouUseCmd
  | OCLintCmd
  | UncrustifyCmd.

(** A scenario is the list [[class, args, files, expd_output, expd_retcode]];
    the fields are its positions 0 to 4. *)
Record Scenario : Type := mkScenario {
  sc_class : CmdClass;
  sc_args : list string;
  sc_files : list string;
  sc_expd_output : bytes;
  sc_expd_retcode : Z
}.

(** What the table builder reads from its surroundings: [os.name],
    [os.getcwd()], the dict returned by [utils.get_versions()], and the
    decoded output of [oclint --version] ([sp.check_output] raises when the
    tool cannot be run). *)
Record Env : Type := mkEnv {
  os_name : string;
  getcwd : string;
  get_versions : gmap string string;
  oclint_version_output : result string
}.

(** The class attributes set by [generate_list_tests]. *)
Record GeneratorT : Type := mkGeneratorT {
  versions : gmap string string;
  err_c : string;
  err_cpp : string;
  ok_c : string;
  ok_cpp : string;
  files : list string;
  retcodes : list Z
}.

(** [clang_format_err] of [generate_formatter_tests] *)
Definition clang_format_err : string :=
  "{0}
====================
--- original

+++ formatted

@@ -1,2 +1,5 @@

 #include {1}
-int main(){{int i;return;}}
+int main() {{
+  int i;
+  return;
+}}
".

(** [clang_tidy_err_str] of [generate_clang_tidy_tests] *)
Definition clang_tidy_err_str : string :=
  "{0}:2:18: error: non-void function 'main' should return a value [clang-diagnostic-return-type]
int main(){{int i;return;}}
                 ^
1 error generated.
Error while processing {0}.
".

(** [cppcheck_err] of [generate_cppcheck_tests], versions up to 1.88 *)
Definition cppcheck_err_old : string :=
  "[{}:1]: (style) Unused variable: i
".

(** [cppcheck_err] of [generate_cppcheck_tests], versions from 1.89 *)
Definition cppcheck_err_new : string :=
  "{}:2:16: style: Unused variable: i [unusedVariable]
int main(){{int i;return;}}
               ^
".

(** [cpplint_err_str] of [generate_cpplint_tests] *)
Definition cpplint_err_str : string := Eval cbv in
  "Done processing {0}
Total errors found: 5
{0}:0:  No copyright message found.  You should have a line: " +:+ dquote +:+ "Copyright [year] <Copyright Owner>" +:+ dquote +:+ "  [legal/copyright] [5]
{0}:2:  More than one command on the same line  [whitespace/newline] [0]
{0}:2:  Missing space after ;  [whitespace/semicolon] [3]
{0}:2:  Missing space before {{  [whitespace/braces] [5]
{0}:2:  Could not find a newline character at the end of the file.  [whitespace/ending_newline] [5]
".

(** the template of [iwyu_err_c] in [generate_iwyu_tests] *)
Definition iwyu_err_c_template : string :=
  "{0}:2:18: error: non-void function 'main' should return a value [-Wreturn-type]
int main(){{int i;return;}}
                 ^

{0} should add these lines:

{0} should remove these lines:
- #include <stdio.h>  // lines 1-1

The full include-list for {0}:
---
".

(** the template of [iwyu_err_cpp] in [generate_iwyu_tests] *)
Definition iwyu_err_cpp_template : string :=
  "{0}:2:18: error: non-void function 'main' should return a value [-Wreturn-type]
int main(){{int i;return;}}
                 ^

{0} should add these lines:

{0} should remove these lines:
- #include <string>  // lines 1-1

The full include-list for {0}:
---
".

(** [oclint_err] of [generate_oclint_tests] *)
Definition oclint_err : string :=
  "
Compiler Errors:
(please be aware that these errors will prevent OCLint from analyzing this source code)

{0}:2:18: non-void function 'main' should return a value

Clang Static Analyzer Results:

{0}:2:18: non-void function 'main' should return a value


OCLint Report

Summary: TotalFiles=0 FilesWithViolations=0 P1=0 P2=0 P3=0{1}


[OCLint (http{2}://oclint.org) v{3}]
".

(** [l.index(x)] *)
Fixpoint list_index (x : string) (l : list string) : result nat :=
  match l with
  | [] => Raise ValueError
  | y :: l' => if String.eqb y x then Ok O else S <$> list_index x l'
  end.

(** [x in l] for a list of strings *)
Definition list_in (x : string) (l : list string) : bool :=
  existsb (String.eqb x) l.

(** The language switch shared by the clang-tidy and oclint loops:
    [new_arg_set = list(arg_set)], with [-std=c18] replaced for a C++ file. *)
Definition language_arg_set (file : string) (arg_set : list string)
  : result (list string) :=
  let new_arg_set := arg_set in
  if endswith file ".cpp" && list_in "-std=c18" arg_set then
    k ← list_index "-std=c18" new_arg_set;
    Ok (<[k := "-std=c++20"]> new_arg_set)
  else Ok new_arg_set.

Section Generator.
Variable env : Env.

Definition join (a : string) (p : list string) : string :=
  os_path_join (os_name env) a p.

(** [get_multifile_scenarios_no_diff(err_files)] *)
Definition get_multifile_scenarios_no_diff (err_files : list string)
  : list Scenario :=
  let expected_err : bytes := "" in
  let unc_defaults_path :=
    join (getcwd env) ["tests"; "uncrustify_defaults.cfg"] in
  [ mkScenario ClangFormatCmd ["--style=google"; "--no-diff"]
      err_files expected_err 1;
    mkScenario UncrustifyCmd ["-c"; unc_defaults_path; "--no-diff"]
      err_files expected_err 1 ].

(** [generate_formatter_tests] *)
Definition generate_formatter_tests (cls : GeneratorT)
  : result (list Scenario) :=
  let clang_format_args_sets :=
    [["--style=google"]; ["--style=google"; "-i"]] in
  formatter_c_err ←
    encode <$> str_format clang_format_err [err_c cls; "<stdio.h>"];
  formatter_cpp_err ←
    encode <$> str_format clang_format_err [err_cpp cls; "<string>"];
  let formatter_output := [""; ""; formatter_c_err; formatter_cpp_err] in
  let unc_defaults_path :=
    join (getcwd env) ["tests"; "uncrustify_defaults.cfg"] in
  let unc_base_args := ["-c"; unc_defaults_path] in
  let unc_addtnl_args := [[]; ["--replace"; "--no-backup"]] in
  let uncrustify_arg_sets :=
    (fun arg => unc_base_args ++ arg) <$> unc_addtnl_args in
  for_each (seq 0 (length (files cls)))
    (fun scenarios i =>
       scenarios ← for_each clang_format_args_sets
         (fun scenarios arg_set =>
            f ← py_index (files cls) i;
            o ← py_index formatter_output i;
            r ← py_index (retcodes cls) i;
            Ok (scenarios ++ [mkScenario ClangFormatCmd arg_set [f] o r]))
         scenarios;
       for_each uncrustify_arg_sets
         (fun scenarios arg_set =>
            f ← py_index (files cls) i;
            o ← py_index formatter_output i;
            r ← py_index (retcodes cls) i;
            Ok (scenarios ++ [mkScenario UncrustifyCmd arg_set [f] o r]))
         scenarios)
    [].

(** [generate_clang_tidy_tests] *)
Definition generate_clang_tidy_tests (cls : GeneratorT)
  : result (list Scenario) :=
  let ct_base_args := ["-quiet"; "-checks=clang-diagnostic-return-type"] in
  let additional_args := [[]; ["-fix"]; ["--fix-errors"]; ["--"; "-std=c18"]] in
  let clang_tidy_args_sets :=
    (fun arg => ct_base_args ++ arg) <$> additional_args in
  clang_tidy_str_c ←
    encode <$> str_format clang_tidy_err_str [err_c cls; ""];
  clang_tidy_str_cpp ←
    encode <$> str_format clang_tidy_err_str [err_cpp cls];
  let clang_tidy_output := [""; ""; clang_tidy_str_c; clang_tidy_str_cpp] in
  for_each (seq 0 (length (files cls)))
    (fun scenarios i =>
       for_each clang_tidy_args_sets
         (fun scenarios arg_set =>
            f ← py_index (files cls) i;
            new_arg_set ← language_arg_set f arg_set;
            f ← py_index (files cls) i;
            o ← py_index clang_tidy_output i;
            r ← py_index (retcodes cls) i;
            Ok (scenarios ++ [mkScenario ClangTidyCmd new_arg_set [f] o r]))
         scenarios)
    [].

(** [generate_cppcheck_tests] *)
Definition generate_cppcheck_tests (cls : GeneratorT)
  : result (list Scenario) :=
  let cppcheck_arg_sets : list (list string) := [[]] in
  v ← py_getitem (versions cls) "cppcheck";
  cppcheck_err ←
    (if str_le v "1.88" then Ok (PStr cppcheck_err_old)
     else
       v ← py_getitem (versions cls) "cppcheck";
       if str_ge v "1.89" then Ok (PStr cppcheck_err_new)
       else
         (* two messages are printed, then the template is a [bytes] *)
         Ok (PBytes ""));
  cppcheck_err_c ← encode <$> dyn_format cppcheck_err [err_c cls];
  cppcheck_err_cpp ← encode <$> dyn_format cppcheck_err [err_cpp cls];
  let cppcheck_output := [""; ""; cppcheck_err_c; cppcheck_err_cpp] in
  for_each (seq 0 (length (files cls)))
    (fun scenarios i =>
       for_each cppcheck_arg_sets
         (fun scenarios arg_set =>
            f ← py_index (files cls) i;
            o ← py_index cppcheck_output i;
            r ← py_index (retcodes cls) i;
            Ok (scenarios ++ [mkScenario CppcheckCmd arg_set [f] o r]))
         scenarios)
    [].

(** [generate_cpplint_tests] *)
Definition generate_cpplint_tests (cls : GeneratorT)
  : result (list Scenario) :=
  let cpplint_arg_sets := [["--verbose=0"; "--quiet"]] in
  cpplint_err_c ← encode <$> str_format cpplint_err_str [err_c cls];
  cpplint_err_cpp ← encode <$> str_format cpplint_err_str [err_cpp cls];
  let cpplint_output := [""; ""; cpplint_err_c; cpplint_err_cpp] in
  for_each (seq 0 (length (files cls)))
    (fun scenarios i =>
       for_each cpplint_arg_sets
         (fun scenarios arg_set =>
            f ← py_index (files cls) i;
            o ← py_index cpplint_output i;
            r ← py_index (retcodes cls) i;
            Ok (scenarios ++ [mkScenario CpplintCmd arg_set [f] o r]))
         scenarios)
    [].

(** [generate_iwyu_tests] *)
Definition generate_iwyu_tests (cls : GeneratorT)
  : result (list Scenario) :=
  let iwyu_arg_sets : list (list string) := [[]] in
  iwyu_err_c ← encode <$> str_format iwyu_err_c_template [err_c cls];
  iwyu_err_cpp ← encode <$> str_format iwyu_err_cpp_template [err_cpp cls];
  let iwyu_retcodes := [0; 0; 3; 3] in
  let iwyu_output := [""; ""; iwyu_err_c; iwyu_err_cpp] in
  for_each (seq 0 (length (files cls)))
    (fun scenarios i =>
       for_each iwyu_arg_sets
         (fun scenarios arg_set =>
            f ← py_index (files cls) i;
            o ← py_index iwyu_output i;
            r ← py_index iwyu_retcodes i;
            Ok (scenarios ++
                [mkScenario IncludeWhatYouUseCmd arg_set [f] o r]))
         scenarios)
    [].

(** [generate_oclint_tests] *)
Definition generate_oclint_tests (cls : GeneratorT)
  : result (list Scenario) :=
  v ← py_getitem (versions cls) "oclint";
  let '(oclint_arg_sets0, https_s) :=
    if str_gt v "20"
    then ([["--enable-global-analysis"; "--enable-clang-static-analyzer"]],
          "s")
    else ([["-enable-global-analysis"; "-enable-clang-static-analyzer";
            "-no-analytics"]], "") in
  first ← py_index oclint_arg_sets0 0;
  let oclint_arg_sets := [first ++ ["--"; "-std=c18"]] in
  ver_output ← oclint_version_output env;
  oclint_ver ← search_group1 ver_output;
  let eol_whitespace := " " in
  oclint_err_str_c ← encode <$>
    str_format oclint_err [err_c cls; eol_whitespace; https_s; oclint_ver];
  oclint_err_str_cpp ← encode <$>
    str_format oclint_err [err_cpp cls; eol_whitespace; https_s; oclint_ver];
  let oclint_output := [""; ""; oclint_err_str_c; oclint_err_str_cpp] in
  let oclint_retcodes := [0; 0; 6; 6] in
  for_each (seq 0 (length (files cls)))
    (fun scenarios i =>
       for_each oclint_arg_sets
         (fun scenarios arg_set =>
            f ← py_index (files cls) i;
            new_arg_set ← language_arg_set f arg_set;
            f ← py_index (files cls) i;
            o ← py_index oclint_output i;
            r ← py_index oclint_retcodes i;
            Ok (scenarios ++ [mkScenario OCLintCmd new_arg_set [f] o r]))
         scenarios)
    [].

(** The class attributes [generate_list_tests] sets before it builds the
    table. *)
Definition generator_attributes : GeneratorT :=
  let test_repo_dir := join (getcwd env) ["tests"; "test_repo"] in
  let err_c := join test_repo_dir ["err.c"] in
  let err_cpp := join test_repo_dir ["err.cpp"] in
  let ok_c := join test_repo_dir ["ok.c"] in
  let ok_cpp := join test_repo_dir ["ok.cpp"] in
  mkGeneratorT (get_versions env) err_c err_cpp ok_c ok_cpp
    [ok_c; ok_cpp; err_c; err_cpp] [0; 0; 1; 1].

(** The table built from given class attributes: the body of
    [generate_list_tests] from [cls.scenarios = []] on. *)
Definition generate_table (cls : GeneratorT) : result (list Scenario) :=
  let scenarios := [] in
  let scenarios :=
    scenarios ++ get_multifile_scenarios_no_diff [err_c cls; err_cpp cls] in
  s ← generate_formatter_tests cls; let scenarios := scenarios ++ s in
  s ← generate_clang_tidy_tests cls; let scenarios := scenarios ++ s in
  s ← generate_cppcheck_tests cls; let scenarios := scenarios ++ s in
  s ← generate_cpplint_tests cls; let scenarios := scenarios ++ s in
  if negb (String.eqb (os_name env) "nt") then
    s ← generate_iwyu_tests cls; let scenarios := scenarios ++ s in
    s ← generate_oclint_tests cls; let scenarios := scenarios ++ s in
    Ok scenarios
  else Ok scenarios.

(** [generate_list_tests]; the result is [cls.scenarios]. *)
Definition generate_list_tests : result (list Scenario) :=
  generate_table generator_attributes.

End Generator.

(** ** The executor: [TestHooks] *)

(** Modelled from the spec: the [command] attribute of the six wrapper
    classes whose modules are not in the tree; each wrapper is named after
    the external binary it exposes, which is the name
    [determine_edit_in_place] compares with.  [CppcheckCmd.command] is read
    from [hooks/cppcheck.py]. *)
Definition command (c : CmdClass) : string :=
  match c with
  | ClangFormatCmd => "clang-format"
  | ClangTidyCmd => "clang-tidy"
  | CppcheckCmd => "cppcheck"
  | CpplintCmd => "cpplint"
  | IncludeWhatYouUseCmd => "include-what-you-use"
  | OCLintCmd => "oclint"
  | UncrustifyCmd => "uncrustify"
  end.

(** The two test functions a table entry can name as its [test_type]. *)
Inductive TestType : Type :=
  | RunShellCmd
  | RunIntegrationTest.

(** [test_type.__name__] *)
Definition test_type_name (t : TestType) : string :=
  match t with
  | RunShellCmd => "run_shell_cmd"
  | RunIntegrationTest => "run_integration_test"
  end.

(** The three ways of executing a scenario the specification speaks of. *)
Inductive Strategy : Type :=
  | InProcessObject
  | InstalledEntryPoint
  | OrchestrationRun.

(** What each test function does: [run_shell_cmd] spawns [<cmd>-hook],
    [run_integration_test] spawns [pre-commit run]. *)
Definition strategy_of (t : TestType) : Strategy :=
  match t with
  | RunShellCmd => InstalledEntryPoint
  | RunIntegrationTest => OrchestrationRun
  end.

(** An entry [[desc, {...}]] of [TestHooks.scenarios].  [ts_cmd_name] is the
    dict value under [cmd] (shell entries) or [cmd_name] (integration
    entries): the first argument the test function is called with. *)
Record TestScenario : Type := mkTestScenario {
  ts_desc : string;
  ts_test_type : TestType;
  ts_cmd_name : string;
  ts_args : list string;
  ts_files : list string;
  ts_expd_output : bytes;
  ts_expd_retcode : Z
}.

(** An object of [tests/table_tests_integration.json]. *)
Record TableTest : Type := mkTableTest {
  tt_command : string;
  tt_files : list string;
  tt_args : list string;
  tt_expd_output : string;
  tt_expd_retcode : Z
}.

(** The files on disk, by path. *)
Abbreviation Disk := (gmap string string) (only parsing).

(** A finished child process of [subprocess.run]. *)
Record CompletedProcess : Type := mkCompleted {
  stdout : bytes;
  stderr : bytes;
  returncode : Z
}.

(** [determine_edit_in_place(cmd_name, args)] *)
Definition determine_edit_in_place (cmd_name : string) (args : list string)
  : bool :=
  let clang_format_in_place :=
    String.eqb cmd_name "clang-format" && list_in "-i" args in
  let clang_tidy_in_place :=
    String.eqb cmd_name "clang-tidy" &&
    (list_in "-fix" args || list_in "--fix-errors" args) in
  let uncrustify_in_place :=
    String.eqb cmd_name "uncrustify" && list_in "--replace" args in
  clang_format_in_place || clang_tidy_in_place || uncrustify_in_place.

(** Modelled from the spec: [utils.assert_equal(expected, actual)] of
    [tests/test_utils.py], which is not in the tree; the executor asserts
    byte-exact equality of actual and expected output. *)
Definition assert_equal (expected actual : bytes) : result unit :=
  if String.eqb expected actual then Ok () else Raise AssertionError.

(** [assert a == b] on integers *)
Definition assert_eqZ (a b : Z) : result unit :=
  if Z.eqb a b then Ok () else Raise AssertionError.

(** The output normalisation shared by both test functions:
    [if any([f.endswith("err.cpp") for f in files]) and "-std=c++20" in args]
    the warning counts are removed. *)
Definition normalize_warnings (files args : list string) (out : bytes)
  : bytes :=
  if existsb (fun f => endswith f "err.cpp") files && list_in "-std=c++20" args
  then sub_warnings out else out.

Section Executor.
(** The surroundings of a test session: the platform, the temporary
    directory, the fixture dict [utils.test_file_strs], Python's
    [str(list)], the effect of [utils.run_in], and [subprocess.run],
    which reads and may rewrite the files on disk and raises when the
    program cannot be started. *)
Variable platform : string.
Variable gettempdir : string.
Variable test_file_strs : gmap string string.
Variable repr_list : list string -> string.
Variable run_in : list string -> string -> Disk -> Disk.
Variable sp_run :
  list string -> option string -> Disk -> result (CompletedProcess * Disk).

(** [for f in files: base = os.path.split(f)[-1];
     with open(f, "w") as f: f.write(utils.test_file_strs[base])].
    Opening for writing truncates the file before the dict is read. *)
Fixpoint write_fixtures (fs : list string) (d : Disk) : result unit * Disk :=
  match fs with
  | [] => (Ok (), d)
  | f :: rest =>
      let base_name := os_path_split_last platform f in
      let d := <[f := ""]> d in
      match py_getitem test_file_strs base_name with
      | Ok content => write_fixtures rest (<[f := content]> d)
      | Raise e => (Raise e, d)
      end
  end.

(** [run_shell_cmd(cmd_name, files, args, target_output, target_retcode)] *)
Definition cmd_to_run (cmd_name : string) (files args : list string)
  : list string :=
  let all_args := files ++ args in
  (cmd_name +:+ "-hook") :: all_args.

Definition run_shell_cmd (cmd_name : string) (files args : list string)
  (target_output : bytes) (target_retcode : Z) (d : Disk)
  : result unit * Disk :=
  match sp_run (cmd_to_run cmd_name files args) None d with
  | Raise e => (Raise e, d)
  | Ok (sp_child, d) =>
      let actual := stdout sp_child +:+ stderr sp_child in
      let actual := normalize_warnings files args actual in
      let retcode := returncode sp_child in
      (_ ← assert_equal target_output actual;
       assert_eqZ target_retcode retcode, d)
  end.

(** The text written to [.pre-commit-config.yaml]. *)
Definition pre_commit_config (cmd_name : string) (args : list string)
  : string :=
  "repos:
- repo: https://github.com/pocc/pre-commit-hooks
  rev: 8a67133
  hooks:
    - id: " +:+ cmd_name +:+ "
      args: " +:+ repr_list args +:+ "
".

(** [tmpdir] of [run_integration_test] and [setup_class] *)
Definition tmpdir : string :=
  os_path_join platform gettempdir ["pre-commit-hooks-testing"].

(** The disk [run_integration_test] hands to [pre-commit run]: the files
    under test staged with [git reset] and [git add], and the hook
    configuration written. *)
Definition staged_disk (cmd_name : string) (files args : list string)
  (d : Disk) : Disk :=
  let d := run_in ["git"; "reset"] tmpdir d in
  let d := run_in (["git"; "add"] ++ files) tmpdir d in
  let pre_commit_config_path :=
    os_path_join platform tmpdir [".pre-commit-config.yaml"] in
  <[pre_commit_config_path := pre_commit_config cmd_name args]> d.

(** [run_integration_test(cmd_name, files, args, target_output,
    target_retcode)] *)
Definition run_integration_test (cmd_name : string) (files args : list string)
  (target_output : bytes) (target_retcode : Z) (d : Disk)
  : result unit * Disk :=
  let target_output := replace "{test_dir}" (encode tmpdir) target_output in
  match write_fixtures files d with
  | (Raise e, d) => (Raise e, d)
  | (Ok _, d) =>
      let d := staged_disk cmd_name files args d in
      match sp_run ["pre-commit"; "run"] (Some tmpdir) d with
      | Raise e => (Raise e, d)
      | Ok (sp_child, d) =>
          let output_actual := stderr sp_child +:+ stdout sp_child in
          let output_actual := sub_info output_actual in
          let output_actual := normalize_warnings files args output_actual in
          if String.eqb output_actual "" then
            (Raise (PytestFail
                      "pre-commit should provide output, but none found."),
             d)
          else
            (_ ← assert_equal target_output output_actual;
             assert_eqZ target_retcode (returncode sp_child), d)
      end
  end.

(** Calling the function an entry names as its [test_type]. *)
Definition call_test_type (t : TestType) :=
  match t with
  | RunShellCmd => run_shell_cmd
  | RunIntegrationTest => run_integration_test
  end.

(** [test_run(test_type, cmd_name, args, files, expd_output,
    expd_retcode)] *)
Definition has_err_file (files : list string) : bool :=
  existsb (str_in "err.c") files.

Definition test_run (test_type : TestType) (cmd_name : string)
  (args files : list string) (expd_output : bytes) (expd_retcode : Z)
  (d : Disk) : result unit * Disk :=
  let fix_in_place := determine_edit_in_place cmd_name args in
  let will_fix_in_place := fix_in_place && has_err_file files in
  match call_test_type test_type cmd_name files args expd_output
          expd_retcode d with
  | (Raise e, d) => (Raise e, d)
  | (Ok _, d) =>
      if will_fix_in_place then write_fixtures files d else (Ok (), d)
  end.

(** The entry [setup_class] builds from a generated scenario [s]. *)
Definition shell_scenario (s : Scenario) : TestScenario :=
  let desc :=
    str_join " " [test_type_name RunShellCmd; command (sc_class s);
                  str_join " " (sc_files s); str_join " " (sc_args s)] in
  let s2 :=
    if String.eqb platform "nt"
    then (fun arg => replace "/" "\\" arg) <$> sc_files s
    else sc_files s in
  mkTestScenario desc RunShellCmd (command (sc_class s)) (sc_args s) s2
    (sc_expd_output s) (sc_expd_retcode s).

(** The entry [setup_class] builds from an object [s] of the JSON table. *)
Definition integration_scenario (cwd : string) (s : TableTest)
  : TestScenario :=
  let args := (fun arg => replace "{repo_dir}" cwd arg) <$> tt_args s in
  let files := (fun arg => replace "{test_dir}" tmpdir arg) <$> tt_files s in
  let files :=
    if String.eqb platform "nt"
    then (fun arg => replace "/" "\\" arg) <$> files
    else files in
  let desc :=
    str_join " " [test_type_name RunIntegrationTest;
                  tt_command s +:+ "-hook";
                  str_join " " files; str_join " " args] in
  mkTestScenario desc RunIntegrationTest (tt_command s) args files
    (encode (tt_expd_output s)) (tt_expd_retcode s).

(** [TestHooks.setup_class]: the value of [cls.scenarios].  The calls that
    prepare the repository and the scratch directory do not touch it. *)
Definition setup_class (env : Env) (table_tests : list TableTest)
  : result (list TestScenario) :=
  scenarios ← generate_list_tests env;
  Ok ((shell_scenario <$> scenarios) ++
      (integration_scenario (getcwd env) <$> table_tests)).

End Executor.

(** ** The cppcheck wrapper: [hooks/cppcheck.py] *)

Module Cppcheck.

(** What the wrapper does to its surroundings, in order. *)
Inductive event : Type :=
  | Print (line : string)
  | Spawn (argv : list string)
  | ExitOnError.

(** The fields of [StaticAnalyzerCmd] that [run] reads. *)
Record CppcheckCmd : Type := mkCppcheckCmd {
  args : list string;
  files : list string
}.

(** A small writer monad: a computation is the list of its events. *)
Definition action : Type := list event.

(** Modelled from the spec: [self.run_command(argv)] of [hooks/utils.py],
    which is not in the tree; the subprocess invoker runs the external
    binary once with the argument list it is given and captures its output
    and exit code. *)
Definition run_command (argv : list string) : action := [Spawn argv].

(** Modelled from the spec: [self.exit_on_error()] of [hooks/utils.py],
    which is not in the tree; the exit-code check of the wrapper, made on
    what [run_command] has captured. *)
Definition exit_on_error : action := [ExitOnError].

(** [for filename in self.files: self.run_command([filename] + self.args)] *)
Fixpoint run_files (self : CppcheckCmd) (fs : list string) : action :=
  match fs with
  | [] => []
  | filename :: fs' =>
      run_command ([filename] ++ args self) ++ run_files self fs'
  end.

(** [CppcheckCmd.run] *)
Definition run (cwd : string) (self : CppcheckCmd) : action :=
  [Print ("Running in directory: " +:+ cwd)] ++
  run_files self (files self) ++
  exit_on_error.

(** The argument lists of the subprocesses of an action, in order. *)
Definition spawns (a : action) : list (list string) :=
  omap (fun e => match e with Spawn argv => Some argv | _ => None end) a.

End Cppcheck.

(** ** Session teardown and the table recorder *)

(** [os.path.exists(path)] on the files of the disk *)
Definition path_exists (d : gmap string string) (path : string) : bool :=
  bool_decide (is_Some (d !! path)).

(** [TestHooks.teardown_class]: the two generated report files are removed
    when they exist. *)
Definition teardown_class (platform : string) (d : gmap string string)
  : gmap string string :=
  let test_repo_dir := os_path_join platform "tests" ["test_repo"] in
  let generated_files :=
    (fun f => os_path_join platform test_repo_dir [f])
      <$> ["ok.plist"; "err.plist"] in
  foldl (fun d filename =>
           if path_exists d filename then delete filename d else d)
    d generated_files.

Section Recorder.
(** [json.loads] on the text of the table, [json.dumps] on the table,
    [bytes.decode], and [os.getcwd()]. *)
Variable json_loads : string -> result (list TableTest).
Variable json_dumps : list TableTest -> string.
Variable decode : bytes -> result string.
Variable cwd : string.

(** The entry [generate_table_json] appends. *)
Definition new_test (command : string) (files args : list string)
  (decoded : string) (target_retcode : Z) : TableTest :=
  let expd_output := replace "/tmp/pre-commit-testing" "{test_dir}" decoded in
  mkTableTest command ((fun f => replace cwd "" f) <$> files) args
    expd_output target_retcode.

(** [generate_table_json(command, files, args, output_actual,
    target_retcode)].  When [table_tests.json] is missing, the file opened
    is [table_test.json], for reading: opening raises when it is missing,
    and writing to it raises [io.UnsupportedOperation], a [ValueError],
    when it is there. *)
Definition generate_table_json (command : string) (files args : list string)
  (output_actual : bytes) (target_retcode : Z) (d : gmap string string)
  : result unit * gmap string string :=
  let started :=
    if negb (path_exists d "table_tests.json") then
      match d !! "table_test.json" with
      | None => Raise FileNotFoundError
      | Some _ => Raise ValueError
      end
    else Ok () in
  match started with
  | Raise e => (Raise e, d)
  | Ok _ =>
      match d !! "table_tests.json" with
      | None => (Raise FileNotFoundError, d)
      | Some json_str =>
          match json_loads json_str with
          | Raise e => (Raise e, d)
          | Ok file_tests =>
              match decode output_actual with
              | Raise e => (Raise e, d)
              | Ok decoded =>
                  let file_tests :=
                    file_tests ++
                    [new_test command files args decoded target_retcode] in
                  (Ok (), <["table_tests.json" := json_dumps file_tests]> d)
              end
          end
      end
  end.

End Recorder.

(** ** The format-checking wrapper *)

Module FormatChecker.

(** Modelled from the spec: the lines of a file's textual content, for the
    diff reporter of [hooks/utils.py], which is not in the tree; a line
    ends at a newline, and a final line need not have one. *)
Fixpoint lines (s : string) : list string :=
  match s with
  | EmptyString => []
  | String c s' =>
      if Ascii.eqb c (ascii_of_nat 10) then EmptyString :: lines s'
      else
        match lines s' with
        | [] => [String c EmptyString]
        | l :: ls => String c l :: ls
        end
  end.

(** Modelled from the spec: the entries of a line diff between the original
    and the formatted content: a line of both, a line of the original only,
    a line of the formatted content only. *)
Inductive edit : Type :=
  | Keep (l : string)
  | Del (l : string)
  | Ins (l : string).

(** Modelled from the spec: a diff of the diff reporter together with the
    number of lines it keeps. *)
Definition scored : Type := nat * list edit.

(** Modelled from the spec: the first diff of a row, the one against all
    of the formatted lines. *)
Definition first (row : list scored) : scored := hd (0%nat, []) row.

(** Modelled from the spec: the diffs of no original line against every
    suffix of the formatted lines [ys], longest suffix first. *)
Fixpoint insert_row (ys : list string) : list scored :=
  match ys with
  | [] => [(0%nat, [])]
  | y :: ys' =>
      let rest := insert_row ys' in
      (0%nat, Ins y :: (first rest).2) :: rest
  end.

(** Modelled from the spec: the diffs of [x :: xs] against every suffix of
    [ys], from those of [xs] in [below]: equal lines are kept; otherwise the
    diff that keeps more lines wins, and on a tie the original line is
    deleted first, so that a changed block lists its deletions before its
    insertions. *)
Fixpoint diff_row (x : string) (ys : list string) (below : list scored)
  : list scored :=
  match ys with
  | [] => [((first below).1, Del x :: (first below).2)]
  | y :: ys' =>
      let rest := diff_row x ys' (tl below) in
      let cell :=
        if String.eqb x y then
          (S (first (tl below)).1, Keep x :: (first (tl below)).2)
        else if ((first below).1 <? (first rest).1)%nat then
          ((first rest).1, Ins y :: (first rest).2)
        else ((first below).1, Del x :: (first below).2) in
      cell :: rest
  end.

(** Modelled from the spec: the diffs of the original lines [xs] against
    every suffix of the formatted lines [ys]. *)
Fixpoint diff_rows (xs ys : list string) : list scored :=
  match xs with
  | [] => insert_row ys
  | x :: xs' => diff_row x ys (diff_rows xs' ys)
  end.

(** Modelled from the spec: the line diff of the diff reporter, one that
    keeps as many lines as possible. *)
Definition line_diff (xs ys : list string) : list edit :=
  (first (diff_rows xs ys)).2.

(** Modelled from the spec: whether an entry of a diff changes the
    original. *)
Definition is_change (e : edit) : bool :=
  match e with Keep _ => false | _ => true end.

(** Modelled from the spec: the entries a unified diff shows: the changed
    lines and the unchanged lines within [n] lines of one; [before] holds
    the entries already passed, nearest first. *)
Fixpoint mark_shown (n : nat) (before es : list edit) : list (bool * edit) :=
  match es with
  | [] => []
  | e :: es' =>
      (existsb is_change (take n before) || existsb is_change (take (S n) es),
       e) :: mark_shown n (e :: before) es'
  end.

(** Modelled from the spec: a hunk of a unified diff: the lines before it
    in the original and in the formatted content, the lines it covers in
    each, and its body. *)
Record hunk : Type := mkHunk {
  h_a : nat;
  h_na : nat;
  h_b : nat;
  h_nb : nat;
  h_body : list string
}.

(** Modelled from the spec: a hunk with one more entry, printed with the
    marks of the unified format: a space, [-] or [+]. *)
Definition hunk_add (e : edit) (h : hunk) : hunk :=
  match e with
  | Keep l =>
      mkHunk (h_a h) (S (h_na h)) (h_b h) (S (h_nb h))
        (h_body h ++ [String " " l])
  | Del l =>
      mkHunk (h_a h) (S (h_na h)) (h_b h) (h_nb h) (h_body h ++ [String "-" l])
  | Ins l =>
      mkHunk (h_a h) (h_na h) (h_b h) (S (h_nb h)) (h_body h ++ [String "+" l])
  end.

(** Modelled from the spec: the hunks of a unified diff, the maximal runs
    of shown entries; [a] and [b] count the lines passed in the original and
    in the formatted content, [cur] is the hunk being filled. *)
Fixpoint hunks_go (a b : nat) (cur : option hunk) (es : list (bool * edit))
  : list hunk :=
  match es with
  | [] => match cur with Some h => [h] | None => [] end
  | (shown, e) :: es' =>
      let a' := match e with Ins _ => a | _ => S a end in
      let b' := match e with Del _ => b | _ => S b end in
      if shown then
        let h := match cur with Some h => h | None => mkHunk a 0 b 0 [] end in
        hunks_go a' b' (Some (hunk_add e h)) es'
      else
        match cur with
        | Some h => h :: hunks_go a' b' None es'
        | None => hunks_go a' b' None es'
        end
  end.

(** Modelled from the spec: a line number in decimal. *)
Definition decimal (n : nat) : string :=
  NilZero.string_of_uint (Nat.to_uint n).

(** Modelled from the spec: a range of a hunk header in the unified
    format: first line and length, the length left out when it is 1; an
    empty range names the line before it. *)
Definition range (start len : nat) : string :=
  match len with
  | O => decimal start +:+ ",0"
  | S O => decimal (S start)
  | _ => decimal (S start) +:+ "," +:+ decimal len
  end.

(** Modelled from the spec: the header of a hunk, [@@ -a,n +b,m @@]. *)
Definition hunk_header (h : hunk) : string :=
  "@@ -" +:+ range (h_a h) (h_na h) +:+ " +" +:+ range (h_b h) (h_nb h)
  +:+ " @@".

(** Modelled from the spec: a hunk as the report prints it: its header, an
    empty line, and its body. *)
Definition hunk_text (h : hunk) : string :=
  hunk_header h +:+ nl +:+ nl +:+
  String.concat "" ((fun l => l +:+ nl) <$> h_body h).

(** Modelled from the spec: the unified diff of the diff reporter, with
    three lines of context, from [original] to [formatted]: the header
    lines [--- original] and [+++ formatted], each followed by an empty line
    as in the report format
    [--- original\n\n+++ formatted\n\n@@ ...@@\n<diff body>], and the
    hunks; a hunk header is followed by an empty line too, as in the
    expected outputs of [generate_formatter_tests]. *)
Definition unified_diff (original formatted : string) : string :=
  "--- original" +:+ nl +:+ nl +:+ "+++ formatted" +:+ nl +:+ nl +:+
  String.concat ""
    (hunk_text <$>
     hunks_go 0 0 None
       (mark_shown 3 [] (line_diff (lines original) (lines formatted)))).

(** Modelled from the spec: the report of the diff reporter for one file:
    the file name, a rule of twenty [=], and the unified diff. *)
Definition report (filename original formatted : string) : bytes :=
  filename +:+ nl +:+ "====================" +:+ nl +:+
  unified_diff original formatted.

Section Wrapper.

(** The native formatter, an opaque subprocess: from the tool's name, its
    flags and the content of a file to its raw exit code and the formatted
    content. *)
Variable formatter : string -> list string -> string -> Z * string.

(** Modelled from the spec: the format-checking wrapper on one file
    ([hooks/clang_format.py], [hooks/uncrustify.py] and [hooks/utils.py] are
    not in the tree).  The diff reporter compares the original content with
    the formatted content and reports when it changed, unless [--no-diff]
    suppresses the report; the exit-code policy gives 1 for a raw code
    other than 0 or for changed content, and 0 otherwise. *)
Definition check_file (cmd : string) (args : list string) (d : Disk)
  (f : string) : result (bytes * Z) :=
  match d !! f with
  | None => Raise FileNotFoundError
  | Some original =>
      let '(raw, formatted) := formatter cmd args original in
      let changed := negb (String.eqb original formatted) in
      Ok (if changed && negb (list_in "--no-diff" args)
          then report f original formatted else "",
          if negb (raw =? 0) || changed then 1 else 0)
  end.

(** Modelled from the spec: the wrapper on its list of files: the reports
    in the order of the files, and failure when one file fails. *)
Fixpoint run (cmd : string) (args : list string) (fs : list string)
  (d : Disk) : result (bytes * Z) :=
  match fs with
  | [] => Ok ("", 0)
  | f :: fs' =>
      '(out, code) ← check_file cmd args d f;
      '(out', code') ← run cmd args fs' d;
      Ok (out +:+ out', Z.max code code')
  end.

End Wrapper.

End FormatChecker.

(** ** Reading the specification *)

(** The exit code a wrapper's scenario expects on a flawed file: the lists
    [retcodes], [iwyu_retcodes] and [oclint_retcodes] at the flawed
    positions. *)
Definition tool_failure_code (c : CmdClass) : Z :=
  match c with
  | IncludeWhatYouUseCmd => 3
  | OCLintCmd => 6
  | _ => 1
  end.

Definition clean_target (cls : GeneratorT) (s : Scenario) : Prop :=
  sc_files s = [ok_c cls] \/ sc_files s = [ok_cpp cls].

Definition flawed_target (cls : GeneratorT) (s : Scenario) : Prop :=
  sc_files s = [err_c cls] \/ sc_files s = [err_cpp cls].

(** A scenario over one fixture file. *)
Definition single_row (cls : GeneratorT) (s : Scenario) : Prop :=
  clean_target cls s /\ sc_expd_output s = "" /\ sc_expd_retcode s = 0
  \/
  flawed_target cls s /\ sc_expd_output s <> "" /\
    sc_expd_retcode s = tool_failure_code (sc_class s) /\
    (sc_class s = IncludeWhatYouUseCmd ->
     str_in "should return a value" (sc_expd_output s) = true).

(** A scenario of [get_multifile_scenarios_no_diff]. *)
Definition no_diff_row (cls : GeneratorT) (s : Scenario) : Prop :=
  sc_files s = [err_c cls; err_cpp cls] /\
  list_in "--no-diff" (sc_args s) = true /\
  (sc_class s = ClangFormatCmd \/ sc_class s = UncrustifyCmd) /\
  sc_expd_output s = "" /\ sc_expd_retcode s = 1.

(** The class attributes as [generate_list_tests] sets them. *)
Definition attributes_set (cls : GeneratorT) : Prop :=
  files cls = [ok_c cls; ok_cpp cls; err_c cls; err_cpp cls] /\
  retcodes cls = [0; 0; 1; 1].

(** The four fixture paths are pairwise different. *)
Definition distinct_paths (cls : GeneratorT) : Prop :=
  NoDup [ok_c cls; ok_cpp cls; err_c cls; err_cpp cls].

(** The unified diff the format checkers report for a flawed fixture file
    under the Google style. *)
Definition google_style_diff (filename include : string) : bytes :=
  filename +:+ "
====================
--- original

+++ formatted

@@ -1,2 +1,5 @@

 #include " +:+ include +:+ "
-int main(){int i;return;}
+int main() {
+  int i;
+  return;
+}
".

(** Exit-code/fixture agreement as the specification words it: whatever
    else a scenario holds, a clean target means exit code 0 and no output,
    a flawed target the tool's failure code and some output. *)
Definition fixture_agreement (env : Env) : Prop :=
  forall table s f,
    generate_list_tests env = Ok table -> s ∈ table -> f ∈ sc_files s ->
    let cls := generator_attributes env in
    (f = ok_c cls \/ f = ok_cpp cls ->
     sc_expd_retcode s = 0 /\ sc_expd_output s = "") /\
    (f = err_c cls \/ f = err_cpp cls ->
     sc_expd_retcode s = tool_failure_code (sc_class s) /\
     sc_expd_output s <> "").

(** The clang-format scenario over the flawed C file, with the working
    directory of [posix_env] below. *)
Definition sample_flawed_scenario : Scenario :=
  mkScenario ClangFormatCmd ["--style=google"] ["/repo/tests/test_repo/err.c"]
    (google_style_diff "/repo/tests/test_repo/err.c" "<stdio.h>") 1.

(** A POSIX environment with recent tools. *)
Definition posix_env : Env :=
  mkEnv "posix" "/repo"
    (<["cppcheck" := "2.3"]> (<["oclint" := "22.02"]> ∅))
    (Ok "OCLint version 22.02.").

(** The same environment with a cppcheck version between the two
    thresholds. *)
Definition odd_cppcheck_env : Env :=
  mkEnv "posix" "/repo"
    (<["cppcheck" := "1.88.1"]> (<["oclint" := "22.02"]> ∅))
    (Ok "OCLint version 22.02.").

(** Whether a table entry executes a generated scenario: it carries the
    scenario's command, arguments and expectations. *)
Definition executes (t : TestScenario) (s : Scenario) : Prop :=
  ts_cmd_name t = command (sc_class s) /\ ts_args t = sc_args s /\
  ts_expd_output t = sc_expd_output s /\
  ts_expd_retcode t = sc_expd_retcode s.

(** Cross-strategy agreement as the specification words it: every generated
    scenario is executed both through the in-process command object and
    through the installed entry point. *)
Definition two_strategies (platform gettempdir : string) (env : Env)
  (table_tests : list TableTest) : Prop :=
  forall scenarios tests s,
    generate_list_tests env = Ok scenarios ->
    setup_class platform gettempdir env table_tests = Ok tests ->
    s ∈ scenarios ->
    (exists t, t ∈ tests /\ executes t s /\
               strategy_of (ts_test_type t) = InProcessObject) /\
    (exists t, t ∈ tests /\ executes t s /\
               strategy_of (ts_test_type t) = InstalledEntryPoint).

(** The command line as the specification words it: hook name, flags,
    files. *)
Definition flags_precede_files : Prop :=
  forall cmd_name files args,
    cmd_to_run cmd_name files args = (cmd_name +:+ "-hook") :: args ++ files.

(** The in-place spellings, in the words of the specification. *)
Definition in_place_spelling (cmd_name : string) (args : list string) : Prop :=
  (cmd_name = "clang-format" /\ "-i" ∈ args) \/
  (cmd_name = "clang-tidy" /\ ("-fix" ∈ args \/ "--fix-errors" ∈ args)) \/
  (cmd_name = "uncrustify" /\ "--replace" ∈ args).

(** Some target path contains [err.c]. *)
Definition names_err_file (files : list string) : Prop :=
  exists f a b, f ∈ files /\ f = a +:+ "err.c" +:+ b.

Section Worded.
Variable platform : string.
Variable gettempdir : string.
Variable test_file_strs : gmap string string.
Variable repr_list : list string -> string.
Variable run_in : list string -> string -> Disk -> Disk.
Variable sp_run :
  list string -> option string -> Disk -> result (CompletedProcess * Disk).

(** The restoration invariant as the specification words it: after a
    scenario that runs an in-place-editing tool, every target file holds
    its fixture content. *)
Definition restored_after_in_place : Prop :=
  forall test_type cmd_name args files expd_output expd_retcode d f,
    determine_edit_in_place cmd_name args = true ->
    f ∈ files ->
    (test_run platform gettempdir test_file_strs repr_list run_in sp_run
       test_type cmd_name args files expd_output expd_retcode d).2 !! f
    = test_file_strs !! os_path_split_last platform f.

(** Restoration exactly under the two conditions, after any scenario. *)
Definition restoration_iff : Prop :=
  forall test_type cmd_name args files expd_output expd_retcode d,
    let ran :=
      call_test_type platform gettempdir test_file_strs repr_list run_in
        sp_run test_type cmd_name files args expd_output expd_retcode d in
    let done :=
      test_run platform gettempdir test_file_strs repr_list run_in sp_run
        test_type cmd_name args files expd_output expd_retcode d in
    (in_place_spelling cmd_name args /\ names_err_file files ->
     done = write_fixtures platform test_file_strs files ran.2) /\
    (~ (in_place_spelling cmd_name args /\ names_err_file files) ->
     done.2 = ran.2).

End Worded.

(** Fixture contents for the examples below. *)
Definition sample_fixtures : gmap string string :=
  <["err.c" := "#include <stdio.h>
int main(){int i;return;}"]>
  (<["ok.c" := "#include <stdio.h>
int main() { return 0; }
"]> ∅).

(** A formatter hook that rewrites its first target in place and reports
    that it did. *)
Definition rewriting_hook (argv : list string) (cwd : option string)
  (d : Disk) : result (CompletedProcess * Disk) :=
  match argv with
  | _ :: target :: _ =>
      Ok (mkCompleted "reformatted" "" 1, <[target := "reformatted"]> d)
  | _ => Raise FileNotFoundError
  end.

(** A formatter hook that rewrites its first target in place and reports
    the diff the table expects. *)
Definition formatting_hook (argv : list string) (cwd : option string)
  (d : Disk) : result (CompletedProcess * Disk) :=
  match argv with
  | _ :: target :: _ =>
      Ok (mkCompleted (google_style_diff target "<stdio.h>") "" 1,
          <[target := "reformatted"]> d)
  | _ => Raise FileNotFoundError
  end.

(** The scratch repository holding the two C fixture files. *)
Definition sample_disk : gmap string string :=
  <["/repo/tests/test_repo/err.c" := "#include <stdio.h>
int main(){int i;return;}"]>
  (<["/repo/tests/test_repo/ok.c" := "#include <stdio.h>
int main() { return 0; }
"]> ∅).

(** A formatter hook that rewrites its first target in place, prints
    nothing and exits with 0. *)
Definition silent_rewriting_hook (argv : list string) (cwd : option string)
  (d : Disk) : result (CompletedProcess * Disk) :=
  match argv with
  | _ :: target :: _ =>
      Ok (mkCompleted "" "" 0, <[target := "reformatted"]> d)
  | _ => Raise FileNotFoundError
  end.

(** A [pre-commit run] that prints only informational lines. *)
Definition silent_pre_commit (argv : list string) (cwd : option string)
  (d : Disk) : result (CompletedProcess * Disk) :=
  Ok (mkCompleted "" ("[INFO] Initializing environment." +:+ nl) 0, d).

(** A Windows environment without oclint. *)
Definition windows_env : Env :=
  mkEnv "nt" "C:\repo" (<["cppcheck" := "2.3"]> ∅) (Raise CalledProcessError).

(** [l] with its first [x] replaced by [y]. *)
Fixpoint replace_first (x y : string) (l : list string) : list string :=
  match l with
  | [] => []
  | z :: l' => if String.eqb z x then y :: l' else z :: replace_first x y l'
  end.

(** Whether the language flag of a scenario fits each of its targets: no
    [-std=c18] with a [.cpp] file, no [-std=c++20] with another file. *)
Definition language_consistent (s : Scenario) : bool :=
  forallb (fun f =>
             if endswith f ".cpp"
             then negb (list_in "-std=c18" (sc_args s))
             else negb (list_in "-std=c++20" (sc_args s)))
    (sc_files s).

(** The report of cppcheck up to 1.88 for the unused variable of a flawed
    fixture file. *)
Definition cppcheck_old_report (filename : string) : bytes :=
  "[" +:+ filename +:+ ":1]: (style) Unused variable: i
".

(** The report of cppcheck from 1.89. *)
Definition cppcheck_new_report (filename : string) : bytes :=
  filename +:+ ":2:16: style: Unused variable: i [unusedVariable]
int main(){int i;return;}
               ^
".

(** The report of oclint for a flawed fixture file; [scheme_s] is [s] when
    the link is an https one. *)
Definition oclint_report (filename scheme_s ver : string) : bytes :=
  "
Compiler Errors:
(please be aware that these errors will prevent OCLint from analyzing this source code)

" +:+ filename +:+ ":2:18: non-void function 'main' should return a value

Clang Static Analyzer Results:

" +:+ filename +:+ ":2:18: non-void function 'main' should return a value


OCLint Report

Summary: TotalFiles=0 FilesWithViolations=0 P1=0 P2=0 P3=0 


[OCLint (http" +:+ scheme_s +:+ "://oclint.org) v" +:+ ver +:+ "]
".

(** Whether every character of [s] satisfies [p]. *)
Fixpoint string_forall (p : ascii -> bool) (s : string) : bool :=
  match s with
  | EmptyString => true
  | String c s' => p c && string_forall p s'
  end.

(** The UTF-8 encoding of a code point. *)
Definition utf8_encode (cp : N) : string :=
  if (cp <? 128)%N then String (ascii_of_N cp) ""
  else if (cp <? 2048)%N then
    String (ascii_of_N (192 + cp / 64))
      (String (ascii_of_N (128 + cp mod 64)) "")
  else if (cp <? 65536)%N then
    String (ascii_of_N (224 + cp / 4096))
      (String (ascii_of_N (128 + (cp / 64) mod 64))
         (String (ascii_of_N (128 + cp mod 64)) ""))
  else
    String (ascii_of_N (240 + cp / 262144))
      (String (ascii_of_N (128 + (cp / 4096) mod 64))
         (String (ascii_of_N (128 + (cp / 64) mod 64))
            (String (ascii_of_N (128 + cp mod 64)) ""))).

(** The encoding of a text given by its code points. *)
Fixpoint utf8_encode_all (cps : list N) : string :=
  match cps with
  | [] => ""
  | cp :: cps' => utf8_encode cp +:+ utf8_encode_all cps'
  end.

(** The characters of the class [[\d.]]: the dot and the decimal digits. *)
Definition version_char (cp : N) : Prop := cp = 46%N \/ is_decimal cp = true.

(** No byte of [t] is a dot. *)
Definition no_dot (t : string) : bool :=
  string_forall (fun c => negb (Ascii.eqb c ".")) t.

(** The text of [n] informational lines of [pre-commit]. *)
Definition info_lines (lines : list string) : string :=
  foldr (fun l acc => "[INFO]" +:+ l +:+ nl +:+ acc) "" lines.

(** The flawed fixture files, as the expected diffs of the table show
    them. *)
Definition flawed_source (include : string) : string :=
  "#include " +:+ include +:+ "
int main(){int i;return;}".

(** What the Google style makes of a flawed fixture file. *)
Definition google_source (include : string) : string :=
  "#include " +:+ include +:+ "
int main() {
  int i;
  return;
}
".


(** The lines of the original that a diff accounts for, and those of the
    formatted content. *)
Definition original_lines (es : list FormatChecker.edit) : list string :=
  omap (fun e => match e with
                 | FormatChecker.Keep l | FormatChecker.Del l => Some l
                 | FormatChecker.Ins _ => None
                 end) es.

Definition formatted_lines (es : list FormatChecker.edit) : list string :=
  omap (fun e => match e with
                 | FormatChecker.Keep l | FormatChecker.Ins l => Some l
                 | FormatChecker.Del _ => None
                 end) es.

(** Every cell of a row is a diff from [xs] to its suffix of [ys]. *)
Fixpoint row_ok (xs ys : list string) (row : list FormatChecker.scored)
  {struct row} : Prop :=
  match row with
  | [] => False
  | c :: row' =>
      (original_lines c.2 = xs /\ formatted_lines c.2 = ys) /\
      match ys with
      | [] => row' = []
      | _ :: ys' => row_ok xs ys' row'
      end
  end.

(** ** Checks of the Python model on small inputs *)

Example format_example :
  str_format "{0}:{1} {{x}} {0}" ["a"; "b"] = Ok "a:b {x} a".
Proof. reflexivity. Qed.

Example format_auto_example :
  str_format "[{}:1]: {}" ["f"; "g"] = Ok "[f:1]: g".
Proof. reflexivity. Qed.

Example format_bytes_example :
  dyn_format (PBytes "") ["f"] = Raise (AttributeError "format").
Proof. reflexivity. Qed.

Example replace_example : replace "/" "\\" "a/b/c" = "a\\b\\c".
Proof. reflexivity. Qed.

Example str_le_example :
  str_le "1.88.1" "1.88" = false /\ str_ge "1.88.1" "1.89" = false /\
  str_le "1.87" "1.88" = true /\ str_ge "2.3" "1.89" = true.
Proof. repeat split. Qed.

Example posix_join_example :
  os_path_join "posix" "/r" ["tests"; "test_repo"] = "/r/tests/test_repo".
Proof. reflexivity. Qed.

Example nt_join_example :
  os_path_join "nt" "C:\r" ["tests"; "err.c"] = "C:\r\tests\err.c".
Proof. reflexivity. Qed.

Example split_last_example :
  os_path_split_last "posix" "/r/tests/err.c" = "err.c".
Proof. reflexivity. Qed.

Example sub_info_example :
  sub_info ("a" +:+ nl +:+ "[INFO] x y" +:+ nl +:+ "b[INFO] z")
  = "a" +:+ nl +:+ "b[INFO] z".
Proof. reflexivity. Qed.

Example sub_warnings_example :
  sub_warnings "x 1,234 warnings and 1 error, 12 warnings"
  = "x 1 error, 12 warnings".
Proof. reflexivity. Qed.

Example oclint_version_example :
  search_group1 ("OCLint (http://oclint.org/)." +:+ nl +:+
                 "  OCLint version 22.02." +:+ nl +:+ "  Built Mar")
  = Ok "22.02" /\
  search_group1 "OCLint version 0.13.1. x" = Ok "0.13.1" /\
  search_group1 "OCLint version 22" = Raise (AttributeError "group").
Proof. repeat split. Qed.

Example oclint_version_unicode_example :
  search_group1 "OCLint version ٣.٢. x" = Ok "٣.٢" /\
  search_group1 "OCLint version ٣. OCLint version 1.2." = Ok "٣" /\
  search_group1 "OCLint version ４２.𝟗.१.x" = Ok "４２.𝟗.१" /\
  search_group1 "OCLint version ².1." = Raise (AttributeError "group") /\
  search_group1 "OCLint version 1.٣x. OCLint version 2.3.4" = Ok "1" /\
  search_group1 "OCLint version Ⅳ.1. OCLint version ..5. " = Ok "..5".
Proof. repeat split. Qed.

Example table_size_example :
  length <$> generate_list_tests posix_env = Ok 50%nat.
Proof. vm_compute. reflexivity. Qed.

Lemma Ok_inj {A} (a b : A) : Ok a = Ok b -> a = b.
Proof. congruence. Qed.

(** ** Strings *)

Lemma append_nonempty a c b : String.append a (String c b) <> "".
Proof. destruct a; discriminate. Qed.

Lemma append_inj_r a b1 b2 : a +:+ b1 = a +:+ b2 -> b1 = b2.
Proof. induction a as [|c a IH]; simpl; [done|]. intros [= H]. auto. Qed.

Lemma str_in_append_r needle a b :
  str_in needle b = true -> str_in needle (a +:+ b) = true.
Proof.
  intros H. induction a as [|c a IH]; simpl; [done|].
  rewrite IH. apply orb_true_r.
Qed.

Lemma string_drop_split n s :
  (n <= String.length s)%nat -> exists a, s = a +:+ string_drop n s.
Proof.
  revert s. induction n as [|n IH]; intros s Hn.
  - exists "". by destruct s.
  - destruct s as [|c s]; simpl in *; [lia|].
    destruct (IH s) as [a Ha]; [lia|].
    exists (String c a).
    change (String c s = String c (a +:+ string_drop n s)). by f_equal.
Qed.

Lemma endswith_split s suffix :
  endswith s suffix = true -> exists a, s = a +:+ suffix.
Proof.
  unfold endswith. intros [Hlen Heq]%andb_true_iff.
  apply String.eqb_eq in Heq. apply Nat.leb_le in Hlen.
  destruct (string_drop_split (String.length s - String.length suffix) s)
    as [a Ha]; [lia|].
  exists a. by rewrite Heq in Ha.
Qed.

Lemma list_in_true x l : list_in x l = true <-> x ∈ l.
Proof.
  unfold list_in. rewrite existsb_exists. split.
  - intros (y & Hy%list_elem_of_In & ->%String.eqb_eq). done.
  - intros H. exists x. split; [by apply list_elem_of_In|apply String.eqb_refl].
Qed.

Lemma list_index_in x l :
  list_in x l = true -> exists k, list_index x l = Ok k /\ (k < length l)%nat.
Proof.
  induction l as [|y l IH]; simpl; [discriminate|].
  rewrite String.eqb_sym. destruct (String.eqb y x) eqn:E; simpl.
  - intros _. exists 0%nat. split; [done|lia].
  - intros H. destruct (IH H) as (k & -> & Hk). exists (S k). split; [done|lia].
Qed.

Lemma language_arg_set_total f a :
  exists a', language_arg_set f a = Ok a' /\ length a' = length a.
Proof.
  unfold language_arg_set.
  destruct (endswith f ".cpp"); simpl; [|eauto].
  destruct (list_in "-std=c18" a) eqn:E; [|eauto].
  destruct (list_index_in _ _ E) as (k & -> & Hk). simpl.
  eexists; split; [done|]. by rewrite length_insert.
Qed.

(** ** Paths *)

Lemma append_assoc_char a c b : (a +:+ String c "") +:+ b = a +:+ String c b.
Proof.
  induction a as [|x a IH]; [done|].
  change (String x ((a +:+ String c "") +:+ b) = String x (a +:+ String c b)).
  by f_equal.
Qed.

Lemma is_nt_sep_false c : c <> "/"%char -> c <> "\"%char -> is_nt_sep c = false.
Proof.
  intros H1 H2. unfold is_nt_sep.
  destruct (Ascii.eqb_spec c "\"); [done|].
  by destruct (Ascii.eqb_spec c "/").
Qed.

Lemma prefix_slash_false c b :
  c <> "/"%char -> String.prefix "/" (String c b) = false.
Proof.
  intros H. destruct (String.prefix "/" (String c b)) eqn:E; [|done].
  apply String.prefix_correct in E. simpl in E. destruct b; congruence.
Qed.

(** Joining a relative component puts it behind a prefix that depends on
    the directory only. *)
Lemma join1_relative os d :
  exists pre, forall c b,
    c <> "/"%char -> c <> "\"%char ->
    os_path_join os d [String c b] = pre +:+ String c b.
Proof.
  unfold os_path_join. simpl. destruct (is_nt os).
  - destruct (last_char d) as [l|] eqn:El.
    + destruct (is_nt_sep l) eqn:Es.
      * exists d. intros c b H1 H2. unfold nt_join1.
        by rewrite is_nt_sep_false, El, Es.
      * exists (d +:+ "\"). intros c b H1 H2. unfold nt_join1.
        rewrite is_nt_sep_false, El, Es by done.
        by rewrite append_assoc_char.
    + exists d. intros c b H1 H2. unfold nt_join1.
      by rewrite is_nt_sep_false, El.
  - destruct (String.eqb d "" || endswith d "/") eqn:E.
    + exists d. intros c b H1 H2. unfold posix_join1.
      rewrite (prefix_slash_false c b) by done. by rewrite E.
    + exists (d +:+ "/"). intros c b H1 H2. unfold posix_join1.
      rewrite (prefix_slash_false c b) by done. rewrite E.
      by rewrite append_assoc_char.
Qed.

Lemma generator_attributes_set env : attributes_set (generator_attributes env).
Proof. by split. Qed.

Lemma generator_attributes_distinct env :
  distinct_paths (generator_attributes env).
Proof.
  unfold distinct_paths, generator_attributes, join.
  cbn [ok_c ok_cpp err_c err_cpp].
  set (d := os_path_join _ (getcwd env) _).
  destruct (join1_relative (os_name env) d) as [p Hp].
  rewrite !Hp by done.
  repeat (apply NoDup_cons; split;
          [rewrite ?elem_of_cons, elem_of_nil;
           intros H; repeat destruct H as [H|H]; try done;
           apply append_inj_r in H; discriminate|]).
  apply NoDup_nil_2.
Qed.

(** ** The rows of the table *)

Ltac unfold_binds :=
  cbv beta iota delta
    [mbind result_bind fmap result_fmap py_getitem versions
     err_c err_cpp ok_c ok_cpp files retcodes].

Ltac eval_table :=
  cbv -[language_arg_set String.append oclint_version_search];
  repeat match goal with
  | |- context [language_arg_set ?f ?a] =>
      let a' := fresh "a" in
      let H := fresh "H" in
      destruct (language_arg_set_total f a) as (a' & H & _);
      rewrite H; clear H;
      cbv -[language_arg_set String.append oclint_version_search]
  end.

Ltac solve_row :=
  split; [reflexivity|];
  first
    [ left; split;
      [ first [left; reflexivity | right; reflexivity] | split; reflexivity ]
    | right; split;
      [ first [left; reflexivity | right; reflexivity]
      | split;
        [ first [apply append_nonempty | discriminate]
        | split;
          [ reflexivity
          | first [ discriminate
                  | intros _; apply str_in_append_r; vm_compute; reflexivity ]
          ] ] ] ].

Ltac solve_rows :=
  let H := fresh in
  intros H; first [discriminate H | injection H as <-];
  unfold single_row, clean_target, flawed_target; simpl;
  repeat (constructor; [solve_row|]); constructor.

Ltac open_attributes cls :=
  let Hf := fresh in
  let Hr := fresh in
  destruct cls as [v ec ecpp oc ocpp fs rs]; intros [Hf Hr];
  simpl in Hf, Hr; subst fs rs.

Lemma generate_formatter_rows env cls l :
  attributes_set cls ->
  generate_formatter_tests env cls = Ok l ->
  Forall (fun s => (sc_class s = ClangFormatCmd \/ sc_class s = UncrustifyCmd)
                   /\ single_row cls s) l.
Proof.
  open_attributes cls. unfold generate_formatter_tests.
  generalize (join env (getcwd env) ["tests"; "uncrustify_defaults.cfg"]).
  intros u. eval_table.
  intros [= <-]. unfold single_row, clean_target, flawed_target. simpl.
  repeat (constructor;
          [split; [first [left; reflexivity | right; reflexivity]|];
           first
             [ left; split;
               [ first [left; reflexivity | right; reflexivity]
               | split; reflexivity ]
             | right; split;
               [ first [left; reflexivity | right; reflexivity]
               | split; [apply append_nonempty
                        | split; [reflexivity|discriminate]] ] ] |]).
  constructor.
Qed.

Lemma generate_clang_tidy_rows cls l :
  attributes_set cls ->
  generate_clang_tidy_tests cls = Ok l ->
  Forall (fun s => sc_class s = ClangTidyCmd /\ single_row cls s) l.
Proof.
  open_attributes cls. unfold generate_clang_tidy_tests.
  eval_table. solve_rows.
Qed.

Lemma generate_cppcheck_rows cls l :
  attributes_set cls ->
  generate_cppcheck_tests cls = Ok l ->
  Forall (fun s => sc_class s = CppcheckCmd /\ single_row cls s) l.
Proof.
  open_attributes cls. unfold generate_cppcheck_tests. unfold_binds.
  destruct (v !! "cppcheck") as [ver|]; [|discriminate].
  destruct (str_le ver "1.88"); [eval_table; solve_rows|].
  destruct (str_ge ver "1.89"); eval_table; solve_rows.
Qed.

Lemma generate_cpplint_rows cls l :
  attributes_set cls ->
  generate_cpplint_tests cls = Ok l ->
  Forall (fun s => sc_class s = CpplintCmd /\ single_row cls s) l.
Proof.
  open_attributes cls. unfold generate_cpplint_tests.
  eval_table. solve_rows.
Qed.

Lemma generate_iwyu_rows cls l :
  attributes_set cls ->
  generate_iwyu_tests cls = Ok l ->
  Forall (fun s => sc_class s = IncludeWhatYouUseCmd /\ single_row cls s) l.
Proof.
  open_attributes cls. unfold generate_iwyu_tests.
  eval_table. solve_rows.
Qed.

Lemma generate_oclint_rows env cls l :
  attributes_set cls ->
  generate_oclint_tests env cls = Ok l ->
  Forall (fun s => sc_class s = OCLintCmd /\ single_row cls s) l.
Proof.
  open_attributes cls. unfold generate_oclint_tests. unfold_binds.
  destruct (v !! "oclint") as [ver|]; [|discriminate].
  destruct (oclint_version_output env) as [out|];
    [|destruct (str_gt ver "20"); eval_table; discriminate].
  destruct (search_group1 out) as [g|];
    [|destruct (str_gt ver "20"); eval_table; discriminate].
  destruct (str_gt ver "20"); eval_table; solve_rows.
Qed.

Lemma generate_table_rows env cls table :
  attributes_set cls ->
  generate_table env cls = Ok table ->
  Forall (fun s => no_diff_row cls s \/ single_row cls s) table.
Proof.
  intros Hcls. unfold generate_table.
  set (P := fun s => no_diff_row cls s \/ single_row cls s).
  assert (forall (Q : Scenario -> Prop) l,
             Forall (fun s => Q s /\ single_row cls s) l -> Forall P l) as Hsingle.
  { intros Q l Hl. eapply Forall_impl; [exact Hl|]. intros s [_ Hs]. by right. }
  assert (Forall P (get_multifile_scenarios_no_diff env [err_c cls; err_cpp cls]))
    as Hm.
  { unfold get_multifile_scenarios_no_diff, P, no_diff_row.
    repeat (apply Forall_cons; split;
            [left; rewrite list_in_true; simpl; split_and!;
             first [done | set_solver | tauto]|]).
    constructor. }
  pose proof (generate_formatter_rows env cls) as Hfmt.
  pose proof (generate_clang_tidy_rows cls) as Hct.
  pose proof (generate_cppcheck_rows cls) as Hcc.
  pose proof (generate_cpplint_rows cls) as Hcl.
  pose proof (generate_iwyu_rows cls) as Hiw.
  pose proof (generate_oclint_rows env cls) as Hoc.
  destruct (generate_formatter_tests env cls) as [l1|]; [|discriminate].
  destruct (generate_clang_tidy_tests cls) as [l2|]; [|discriminate].
  destruct (generate_cppcheck_tests cls) as [l3|]; [|discriminate].
  destruct (generate_cpplint_tests cls) as [l4|]; [|discriminate].
  specialize (Hfmt _ Hcls eq_refl). specialize (Hct _ Hcls eq_refl).
  specialize (Hcc _ Hcls eq_refl). specialize (Hcl _ Hcls eq_refl).
  apply Hsingle in Hfmt, Hct, Hcc, Hcl.
  cbv beta iota zeta delta [mbind result_bind].
  destruct (negb _).
  - destruct (generate_iwyu_tests cls) as [l5|]; [|discriminate].
    destruct (generate_oclint_tests env cls) as [l6|]; [|discriminate].
    specialize (Hiw _ Hcls eq_refl). specialize (Hoc _ Hcls eq_refl).
    apply Hsingle in Hiw, Hoc.
    intros <-%Ok_inj. rewrite !Forall_app. by split_and!.
  - intros <-%Ok_inj. rewrite !Forall_app. by split_and!.
Qed.

Lemma clean_not_flawed cls s :
  distinct_paths cls -> clean_target cls s -> flawed_target cls s -> False.
Proof.
  unfold distinct_paths, clean_target, flawed_target.
  rewrite !NoDup_cons, !elem_of_cons, elem_of_nil.
  intros (H1 & H2 & H3 & _) [Hc|Hc] [Hf|Hf]; rewrite Hc in Hf;
    injection Hf as Hf; naive_solver.
Qed.

Lemma generate_table_parts env cls table :
  generate_table env cls = Ok table ->
  exists l1,
    generate_formatter_tests env cls = Ok l1 /\ l1 ⊆ table /\
    (os_name env <> "nt" ->
     exists l5 l6,
       generate_iwyu_tests cls = Ok l5 /\ l5 ⊆ table /\
       generate_oclint_tests env cls = Ok l6 /\ l6 ⊆ table).
Proof.
  unfold generate_table.
  destruct (generate_formatter_tests env cls) as [l1|]; [|discriminate].
  destruct (generate_clang_tidy_tests cls) as [l2|]; [|discriminate].
  destruct (generate_cppcheck_tests cls) as [l3|]; [|discriminate].
  destruct (generate_cpplint_tests cls) as [l4|]; [|discriminate].
  cbv beta iota zeta delta [mbind result_bind].
  destruct (String.eqb_spec (os_name env) "nt") as [Hnt|Hnt]; simpl negb; cbv iota.
  - intros <-%Ok_inj. exists l1. split_and!; [done|set_solver|done].
  - destruct (generate_iwyu_tests cls) as [l5|]; [|discriminate].
    destruct (generate_oclint_tests env cls) as [l6|]; [|discriminate].
    intros <-%Ok_inj. exists l1. split_and!; [done|set_solver|].
    intros _. exists l5, l6. split_and!; [done|set_solver|done|set_solver].
Qed.

Lemma generate_iwyu_flawed cls l :
  attributes_set cls ->
  generate_iwyu_tests cls = Ok l ->
  exists s, s ∈ l /\ sc_class s = IncludeWhatYouUseCmd /\
            sc_files s = [err_c cls].
Proof.
  open_attributes cls. unfold generate_iwyu_tests. eval_table.
  intros <-%Ok_inj. eexists. split.
  - do 2 apply list_elem_of_further. apply list_elem_of_here.
  - split; reflexivity.
Qed.

Lemma generate_oclint_flawed env cls l :
  attributes_set cls ->
  generate_oclint_tests env cls = Ok l ->
  exists s, s ∈ l /\ sc_class s = OCLintCmd /\ sc_files s = [err_c cls].
Proof.
  intros Hcls Hl.
  assert (exists s1 s2 s3 s4, l = [s1; s2; s3; s4] /\ sc_files s3 = [err_c cls])
    as (s1 & s2 & s3 & s4 & -> & Hs3).
  { revert Hcls Hl. open_attributes cls.
    unfold generate_oclint_tests. unfold_binds.
    destruct (v !! "oclint") as [ver|]; [|discriminate].
    destruct (oclint_version_output env) as [out|];
      [|destruct (str_gt ver "20"); eval_table; discriminate].
    destruct (search_group1 out) as [g|];
      [|destruct (str_gt ver "20"); eval_table; discriminate].
    destruct (str_gt ver "20"); eval_table; intros <-%Ok_inj;
      by eexists _, _, _, _. }
  assert (s3 ∈ [s1; s2; s3; s4]) as Hin
    by (do 2 apply list_elem_of_further; apply list_elem_of_here).
  exists s3. split; [done|]. split; [|done].
  pose proof (generate_oclint_rows env cls _ Hcls Hl) as Hrows.
  rewrite Forall_forall in Hrows. by apply Hrows.
Qed.

(** ** Claims on the scenario table *)

(** C2, as the table has it.  Every scenario of the generated table is one
    of three kinds: over one clean fixture file, it expects exit code 0 and
    empty output; over one flawed fixture file, it expects the wrapper's
    failure code (1, or 3 for include-what-you-use, or 6 for oclint), which
    is not 0, and non-empty output; or it is one of the two [--no-diff]
    scenarios over both flawed files, which expect exit code 1 and empty
    output. *)
Theorem scenario_expectations env table s :
  generate_list_tests env = Ok table -> s ∈ table ->
  let cls := generator_attributes env in
  (clean_target cls s ->
   sc_expd_retcode s = 0 /\ sc_expd_output s = "") /\
  (flawed_target cls s ->
   sc_expd_retcode s = tool_failure_code (sc_class s) /\
   sc_expd_retcode s <> 0 /\ sc_expd_output s <> "") /\
  (clean_target cls s \/ flawed_target cls s \/ no_diff_row cls s).
Proof.
  intros Ht Hs cls.
  pose proof (generator_attributes_distinct env) as Hd. fold cls in Hd.
  pose proof (generate_table_rows env cls table
                (generator_attributes_set env) Ht) as Hrows.
  rewrite Forall_forall in Hrows. specialize (Hrows s Hs).
  assert (forall c, tool_failure_code c <> 0) as Hcode by (by intros []).
  destruct Hrows as [Hn|[(Hc & Ho & Hr)|(Hf & Ho & Hr & _)]].
  - pose proof Hn as (Hfiles & _ & _ & Ho & Hr). split_and!.
    + intros [Hc|Hc]; rewrite Hfiles in Hc; discriminate.
    + intros [Hf|Hf]; rewrite Hfiles in Hf; discriminate.
    + by right; right.
  - split_and!; [done| |by left].
    intros Hf. destruct (clean_not_flawed cls s Hd Hc Hf).
  - split_and!; [|by rewrite Hr|by right; left].
    intros Hc. destruct (clean_not_flawed cls s Hd Hc Hf).
Qed.

Lemma scenario_expectations_witness :
  exists table,
    generate_list_tests posix_env = Ok table /\
    sample_flawed_scenario ∈ table /\
    flawed_target (generator_attributes posix_env) sample_flawed_scenario /\
    sc_expd_retcode sample_flawed_scenario = 1 /\
    sc_expd_output sample_flawed_scenario <> "".
Proof.
  let t := eval vm_compute in (generate_list_tests posix_env) in
  match t with Ok ?l => exists l end.
  assert (generate_list_tests posix_env = Ok _) as Ht
    by (vm_compute; reflexivity).
  split; [exact Ht|].
  assert (sample_flawed_scenario ∈ _) as Hs
    by (do 10 apply list_elem_of_further; apply list_elem_of_here).
  split; [exact Hs|]. split; [by left|].
  destruct (scenario_expectations posix_env _ _ Ht Hs) as (_ & Hf & _).
  destruct (Hf (or_introl eq_refl)) as (Hr & _ & Ho). by split.
Defined.

(** C2 as worded does not hold of the table: the first scenario of the
    table runs clang-format with [--no-diff] over both flawed files and
    expects empty output. *)
Lemma fixture_agreement_fails : ~ fixture_agreement posix_env.
Proof.
  intros H.
  set (s := mkScenario ClangFormatCmd ["--style=google"; "--no-diff"]
              ["/repo/tests/test_repo/err.c"; "/repo/tests/test_repo/err.cpp"]
              "" 1).
  destruct (generate_list_tests posix_env) as [table|] eqn:Ht;
    [|vm_compute in Ht; discriminate].
  assert (s ∈ table) as Hs.
  { vm_compute in Ht. apply Ok_inj in Ht. subst table.
    apply list_elem_of_here. }
  destruct (H table s "/repo/tests/test_repo/err.c" Ht Hs) as [_ Hf].
  { apply list_elem_of_here. }
  destruct Hf as [_ Hout]; [by left|]. by apply Hout.
Qed.

(** C3.  In the generated table, an include-what-you-use scenario over a
    flawed fixture file expects exit code 3 and an output that contains
    [should return a value]; an oclint scenario over a flawed fixture file
    expects exit code 6; both expect exit code 0 over a clean fixture file.
    Off Windows the table does hold such scenarios for the flawed C file. *)
Theorem native_exit_codes env table :
  generate_list_tests env = Ok table ->
  let cls := generator_attributes env in
  (forall s, s ∈ table ->
     (sc_class s = IncludeWhatYouUseCmd -> flawed_target cls s ->
      sc_expd_retcode s = 3 /\
      str_in "should return a value" (sc_expd_output s) = true) /\
     (sc_class s = OCLintCmd -> flawed_target cls s ->
      sc_expd_retcode s = 6) /\
     (sc_class s = IncludeWhatYouUseCmd \/ sc_class s = OCLintCmd ->
      clean_target cls s -> sc_expd_retcode s = 0)) /\
  (os_name env <> "nt" ->
   exists s1 s2,
     s1 ∈ table /\ sc_class s1 = IncludeWhatYouUseCmd /\
     sc_files s1 = [err_c cls] /\
     s2 ∈ table /\ sc_class s2 = OCLintCmd /\ sc_files s2 = [err_c cls]).
Proof.
  intros Ht cls.
  pose proof (generator_attributes_distinct env) as Hd. fold cls in Hd.
  pose proof (generator_attributes_set env) as Hset. fold cls in Hset.
  pose proof (generate_table_rows env cls table Hset Ht) as Hrows.
  rewrite Forall_forall in Hrows. split.
  - intros s Hs. specialize (Hrows s Hs).
    destruct Hrows as [Hn|[(Hc & Ho & Hr)|(Hf & Ho & Hr & Hsub)]].
    + destruct Hn as (Hfiles & _ & Hclass & _).
      split_and!.
      * intros Hi. destruct Hclass; congruence.
      * intros Hi. destruct Hclass; congruence.
      * intros _ [Hc|Hc]; rewrite Hfiles in Hc; discriminate.
    + split_and!; try done.
      * intros _ Hf. destruct (clean_not_flawed cls s Hd Hc Hf).
      * intros _ Hf. destruct (clean_not_flawed cls s Hd Hc Hf).
    + split_and!.
      * intros Hi _. rewrite Hr, Hi. split; [done|by apply Hsub].
      * intros Hi _. by rewrite Hr, Hi.
      * intros _ Hc. destruct (clean_not_flawed cls s Hd Hc Hf).
  - intros Hnt.
    destruct (generate_table_parts env cls table Ht) as (l1 & _ & _ & Hrest).
    destruct (Hrest Hnt) as (l5 & l6 & H5 & Hsub5 & H6 & Hsub6).
    destruct (generate_iwyu_flawed cls l5 Hset H5) as (s1 & Hs1 & ? & ?).
    destruct (generate_oclint_flawed env cls l6 Hset H6) as (s2 & Hs2 & ? & ?).
    exists s1, s2. split_and!; try done; [by apply Hsub5|by apply Hsub6].
Qed.


Lemma native_exit_codes_witness :
  exists table s1 s2,
    generate_list_tests posix_env = Ok table /\
    s1 ∈ table /\ sc_class s1 = IncludeWhatYouUseCmd /\
    sc_files s1 = ["/repo/tests/test_repo/err.c"] /\
    sc_expd_retcode s1 = 3 /\
    s2 ∈ table /\ sc_class s2 = OCLintCmd /\
    sc_files s2 = ["/repo/tests/test_repo/err.c"] /\
    sc_expd_retcode s2 = 6.
Proof.
  destruct (generate_list_tests posix_env) as [table|] eqn:Ht;
    [|vm_compute in Ht; discriminate].
  destruct (native_exit_codes posix_env table Ht) as [Hall Hex].
  assert (os_name posix_env <> "nt") as Hnt by discriminate.
  destruct (Hex Hnt) as (s1 & s2 & Hs1 & Hc1 & Hf1 & Hs2 & Hc2 & Hf2).
  exists table, s1, s2.
  destruct (Hall s1 Hs1) as (Hi & _ & _).
  destruct (Hall s2 Hs2) as (_ & Ho & _).
  split; [reflexivity|]. split; [exact Hs1|]. split; [exact Hc1|].
  split; [exact Hf1|]. split; [exact (proj1 (Hi Hc1 (or_introl Hf1)))|].
  split; [exact Hs2|]. split; [exact Hc2|]. split; [exact Hf2|].
  exact (Ho Hc2 (or_introl Hf2)).
Defined.


Lemma generate_formatter_ok env cls :
  attributes_set cls -> exists l, generate_formatter_tests env cls = Ok l.
Proof.
  open_attributes cls. unfold generate_formatter_tests.
  generalize (join env (getcwd env) ["tests"; "uncrustify_defaults.cfg"]).
  intros u. eval_table. by eexists.
Qed.

Lemma generate_clang_tidy_ok cls :
  attributes_set cls -> exists l, generate_clang_tidy_tests cls = Ok l.
Proof.
  open_attributes cls. unfold generate_clang_tidy_tests.
  eval_table. by eexists.
Qed.

(** C6.  When the cppcheck version is neither [<= "1.88"] nor [>= "1.89"]
    in the string order the code compares with, the expected-output
    template is a [bytes] value, its [format] call raises, and with it
    [generate_cppcheck_tests], [generate_list_tests] and [setup_class]: no
    table is built and no template is chosen in silence. *)
Theorem unclassified_cppcheck_version_raises env ver :
  get_versions env !! "cppcheck" = Some ver ->
  str_le ver "1.88" = false ->
  str_ge ver "1.89" = false ->
  generate_cppcheck_tests (generator_attributes env)
    = Raise (AttributeError "format") /\
  generate_list_tests env = Raise (AttributeError "format") /\
  forall platform gettempdir table_tests,
    setup_class platform gettempdir env table_tests
    = Raise (AttributeError "format").
Proof.
  intros Hver Hle Hge.
  assert (generate_cppcheck_tests (generator_attributes env)
          = Raise (AttributeError "format")) as Hcpp.
  { unfold generate_cppcheck_tests, generator_attributes. unfold_binds.
    by rewrite Hver, Hle, Hge. }
  assert (generate_list_tests env = Raise (AttributeError "format")) as Hgen.
  { unfold generate_list_tests, generate_table.
    destruct (generate_formatter_ok env _ (generator_attributes_set env))
      as [l1 ->].
    destruct (generate_clang_tidy_ok _ (generator_attributes_set env))
      as [l2 ->].
    by rewrite Hcpp. }
  split; [done|]. split; [done|].
  intros platform gettempdir table_tests. unfold setup_class.
  by rewrite Hgen.
Qed.

Lemma unclassified_cppcheck_version_witness :
  get_versions odd_cppcheck_env !! "cppcheck" = Some "1.88.1" /\
  str_le "1.88.1" "1.88" = false /\
  str_ge "1.88.1" "1.89" = false /\
  generate_list_tests odd_cppcheck_env = Raise (AttributeError "format").
Proof.
  assert (get_versions odd_cppcheck_env !! "cppcheck" = Some "1.88.1") as Hver
    by reflexivity.
  assert (str_le "1.88.1" "1.88" = false) as Hle by reflexivity.
  assert (str_ge "1.88.1" "1.89" = false) as Hge by reflexivity.
  split; [exact Hver|]. split; [exact Hle|]. split; [exact Hge|].
  exact (proj1 (proj2 (unclassified_cppcheck_version_raises
                         odd_cppcheck_env "1.88.1" Hver Hle Hge))).
Defined.

(** ** Claims on the executor *)

Lemma prefix_split n h :
  String.prefix n h = true <-> exists b, h = n +:+ b.
Proof.
  revert h. induction n as [|c n IH]; intros h.
  - split; [intros _; by exists h|]. intros _. by destruct h.
  - destruct h as [|c' h]; simpl.
    + split; [discriminate|]. intros [b Hb]. discriminate.
    + destruct (Ascii.ascii_dec c c') as [->|Hne].
      * rewrite IH. split; intros [b Hb]; exists b.
        -- change (String c' h = String c' (n +:+ b)). by f_equal.
        -- by injection Hb.
      * split; [discriminate|]. intros [b Hb]. injection Hb as -> _. done.
Qed.

Lemma str_in_split n h :
  str_in n h = true <-> exists a b, h = a +:+ n +:+ b.
Proof.
  induction h as [|c h IH].
  - cbn [str_in]. rewrite orb_false_r, prefix_split. split.
    + intros [b Hb]. by exists "", b.
    + intros (a & b & Hab). destruct a; [by exists b|discriminate].
  - cbn [str_in]. rewrite orb_true_iff, IH, prefix_split. split.
    + intros [[b Hb]|(a & b & Hab)].
      * by exists "", b.
      * exists (String c a), b.
        change (String c h = String c (a +:+ n +:+ b)). by f_equal.
    + intros (a & b & Hab). destruct a as [|c' a].
      * left. by exists b.
      * right. exists a, b. by injection Hab.
Qed.

Lemma has_err_file_names files :
  has_err_file files = true <-> names_err_file files.
Proof.
  unfold has_err_file, names_err_file. rewrite existsb_exists. split.
  - intros (f & Hf%list_elem_of_In & (a & b & Hab)%str_in_split). by exists f, a, b.
  - intros (f & a & b & Hf & Hab). exists f. split; [by apply list_elem_of_In|].
    apply str_in_split. by exists a, b.
Qed.

Lemma determine_edit_in_place_spelling cmd_name args :
  determine_edit_in_place cmd_name args = true <->
  in_place_spelling cmd_name args.
Proof.
  unfold determine_edit_in_place, in_place_spelling.
  rewrite !orb_true_iff, !andb_true_iff, !orb_true_iff, !list_in_true,
    !String.eqb_eq.
  tauto.
Qed.

Lemma will_fix_in_place_spec cmd_name args files :
  determine_edit_in_place cmd_name args && has_err_file files = true <->
  in_place_spelling cmd_name args /\ names_err_file files.
Proof.
  by rewrite andb_true_iff, determine_edit_in_place_spelling,
    has_err_file_names.
Qed.

Lemma err_cpp_names_err_c f :
  endswith f "err.cpp" = true -> str_in "err.c" f = true.
Proof.
  intros [a ->]%endswith_split. by apply str_in_append_r.
Qed.

(** C8 as worded does not hold of [run_shell_cmd]: on the clang-format
    scenario over the flawed C file the file comes before the flag. *)
Lemma flags_precede_files_fails : ~ flags_precede_files.
Proof.
  intros H.
  specialize (H "clang-format" ["/repo/tests/test_repo/err.c"]
                ["--style=google"]).
  discriminate H.
Qed.

(** C8, as the executor has it.  The command line of a scenario run through
    the installed entry point is the hook name, then the target file paths,
    then the tool's flags; it is the one subprocess the run depends on. *)
Theorem files_precede_flags cmd_name files args :
  cmd_to_run cmd_name files args = (cmd_name +:+ "-hook") :: files ++ args /\
  forall sp_run sp_run' target_output target_retcode d,
    sp_run ((cmd_name +:+ "-hook") :: files ++ args) None d
    = sp_run' ((cmd_name +:+ "-hook") :: files ++ args) None d ->
    run_shell_cmd sp_run cmd_name files args target_output target_retcode d
    = run_shell_cmd sp_run' cmd_name files args target_output target_retcode d.
Proof.
  split; [done|].
  intros sp_run sp_run' target_output target_retcode d H.
  unfold run_shell_cmd, cmd_to_run. by rewrite H.
Qed.

(** C1 as worded does not hold of [setup_class]: no entry of the table runs
    a scenario through the in-process command object. *)
Lemma two_strategies_fails : ~ two_strategies "posix" "/tmp" posix_env [].
Proof.
  intros H.
  destruct (generate_list_tests posix_env) as [scenarios|] eqn:Hs;
    [|vm_compute in Hs; discriminate].
  destruct (setup_class "posix" "/tmp" posix_env []) as [tests|] eqn:Ht.
  2: { unfold setup_class in Ht. rewrite Hs in Ht. discriminate. }
  assert (mkScenario ClangFormatCmd ["--style=google"; "--no-diff"]
            ["/repo/tests/test_repo/err.c"; "/repo/tests/test_repo/err.cpp"]
            "" 1 ∈ scenarios) as Hin.
  { vm_compute in Hs. apply Ok_inj in Hs. subst scenarios.
    apply list_elem_of_here. }
  destruct (H scenarios tests _ Hs Ht Hin) as [(t & _ & _ & Hstr) _].
  by destruct (ts_test_type t).
Qed.

(** C1, as the executor has it.  [setup_class] turns every generated
    scenario into exactly one table entry, run by [run_shell_cmd] through
    the installed entry point under the command's name, with the scenario's
    arguments and expectations; no entry uses the in-process command object;
    the other entries are the integration runs.  A run through the entry
    point passes exactly when the subprocess starts and its normalised
    output and its exit code equal the expected ones. *)
Theorem single_strategy platform gettempdir env table_tests scenarios tests :
  generate_list_tests env = Ok scenarios ->
  setup_class platform gettempdir env table_tests = Ok tests ->
  tests = (shell_scenario platform <$> scenarios) ++
          (integration_scenario platform gettempdir (getcwd env) <$> table_tests)
  /\
  (forall s, s ∈ scenarios ->
     shell_scenario platform s ∈ tests /\
     executes (shell_scenario platform s) s /\
     ts_test_type (shell_scenario platform s) = RunShellCmd /\
     strategy_of (ts_test_type (shell_scenario platform s))
     = InstalledEntryPoint) /\
  (forall t, t ∈ tests -> strategy_of (ts_test_type t) <> InProcessObject) /\
  (forall t, t ∈ tests -> ts_test_type t = RunShellCmd ->
     exists s, s ∈ scenarios /\ t = shell_scenario platform s) /\
  (forall sp_run cmd_name files args target_output target_retcode d,
     (run_shell_cmd sp_run cmd_name files args target_output target_retcode d).1
     = Ok () <->
     exists sp_child d',
       sp_run (cmd_to_run cmd_name files args) None d = Ok (sp_child, d') /\
       normalize_warnings files args (stdout sp_child +:+ stderr sp_child)
       = target_output /\
       returncode sp_child = target_retcode).
Proof.
  intros Hs Ht. unfold setup_class in Ht. rewrite Hs in Ht.
  apply Ok_inj in Ht. subst tests. split; [done|]. split_and!.
  - intros s Hin. split_and!; try done.
    apply elem_of_app. left. by apply list_elem_of_fmap_2.
  - intros t _. by destruct (ts_test_type t).
  - intros t [Hin|Hin]%elem_of_app Hty.
    + apply list_elem_of_fmap in Hin as (s & -> & Hin). by exists s.
    + apply list_elem_of_fmap in Hin as (s & -> & Hin). discriminate Hty.
  - intros sp_run cmd_name files args target_output target_retcode d.
    unfold run_shell_cmd.
    destruct (sp_run (cmd_to_run cmd_name files args) None d)
      as [[sp_child d']|e] eqn:Hrun; cbn [fst].
    + unfold assert_equal, assert_eqZ.
      cbv beta iota delta [mbind result_bind].
      destruct (String.eqb_spec target_output
                  (normalize_warnings files args
                     (stdout sp_child +:+ stderr sp_child))) as [Ho|Ho].
      * destruct (Z.eqb_spec target_retcode (returncode sp_child)) as [Hr|Hr].
        -- split; [|done]. intros _. by exists sp_child, d'.
        -- split; [discriminate|].
           intros (c & d'' & [= <- <-] & _ & Hr'). congruence.
      * split; [discriminate|].
        intros (c & d'' & [= <- <-] & Ho' & _). congruence.
    + split; [discriminate|]. intros (c & d'' & [=] & _).
Qed.

Lemma single_strategy_witness :
  exists scenarios tests,
    generate_list_tests posix_env = Ok scenarios /\
    setup_class "posix" "/tmp" posix_env [] = Ok tests /\
    tests = shell_scenario "posix" <$> scenarios /\
    forall t, t ∈ tests -> strategy_of (ts_test_type t) <> InProcessObject.
Proof.
  destruct (generate_list_tests posix_env) as [scenarios|] eqn:Hs;
    [|vm_compute in Hs; discriminate].
  assert (setup_class "posix" "/tmp" posix_env []
          = Ok (shell_scenario "posix" <$> scenarios)) as Ht.
  { unfold setup_class. rewrite Hs.
    change (Ok ((shell_scenario "posix" <$> scenarios) ++ [])
            = Ok (shell_scenario "posix" <$> scenarios)).
    by rewrite app_nil_r. }
  exists scenarios, (shell_scenario "posix" <$> scenarios).
  split; [reflexivity|]. split; [exact Ht|]. split; [reflexivity|].
  exact (proj1 (proj2 (proj2
           (single_strategy "posix" "/tmp" posix_env [] scenarios _ Hs Ht)))).
Defined.

Lemma write_fixtures_ok platform (T : gmap string string) fs (d : gmap string string) :
  (forall f, f ∈ fs -> is_Some (T !! os_path_split_last platform f)) ->
  exists d',
    write_fixtures platform T fs d = (Ok (), d') /\
    (forall f, f ∈ fs -> d' !! f = T !! os_path_split_last platform f) /\
    (forall f, f ∉ fs -> d' !! f = d !! f).
Proof.
  revert d. induction fs as [|f0 fs IH]; intros d Hall.
  - exists d. split; [done|]. split; [|done]. intros f Hf. by inversion Hf.
  - destruct (Hall f0) as [c Hc]; [by left|].
    destruct (IH (<[f0 := c]> (<[f0 := ""]> d))) as (d' & Hw & Hin & Hout).
    { intros f Hf. apply Hall. by right. }
    exists d'. cbn [write_fixtures]. unfold py_getitem. rewrite Hc.
    split; [exact Hw|]. split.
    + intros f Hf. destruct (decide (f ∈ fs)) as [Hfs|Hfs]; [by apply Hin|].
      apply elem_of_cons in Hf as [->|Hf]; [|done].
      rewrite Hout by done. by rewrite lookup_insert_eq.
    + intros f Hf. apply not_elem_of_cons in Hf as [Hne Hf].
      rewrite Hout by done. by rewrite !lookup_insert_ne.
Qed.

Section ExecutorClaims.
Variable platform : string.
Variable gettempdir : string.
Variable test_file_strs : gmap string string.
Variable repr_list : list string -> string.
Variable run_in :
  list string -> string -> gmap string string -> gmap string string.
Variable sp_run :
  list string -> option string -> gmap string string ->
  result (CompletedProcess * gmap string string).

Local Abbreviation call :=
  (call_test_type platform gettempdir test_file_strs repr_list run_in sp_run).
Local Abbreviation run :=
  (test_run platform gettempdir test_file_strs repr_list run_in sp_run).
Local Abbreviation restore := (write_fixtures platform test_file_strs).
Local Abbreviation base := (os_path_split_last platform).

(** C10, as the executor has it.  When the test function of a scenario
    returns normally, the executor rewrites the target files from the
    fixture dict if and only if the command and arguments are one of the
    spellings clang-format with [-i], clang-tidy with [-fix] or
    [--fix-errors], uncrustify with [--replace], and some target path
    contains [err.c]; otherwise it leaves the disk as the test function
    left it.  When the test function raises, the exception is passed on
    and nothing is rewritten.  A path that ends in [err.cpp] contains
    [err.c]. *)
Theorem restoration_condition test_type cmd_name args files expd_output
  expd_retcode d :
  let ran := call test_type cmd_name files args expd_output expd_retcode d in
  let done := run test_type cmd_name args files expd_output expd_retcode d in
  match ran.1 with
  | Ok _ =>
      (in_place_spelling cmd_name args /\ names_err_file files ->
       done = restore files ran.2) /\
      (~ (in_place_spelling cmd_name args /\ names_err_file files) ->
       done = (Ok (), ran.2))
  | Raise e => done = (Raise e, ran.2)
  end /\
  (forall f, endswith f "err.cpp" = true -> names_err_file [f]).
Proof.
  intros ran done. split.
  - subst done. unfold test_run. fold ran.
    destruct ran as [[u|e] d1]; cbn [fst snd]; [|done].
    pose proof (will_fix_in_place_spec cmd_name args files) as Hspec.
    destruct (determine_edit_in_place cmd_name args && has_err_file files).
    + split; [done|]. intros Hn. destruct Hn. by apply Hspec.
    + split; [|done]. intros Hy. apply Hspec in Hy. discriminate.
  - intros f Hf. apply has_err_file_names. unfold has_err_file. simpl.
    by rewrite (err_cpp_names_err_c f Hf).
Qed.

(** C7, as the executor has it.  After a scenario whose command and
    arguments are one of the in-place spellings, whose targets include a
    path that contains [err.c] and are all named after fixture files, and
    whose test function returns normally, every target file holds its
    fixture content and no other file is touched. *)
Theorem restoration_after_passing_in_place test_type cmd_name args files
  expd_output expd_retcode d d1 :
  call test_type cmd_name files args expd_output expd_retcode d
  = (Ok (), d1) ->
  determine_edit_in_place cmd_name args = true ->
  has_err_file files = true ->
  (forall f, f ∈ files -> is_Some (test_file_strs !! base f)) ->
  exists d2,
    run test_type cmd_name args files expd_output expd_retcode d
    = (Ok (), d2) /\
    (forall f, f ∈ files -> d2 !! f = test_file_strs !! base f) /\
    (forall f, f ∉ files -> d2 !! f = d1 !! f).
Proof.
  intros Hcall Hedit Herr Hall.
  destruct (write_fixtures_ok platform test_file_strs files d1 Hall)
    as (d2 & Hw & Hin & Hout).
  exists d2. unfold test_run. by rewrite Hcall, Hedit, Herr.
Qed.

(** C9.  In an integration run, once the fixtures are written and
    [pre-commit run] has finished, an output that is empty after the
    informational lines are stripped makes the run fail through
    [pytest.fail] with its own message, whatever output and exit code
    were expected: the comparison with the expected output is not
    reached. *)
Theorem empty_integration_output_fails cmd_name files args d d1 sp_child d2 :
  restore files d = (Ok (), d1) ->
  sp_run ["pre-commit"; "run"] (Some (tmpdir platform gettempdir))
    (staged_disk platform gettempdir repr_list run_in cmd_name files args d1)
  = Ok (sp_child, d2) ->
  sub_info (stderr sp_child +:+ stdout sp_child) = "" ->
  forall target_output target_retcode,
    run_integration_test platform gettempdir test_file_strs repr_list run_in
      sp_run cmd_name files args target_output target_retcode d
    = (Raise (PytestFail "pre-commit should provide output, but none found."),
       d2).
Proof.
  intros Hw Hrun Hempty target_output target_retcode.
  unfold run_integration_test. rewrite Hw, Hrun, Hempty.
  unfold normalize_warnings. by destruct (_ && _).
Qed.

(** An output that is not empty and differs from the expected one fails
    through the assertion of [utils.assert_equal] instead. *)
Lemma integration_output_mismatch cmd_name files args d d1 sp_child d2
  target_output target_retcode :
  restore files d = (Ok (), d1) ->
  sp_run ["pre-commit"; "run"] (Some (tmpdir platform gettempdir))
    (staged_disk platform gettempdir repr_list run_in cmd_name files args d1)
  = Ok (sp_child, d2) ->
  let output_actual :=
    normalize_warnings files args
      (sub_info (stderr sp_child +:+ stdout sp_child)) in
  output_actual <> "" ->
  output_actual
  <> replace "{test_dir}" (encode (tmpdir platform gettempdir)) target_output ->
  run_integration_test platform gettempdir test_file_strs repr_list run_in
    sp_run cmd_name files args target_output target_retcode d
  = (Raise AssertionError, d2).
Proof.
  intros Hw Hrun out Hne Hdiff.
  unfold run_integration_test. rewrite Hw, Hrun. fold out.
  destruct (String.eqb_spec out ""); [done|].
  unfold assert_equal.
  destruct (String.eqb_spec
              (replace "{test_dir}" (encode (tmpdir platform gettempdir))
                 target_output) out); [congruence|done].
Qed.

End ExecutorClaims.

(** C10 as worded does not hold of [test_run]: the clang-format scenario
    with [-i] over the flawed C file meets both conditions, but when the
    hook's report differs from the expected diff the assertion raises and
    the file stays as the hook left it. *)
Lemma restoration_iff_fails :
  ~ restoration_iff "posix" "/tmp" sample_fixtures (fun _ => "[]")
      (fun _ _ d => d) rewriting_hook.
Proof.
  intros H.
  destruct (H RunShellCmd "clang-format" ["--style=google"; "-i"]
              ["/repo/tests/test_repo/err.c"]
              (google_style_diff "/repo/tests/test_repo/err.c" "<stdio.h>")
              1 sample_disk) as [Hrestore _].
  assert (in_place_spelling "clang-format" ["--style=google"; "-i"] /\
          names_err_file ["/repo/tests/test_repo/err.c"]) as Hcond.
  { split.
    - left. split; [done|]. apply list_in_true. reflexivity.
    - apply has_err_file_names. reflexivity. }
  specialize (Hrestore Hcond). apply (f_equal fst) in Hrestore.
  vm_compute in Hrestore. discriminate Hrestore.
Qed.

(** C7 as worded does not hold of [test_run]: clang-format with [-i] over
    the clean C file is an in-place scenario, and when the hook rewrites the
    file without a report the scenario passes and the file is left
    rewritten. *)
Lemma restored_after_in_place_fails :
  ~ restored_after_in_place "posix" "/tmp" sample_fixtures (fun _ => "[]")
      (fun _ _ d => d) silent_rewriting_hook.
Proof.
  intros H.
  assert ("/repo/tests/test_repo/ok.c" ∈ ["/repo/tests/test_repo/ok.c"])
    as Hin by apply list_elem_of_here.
  specialize (H RunShellCmd "clang-format" ["--style=google"; "-i"]
                ["/repo/tests/test_repo/ok.c"] "" 0 sample_disk
                "/repo/tests/test_repo/ok.c" eq_refl Hin).
  vm_compute in H. discriminate H.
Qed.

Lemma restoration_after_passing_in_place_witness :
  exists d2,
    test_run "posix" "/tmp" sample_fixtures (fun _ => "[]") (fun _ _ d => d)
      formatting_hook RunShellCmd "clang-format" ["--style=google"; "-i"]
      ["/repo/tests/test_repo/err.c"]
      (google_style_diff "/repo/tests/test_repo/err.c" "<stdio.h>") 1
      sample_disk
    = (Ok (), d2) /\
    d2 !! "/repo/tests/test_repo/err.c" = sample_fixtures !! "err.c".
Proof.
  destruct (restoration_after_passing_in_place
              "posix" "/tmp" sample_fixtures (fun _ => "[]") (fun _ _ d => d)
              formatting_hook RunShellCmd "clang-format"
              ["--style=google"; "-i"] ["/repo/tests/test_repo/err.c"]
              (google_style_diff "/repo/tests/test_repo/err.c" "<stdio.h>") 1
              sample_disk
              (<["/repo/tests/test_repo/err.c" := "reformatted"]> sample_disk))
    as (d2 & Hrun & Hin & _).
  - reflexivity.
  - reflexivity.
  - reflexivity.
  - intros f Hf. apply list_elem_of_singleton in Hf. subst f.
    exists "#include <stdio.h>
int main(){int i;return;}". reflexivity.
  - exists d2. split; [exact Hrun|].
    apply (Hin "/repo/tests/test_repo/err.c"), list_elem_of_here.
Defined.

Lemma empty_integration_output_witness :
  run_integration_test "posix" "/tmp" sample_fixtures (fun _ => "[]")
    (fun _ _ d => d) silent_pre_commit "clang-format" [] ["--style=google"]
    "" 0 ∅
  = (Raise (PytestFail "pre-commit should provide output, but none found."),
     staged_disk "posix" "/tmp" (fun _ => "[]") (fun _ _ d => d)
       "clang-format" [] ["--style=google"] ∅).
Proof.
  apply (empty_integration_output_fails "posix" "/tmp" sample_fixtures
           (fun _ => "[]") (fun _ _ d => d) silent_pre_commit
           "clang-format" [] ["--style=google"] ∅ ∅
           (mkCompleted "" ("[INFO] Initializing environment." +:+ nl) 0)).
  - reflexivity.
  - reflexivity.
  - reflexivity.
Defined.

(** ** The claim on the cppcheck wrapper *)

Lemma run_files_spawns self fs :
  Cppcheck.run_files self fs
  = Cppcheck.Spawn <$> ((fun f => f :: Cppcheck.args self) <$> fs).
Proof.
  induction fs as [|f fs IH]; [done|].
  cbn [Cppcheck.run_files]. rewrite IH. done.
Qed.

Lemma spawns_of_spawn_list l :
  Cppcheck.spawns (Cppcheck.Spawn <$> l) = l.
Proof.
  unfold Cppcheck.spawns. induction l as [|a l IH]; [done|].
  cbn. by rewrite IH.
Qed.

(** C4.  [CppcheckCmd.run] prints the working directory, then starts one
    subprocess for each file of [self.files], in their order, each with
    that file followed by the shared [self.args], and makes the
    exit-on-error check once, after the last subprocess. *)
Theorem cppcheck_runs_each_file_alone cwd self :
  Cppcheck.run cwd self
  = [Cppcheck.Print ("Running in directory: " +:+ cwd)] ++
    (Cppcheck.Spawn <$>
       ((fun f => f :: Cppcheck.args self) <$> Cppcheck.files self)) ++
    [Cppcheck.ExitOnError] /\
  Cppcheck.spawns (Cppcheck.run cwd self)
  = (fun f => f :: Cppcheck.args self) <$> Cppcheck.files self /\
  length (Cppcheck.spawns (Cppcheck.run cwd self))
  = length (Cppcheck.files self) /\
  (forall i f, Cppcheck.files self !! i = Some f ->
     Cppcheck.spawns (Cppcheck.run cwd self) !! i
     = Some (f :: Cppcheck.args self)).
Proof.
  assert (Cppcheck.spawns (Cppcheck.run cwd self)
          = (fun f => f :: Cppcheck.args self) <$> Cppcheck.files self) as Hsp.
  { unfold Cppcheck.run. rewrite run_files_spawns.
    unfold Cppcheck.spawns, Cppcheck.exit_on_error.
    rewrite !omap_app. cbn [omap].
    change (omap _ (Cppcheck.Spawn <$> ?l)) with
      (Cppcheck.spawns (Cppcheck.Spawn <$> l)).
    rewrite spawns_of_spawn_list. by rewrite app_nil_r. }
  split_and!.
  - unfold Cppcheck.run. by rewrite run_files_spawns.
  - exact Hsp.
  - by rewrite Hsp, length_fmap.
  - intros i f Hi. by rewrite Hsp, list_lookup_fmap, Hi.
Qed.

(** ** Further properties of the executor *)

Section ExecutorProperties.
Variable platform : string.
Variable gettempdir : string.
Variable test_file_strs : gmap string string.
Variable repr_list : list string -> string.
Variable run_in :
  list string -> string -> gmap string string -> gmap string string.
Variable sp_run :
  list string -> option string -> gmap string string ->
  result (CompletedProcess * gmap string string).

Local Abbreviation call :=
  (call_test_type platform gettempdir test_file_strs repr_list run_in sp_run).
Local Abbreviation run :=
  (test_run platform gettempdir test_file_strs repr_list run_in sp_run).
Local Abbreviation restore := (write_fixtures platform test_file_strs).
Local Abbreviation base := (os_path_split_last platform).
Local Abbreviation integration :=
  (run_integration_test platform gettempdir test_file_strs repr_list run_in
     sp_run).

Lemma write_fixtures_frame fs (d : gmap string string) f :
  f ∉ fs -> (restore fs d).2 !! f = d !! f.
Proof.
  revert d. induction fs as [|f0 fs IH]; intros d Hf; [done|].
  apply not_elem_of_cons in Hf as [Hne Hf].
  cbn [write_fixtures]. destruct (py_getitem test_file_strs (base f0)) as [c|e].
  - rewrite IH by done. by rewrite !lookup_insert_ne.
  - cbn [snd]. by rewrite lookup_insert_ne.
Qed.

(** X1.  Whatever a scenario does and however it ends, [test_run] itself
    changes no file outside the scenario's targets: every other path holds
    what the test function left there. *)
Theorem test_run_frame test_type cmd_name args files expd_output expd_retcode
  d f :
  f ∉ files ->
  (test_run platform gettempdir test_file_strs repr_list run_in sp_run
     test_type cmd_name args files expd_output expd_retcode d).2 !! f
  = (call_test_type platform gettempdir test_file_strs repr_list run_in
       sp_run test_type cmd_name files args expd_output expd_retcode d).2 !! f.
Proof.
  intros Hf. unfold test_run.
  destruct (call test_type cmd_name files args expd_output expd_retcode d)
    as [[u|e] d1]; cbn [snd]; [|done].
  destruct (_ && _); [|done]. by apply write_fixtures_frame.
Qed.

(** The restore loop stops at the first target without a fixture, after
    opening it for writing. *)
Lemma write_fixtures_stops pre f post (d : gmap string string) :
  (forall g, g ∈ pre -> is_Some (test_file_strs !! base g)) ->
  test_file_strs !! base f = None ->
  exists d',
    restore (pre ++ f :: post) d = (Raise (KeyError (base f)), d') /\
    d' !! f = Some "" /\
    (forall g, g ∈ pre -> d' !! g = test_file_strs !! base g) /\
    (forall g, g ∉ pre -> g <> f -> d' !! g = d !! g).
Proof.
  revert d. induction pre as [|g0 pre IH]; intros d Hpre Hf.
  - exists (<[f := ""]> d). cbn [app write_fixtures]. unfold py_getitem.
    rewrite Hf. split; [done|]. split; [by rewrite lookup_insert_eq|].
    split; [intros g Hg; by inversion Hg|].
    intros g _ Hne. by rewrite lookup_insert_ne.
  - destruct (Hpre g0) as [c Hc]; [by left|].
    destruct (IH (<[g0 := c]> (<[g0 := ""]> d))) as (d' & Hw & Hf' & Hin & Hout);
      [intros g Hg; apply Hpre; by right|done|].
    exists d'. cbn [app write_fixtures]. unfold py_getitem. rewrite Hc.
    split; [exact Hw|]. split; [exact Hf'|]. split.
    + intros g Hg. destruct (decide (g ∈ pre)) as [Hp|Hp]; [by apply Hin|].
      apply elem_of_cons in Hg as [->|Hg]; [|done].
      assert (g0 <> f) as Hne by (intros ->; rewrite Hf in Hc; discriminate).
      rewrite Hout by done. by rewrite lookup_insert_eq.
    + intros g Hg Hne. apply not_elem_of_cons in Hg as [Hne0 Hg].
      rewrite Hout by done. by rewrite !lookup_insert_ne.
Qed.

(** X2.  When a passing in-place scenario has a target whose base name is
    not a key of the fixture dict, [test_run] raises [KeyError] for it
    after the file has been opened for writing: that file is left empty,
    the targets before it hold their fixture content, and the targets
    after it are not restored. *)
Theorem test_run_missing_fixture test_type cmd_name args pre f post
  expd_output expd_retcode d d1 :
  call_test_type platform gettempdir test_file_strs repr_list run_in sp_run
    test_type cmd_name (pre ++ f :: post) args expd_output expd_retcode d
  = (Ok (), d1) ->
  determine_edit_in_place cmd_name args = true ->
  has_err_file (pre ++ f :: post) = true ->
  (forall g, g ∈ pre -> is_Some (test_file_strs !! base g)) ->
  test_file_strs !! base f = None ->
  exists d2,
    test_run platform gettempdir test_file_strs repr_list run_in sp_run
      test_type cmd_name args (pre ++ f :: post) expd_output expd_retcode d
    = (Raise (KeyError (base f)), d2) /\
    d2 !! f = Some "" /\
    (forall g, g ∈ pre -> d2 !! g = test_file_strs !! base g) /\
    (forall g, g ∉ pre -> g <> f -> d2 !! g = d1 !! g).
Proof.
  intros Hcall Hedit Herr Hpre Hf.
  destruct (write_fixtures_stops pre f post d1 Hpre Hf)
    as (d2 & Hw & Hrest).
  exists d2. unfold test_run. rewrite Hcall, Hedit, Herr. by split.
Qed.

Lemma fixtures_known_or_not fs :
  (forall f, f ∈ fs -> is_Some (test_file_strs !! base f)) \/
  exists pre f post,
    fs = pre ++ f :: post /\
    (forall g, g ∈ pre -> is_Some (test_file_strs !! base g)) /\
    test_file_strs !! base f = None.
Proof.
  induction fs as [|f0 fs IH].
  - left. intros f Hf. by inversion Hf.
  - destruct (test_file_strs !! base f0) as [c|] eqn:Hc.
    + destruct IH as [IH|(pre & f & post & -> & Hpre & Hf)].
      * left. intros f [->|Hf]%elem_of_cons; [by eexists|by apply IH].
      * right. exists (f0 :: pre), f, post. split; [done|]. split; [|done].
        intros g [->|Hg]%elem_of_cons; [by eexists|by apply Hpre].
    + right. exists [], f0, fs. split; [done|]. split; [|done].
      intros g Hg. by inversion Hg.
Qed.

(** X3.  Restoring is idempotent: writing the fixtures of the same targets a
    second time gives the same outcome and leaves the disk as the first
    time, also when the loop stops at a target without a fixture. *)
Theorem write_fixtures_idempotent fs (d : gmap string string) :
  write_fixtures platform test_file_strs fs
    (write_fixtures platform test_file_strs fs d).2
  = write_fixtures platform test_file_strs fs d.
Proof.
  destruct (fixtures_known_or_not fs) as [Hall|(pre & f & post & -> & Hpre & Hf)].
  - destruct (write_fixtures_ok platform test_file_strs fs d Hall)
      as (d1 & Hw1 & Hin1 & Hout1).
    rewrite Hw1. cbn [snd].
    destruct (write_fixtures_ok platform test_file_strs fs d1 Hall)
      as (d2 & Hw2 & Hin2 & Hout2).
    rewrite Hw2. f_equal. apply map_eq. intros g.
    destruct (decide (g ∈ fs)) as [Hg|Hg].
    + by rewrite Hin1, Hin2.
    + by rewrite Hout2.
  - destruct (write_fixtures_stops pre f post d Hpre Hf)
      as (d1 & Hw1 & Hf1 & Hin1 & Hout1).
    rewrite Hw1. cbn [snd].
    destruct (write_fixtures_stops pre f post d1 Hpre Hf)
      as (d2 & Hw2 & Hf2 & Hin2 & Hout2).
    rewrite Hw2. f_equal. apply map_eq. intros g.
    destruct (decide (g = f)) as [->|Hne]; [by rewrite Hf1, Hf2|].
    destruct (decide (g ∈ pre)) as [Hg|Hg].
    + by rewrite Hin1, Hin2.
    + by rewrite Hout2.
Qed.

(** X4.  An integration run over a target without a fixture raises
    [KeyError] while writing the fixtures: no git command and no
    [pre-commit run] is started, so the outcome is the same whatever they
    would do. *)
Theorem integration_missing_fixture cmd_name pre f post args target_output
  target_retcode (d : gmap string string) :
  (forall g, g ∈ pre -> is_Some (test_file_strs !! base g)) ->
  test_file_strs !! base f = None ->
  exists d',
    forall repr_list' run_in' sp_run',
      run_integration_test platform gettempdir test_file_strs repr_list'
        run_in' sp_run' cmd_name (pre ++ f :: post) args target_output
        target_retcode d
      = (Raise (KeyError (base f)), d').
Proof.
  intros Hpre Hf.
  destruct (write_fixtures_stops pre f post d Hpre Hf)
    as (d' & Hw & _).
  exists d'. intros repr_list' run_in' sp_run'.
  unfold run_integration_test. by rewrite Hw.
Qed.

(** X5.  An integration run passes exactly when the fixtures of all targets
    are written, [pre-commit run] starts, its output after stripping and
    normalising is not empty and equals the expected output with the
    [{test_dir}] placeholder resolved, and its exit code is the expected
    one. *)
Theorem integration_passes_iff cmd_name files args target_output
  target_retcode (d : gmap string string) :
  (run_integration_test platform gettempdir test_file_strs repr_list run_in
     sp_run cmd_name files args target_output target_retcode d).1 = Ok ()
  <->
  exists d1 sp_child d2,
    write_fixtures platform test_file_strs files d = (Ok (), d1) /\
    sp_run ["pre-commit"; "run"] (Some (tmpdir platform gettempdir))
      (staged_disk platform gettempdir repr_list run_in cmd_name files args d1)
    = Ok (sp_child, d2) /\
    let output_actual :=
      normalize_warnings files args
        (sub_info (stderr sp_child +:+ stdout sp_child)) in
    output_actual <> "" /\
    output_actual
    = replace "{test_dir}" (encode (tmpdir platform gettempdir)) target_output /\
    returncode sp_child = target_retcode.
Proof.
  unfold run_integration_test.
  destruct (restore files d) as [[[]|e] d1] eqn:Hw.
  2: { cbn [fst]. split; [discriminate|]. intros (? & ? & ? & [=] & _). }
  destruct (sp_run _ _ _) as [[sp_child d2]|e] eqn:Hrun.
  2: { cbn [fst]. split; [discriminate|].
       intros (d1' & c & d2' & [= <-] & Hrun' & _). congruence. }
  set (out := normalize_warnings files args
                (sub_info (stderr sp_child +:+ stdout sp_child))).
  destruct (String.eqb_spec out "") as [He|He]; cbn [fst].
  { split; [discriminate|].
    intros (d1' & c & d2' & [= <-] & Hrun' & Hne & _).
    rewrite Hrun in Hrun'. injection Hrun' as <- <-. by destruct Hne. }
  unfold assert_equal, assert_eqZ. cbv beta iota delta [mbind result_bind].
  destruct (String.eqb_spec
              (replace "{test_dir}" (encode (tmpdir platform gettempdir))
                 target_output) out) as [Ho|Ho].
  - destruct (Z.eqb_spec target_retcode (returncode sp_child)) as [Hr|Hr].
    + split; [|done]. intros _. exists d1, sp_child, d2. by repeat split.
    + split; [discriminate|].
      intros (d1' & c & d2' & [= <-] & Hrun' & _ & _ & Hr').
      rewrite Hrun in Hrun'. injection Hrun' as <- <-. congruence.
  - split; [discriminate|].
    intros (d1' & c & d2' & [= <-] & Hrun' & _ & Ho' & _).
    rewrite Hrun in Hrun'. injection Hrun' as <- <-. by destruct Ho.
Qed.

(** X6.  A scenario that expects empty output can never pass the
    integration run, whatever the tools do: empty actual output is a
    failure of its own, and any other output differs from the expected
    one. *)
Theorem integration_never_passes_on_empty_expectation cmd_name files args
  target_retcode (d : gmap string string) :
  (run_integration_test platform gettempdir test_file_strs repr_list run_in
     sp_run cmd_name files args "" target_retcode d).1 <> Ok ().
Proof.
  unfold run_integration_test.
  destruct (restore files d) as [[[]|e] d1]; [|discriminate].
  destruct (sp_run _ _ _) as [[sp_child d2]|e]; [|discriminate].
  set (out := normalize_warnings files args
                (sub_info (stderr sp_child +:+ stdout sp_child))).
  destruct (String.eqb_spec out "") as [He|He]; [discriminate|].
  change (replace "{test_dir}" (encode (tmpdir platform gettempdir)) "")
    with "".
  unfold assert_equal. rewrite String.eqb_sym.
  destruct (String.eqb_spec out ""); [done|discriminate].
Qed.

End ExecutorProperties.

Lemma test_run_frame_witness :
  (test_run "posix" "/tmp" sample_fixtures (fun _ => "[]") (fun _ _ d => d)
     silent_rewriting_hook RunShellCmd "clang-format"
     ["--style=google"; "-i"] ["/repo/tests/test_repo/ok.c"] "" 0
     sample_disk).2 !! "/repo/tests/test_repo/err.c"
  = (call_test_type "posix" "/tmp" sample_fixtures (fun _ => "[]")
       (fun _ _ d => d) silent_rewriting_hook RunShellCmd "clang-format"
       ["/repo/tests/test_repo/ok.c"] ["--style=google"; "-i"] "" 0
       sample_disk).2 !! "/repo/tests/test_repo/err.c".
Proof.
  apply test_run_frame. intros H. apply list_elem_of_singleton in H.
  discriminate H.
Defined.

Lemma test_run_missing_fixture_witness :
  exists d2,
    test_run "posix" "/tmp" sample_fixtures (fun _ => "[]") (fun _ _ d => d)
      silent_rewriting_hook RunShellCmd "clang-format" ["-i"]
      ["/repo/tests/test_repo/err.c"; "/repo/notes.txt"] "" 0 sample_disk
    = (Raise (KeyError "notes.txt"), d2) /\
    d2 !! "/repo/notes.txt" = Some "".
Proof.
  destruct (test_run_missing_fixture "posix" "/tmp" sample_fixtures
              (fun _ => "[]") (fun _ _ d => d) silent_rewriting_hook
              RunShellCmd "clang-format" ["-i"]
              ["/repo/tests/test_repo/err.c"] "/repo/notes.txt" [] "" 0
              sample_disk
              (<["/repo/tests/test_repo/err.c" := "reformatted"]> sample_disk))
    as (d2 & Hrun & Hf & _).
  - reflexivity.
  - reflexivity.
  - reflexivity.
  - intros g Hg. apply list_elem_of_singleton in Hg. subst g.
    eexists. reflexivity.
  - reflexivity.
  - exists d2. split; [exact Hrun|exact Hf].
Defined.

Lemma integration_missing_fixture_witness :
  exists d',
    run_integration_test "posix" "/tmp" sample_fixtures (fun _ => "[]")
      (fun _ _ d => d) silent_pre_commit "clang-format"
      ["/tmp/pre-commit-hooks-testing/notes.txt"] ["--style=google"] "" 0 ∅
    = (Raise (KeyError "notes.txt"), d').
Proof.
  destruct (integration_missing_fixture "posix" "/tmp" sample_fixtures
              "clang-format" [] "/tmp/pre-commit-hooks-testing/notes.txt" []
              ["--style=google"] "" 0 ∅) as (d' & Hrun).
  - intros g Hg. inversion Hg.
  - reflexivity.
  - exists d'. apply Hrun.
Defined.

(** ** Further properties of the scenario table *)

Lemma generate_table_split env cls table :
  generate_table env cls = Ok table ->
  exists l1 l2 l3 l4 rest,
    generate_formatter_tests env cls = Ok l1 /\
    generate_clang_tidy_tests cls = Ok l2 /\
    generate_cppcheck_tests cls = Ok l3 /\
    generate_cpplint_tests cls = Ok l4 /\
    table = get_multifile_scenarios_no_diff env [err_c cls; err_cpp cls]
            ++ l1 ++ l2 ++ l3 ++ l4 ++ rest /\
    if is_nt (os_name env) then rest = []
    else exists l5 l6,
        generate_iwyu_tests cls = Ok l5 /\
        generate_oclint_tests env cls = Ok l6 /\ rest = l5 ++ l6.
Proof.
  unfold generate_table, is_nt.
  destruct (generate_formatter_tests env cls) as [l1|]; [|discriminate].
  destruct (generate_clang_tidy_tests cls) as [l2|]; [|discriminate].
  destruct (generate_cppcheck_tests cls) as [l3|]; [|discriminate].
  destruct (generate_cpplint_tests cls) as [l4|]; [|discriminate].
  cbv beta iota zeta delta [mbind result_bind].
  destruct (String.eqb (os_name env) "nt"); simpl negb; cbv iota.
  - intros <-%Ok_inj. exists l1, l2, l3, l4, []. split_and!; try done.
    rewrite app_nil_l, app_nil_r. by rewrite <- !(assoc_L (++)).
  - destruct (generate_iwyu_tests cls) as [l5|]; [|discriminate].
    destruct (generate_oclint_tests env cls) as [l6|]; [|discriminate].
    intros <-%Ok_inj. exists l1, l2, l3, l4, (l5 ++ l6).
    split_and!; try done.
    + rewrite app_nil_l. by rewrite <- !(assoc_L (++)).
    + by exists l5, l6.
Qed.

Ltac solve_length :=
  let H := fresh in
  intros H; first [discriminate H | apply Ok_inj in H; subst; reflexivity].

Lemma generate_formatter_length env cls l :
  attributes_set cls -> generate_formatter_tests env cls = Ok l ->
  length l = 16%nat.
Proof.
  open_attributes cls. unfold generate_formatter_tests.
  generalize (join env (getcwd env) ["tests"; "uncrustify_defaults.cfg"]).
  intros u. eval_table. solve_length.
Qed.

Lemma generate_clang_tidy_length cls l :
  attributes_set cls -> generate_clang_tidy_tests cls = Ok l ->
  length l = 16%nat.
Proof.
  open_attributes cls. unfold generate_clang_tidy_tests.
  eval_table. solve_length.
Qed.

Lemma generate_cppcheck_length cls l :
  attributes_set cls -> generate_cppcheck_tests cls = Ok l ->
  length l = 4%nat.
Proof.
  open_attributes cls. unfold generate_cppcheck_tests. unfold_binds.
  destruct (v !! "cppcheck") as [ver|]; [|discriminate].
  destruct (str_le ver "1.88"); [eval_table; solve_length|].
  destruct (str_ge ver "1.89"); eval_table; solve_length.
Qed.

Lemma generate_cpplint_length cls l :
  attributes_set cls -> generate_cpplint_tests cls = Ok l ->
  length l = 4%nat.
Proof.
  open_attributes cls. unfold generate_cpplint_tests.
  eval_table. solve_length.
Qed.

Lemma generate_iwyu_length cls l :
  attributes_set cls -> generate_iwyu_tests cls = Ok l ->
  length l = 4%nat.
Proof.
  open_attributes cls. unfold generate_iwyu_tests.
  eval_table. solve_length.
Qed.

Lemma generate_oclint_length env cls l :
  attributes_set cls -> generate_oclint_tests env cls = Ok l ->
  length l = 4%nat.
Proof.
  open_attributes cls. unfold generate_oclint_tests. unfold_binds.
  destruct (v !! "oclint") as [ver|]; [|discriminate].
  destruct (oclint_version_output env) as [out|];
    [|destruct (str_gt ver "20"); eval_table; discriminate].
  destruct (search_group1 out) as [g|];
    [|destruct (str_gt ver "20"); eval_table; discriminate].
  destruct (str_gt ver "20"); eval_table; solve_length.
Qed.

(** X7.  Whenever the table is built it holds 50 scenarios, or 42 on
    Windows, where the include-what-you-use and oclint scenarios are left
    out. *)
Theorem table_size env table :
  generate_list_tests env = Ok table ->
  length table = if is_nt (os_name env) then 42%nat else 50%nat.
Proof.
  intros Ht. pose proof (generator_attributes_set env) as Hset.
  destruct (generate_table_split env _ table Ht)
    as (l1 & l2 & l3 & l4 & rest & H1 & H2 & H3 & H4 & -> & Hrest).
  rewrite !length_app.
  rewrite (generate_formatter_length env _ l1 Hset H1).
  rewrite (generate_clang_tidy_length _ l2 Hset H2).
  rewrite (generate_cppcheck_length _ l3 Hset H3).
  rewrite (generate_cpplint_length _ l4 Hset H4).
  destruct (is_nt (os_name env)).
  - by subst rest.
  - destruct Hrest as (l5 & l6 & H5 & H6 & ->). rewrite length_app.
    rewrite (generate_iwyu_length _ l5 Hset H5).
    by rewrite (generate_oclint_length env _ l6 Hset H6).
Qed.

Lemma table_size_witness :
  exists table,
    generate_list_tests posix_env = Ok table /\ length table = 50%nat.
Proof.
  destruct (generate_list_tests posix_env) as [table|] eqn:Ht;
    [|vm_compute in Ht; discriminate].
  exists table. split; [reflexivity|].
  exact (table_size posix_env table Ht).
Defined.

(** X9.  On Windows no scenario of the table runs include-what-you-use or
    oclint. *)
Theorem windows_excludes_iwyu_and_oclint env table s :
  generate_list_tests env = Ok table ->
  os_name env = "nt" ->
  s ∈ table ->
  sc_class s <> IncludeWhatYouUseCmd /\ sc_class s <> OCLintCmd.
Proof.
  intros Ht Hnt Hs. pose proof (generator_attributes_set env) as Hset.
  destruct (generate_table_split env _ table Ht)
    as (l1 & l2 & l3 & l4 & rest & H1 & H2 & H3 & H4 & -> & Hrest).
  unfold is_nt in Hrest. rewrite Hnt in Hrest. cbn in Hrest. subst rest.
  pose proof (generate_formatter_rows env _ l1 Hset H1) as R1.
  pose proof (generate_clang_tidy_rows _ l2 Hset H2) as R2.
  pose proof (generate_cppcheck_rows _ l3 Hset H3) as R3.
  pose proof (generate_cpplint_rows _ l4 Hset H4) as R4.
  rewrite Forall_forall in R1, R2, R3, R4.
  rewrite !elem_of_app in Hs.
  destruct Hs as [Hs|[Hs|[Hs|[Hs|[Hs|Hs]]]]].
  - unfold get_multifile_scenarios_no_diff in Hs.
    rewrite !elem_of_cons, elem_of_nil in Hs.
    destruct Hs as [->|[->|[]]]; by split.
  - destruct (R1 s Hs) as [[Hc|Hc] _]; rewrite Hc; by split.
  - destruct (R2 s Hs) as [Hc _]; rewrite Hc; by split.
  - destruct (R3 s Hs) as [Hc _]; rewrite Hc; by split.
  - destruct (R4 s Hs) as [Hc _]; rewrite Hc; by split.
  - by inversion Hs.
Qed.

(** X10.  Every scenario of the table has at least one target, and each of
    its targets is one of the four fixture files. *)
Theorem targets_are_fixtures env table s :
  generate_list_tests env = Ok table -> s ∈ table ->
  sc_files s <> [] /\
  forall f, f ∈ sc_files s -> f ∈ files (generator_attributes env).
Proof.
  intros Ht Hs.
  pose proof (generate_table_rows env _ table
                (generator_attributes_set env) Ht) as Hrows.
  rewrite Forall_forall in Hrows.
  set (cls := generator_attributes env) in *.
  assert (files cls = [ok_c cls; ok_cpp cls; err_c cls; err_cpp cls]) as Hf
    by reflexivity.
  rewrite Hf.
  destruct (Hrows s Hs) as [(Hfiles & _)|[([Hc|Hc] & _)|([Hc|Hc] & _)]];
    (rewrite ?Hfiles, ?Hc; split; [discriminate|]; intros f Hin;
     rewrite !elem_of_cons, elem_of_nil in *; tauto).
Qed.

Lemma windows_excludes_witness :
  exists table,
    generate_list_tests windows_env = Ok table /\
    forall s, s ∈ table ->
      sc_class s <> IncludeWhatYouUseCmd /\ sc_class s <> OCLintCmd.
Proof.
  destruct (generate_list_tests windows_env) as [table|] eqn:Ht;
    [|vm_compute in Ht; discriminate].
  exists table. split; [reflexivity|]. intros s Hs.
  exact (windows_excludes_iwyu_and_oclint windows_env table s Ht eq_refl Hs).
Defined.

Lemma targets_are_fixtures_witness :
  exists table,
    generate_list_tests posix_env = Ok table /\
    sample_flawed_scenario ∈ table /\
    forall f, f ∈ sc_files sample_flawed_scenario ->
              f ∈ files (generator_attributes posix_env).
Proof.
  destruct (generate_list_tests posix_env) as [table|] eqn:Ht;
    [|vm_compute in Ht; discriminate].
  assert (sample_flawed_scenario ∈ table) as Hs.
  { vm_compute in Ht. apply Ok_inj in Ht. subst table.
    do 10 apply list_elem_of_further. apply list_elem_of_here. }
  exists table. split; [reflexivity|]. split; [exact Hs|].
  exact (proj2 (targets_are_fixtures posix_env table _ Ht Hs)).
Defined.






Lemma replace_first_absent x y l :
  list_in x l = false -> replace_first x y l = l.
Proof.
  unfold list_in. induction l as [|z l IH]; [done|].
  cbn [existsb replace_first]. rewrite (String.eqb_sym x z).
  destruct (String.eqb z x); [discriminate|].
  cbn [orb]. intros H. by rewrite IH.
Qed.

Lemma replace_first_length x y l :
  length (replace_first x y l) = length l.
Proof.
  induction l as [|z l IH]; [done|]. cbn [replace_first].
  destruct (String.eqb z x); [done|]. cbn. by rewrite IH.
Qed.

Lemma replace_first_middle x y pre post :
  list_in x pre = false ->
  replace_first x y (pre ++ x :: post) = pre ++ y :: post.
Proof.
  unfold list_in. induction pre as [|z pre IH]; intros H.
  - cbn. by rewrite String.eqb_refl.
  - cbn [existsb] in H. rewrite (String.eqb_sym x z) in H.
    cbn [app replace_first]. destruct (String.eqb z x); [discriminate|].
    cbn [orb] in H. by rewrite IH.
Qed.

Lemma list_index_replace_first x y l :
  list_in x l = true ->
  exists k, list_index x l = Ok k /\ <[k := y]> l = replace_first x y l.
Proof.
  unfold list_in. induction l as [|z l IH]; [discriminate|].
  cbn [existsb replace_first list_index]. rewrite (String.eqb_sym x z).
  destruct (String.eqb z x).
  - intros _. by exists 0%nat.
  - cbn [orb]. intros H. destruct (IH H) as (k & -> & Hk).
    exists (S k). split; [done|].
    change (z :: <[k := y]> l = z :: replace_first x y l). by f_equal.
Qed.

Lemma language_arg_set_eval f a :
  language_arg_set f a
  = Ok (if endswith f ".cpp"
        then replace_first "-std=c18" "-std=c++20" a else a).
Proof.
  unfold language_arg_set. destruct (endswith f ".cpp"); [|done].
  cbn [andb]. destruct (list_in "-std=c18" a) eqn:Hin.
  - destruct (list_index_replace_first "-std=c18" "-std=c++20" a Hin)
      as (k & -> & Hk).
    cbv beta iota delta [mbind result_bind]. by rewrite Hk.
  - by rewrite replace_first_absent.
Qed.

(** X11.  The language switch of the clang-tidy and oclint loops never
    raises and keeps the number of arguments.  For a target that does not
    end in [.cpp], or an argument list without [-std=c18], it yields the
    argument list itself; for a target ending in [.cpp] it replaces the
    first [-std=c18] by [-std=c++20] and keeps everything else, later
    occurrences included. *)
Theorem language_arg_set_spec f a :
  exists a',
    language_arg_set f a = Ok a' /\
    length a' = length a /\
    (endswith f ".cpp" = false -> a' = a) /\
    (list_in "-std=c18" a = false -> a' = a) /\
    (forall pre post,
       endswith f ".cpp" = true ->
       a = pre ++ "-std=c18" :: post ->
       list_in "-std=c18" pre = false ->
       a' = pre ++ "-std=c++20" :: post).
Proof.
  eexists. split; [apply language_arg_set_eval|].
  destruct (endswith f ".cpp").
  - split; [apply replace_first_length|]. split; [discriminate|].
    split; [apply replace_first_absent|].
    intros pre post _ -> Hpre. by apply replace_first_middle.
  - split; [done|]. split; [done|]. split; [done|]. discriminate.
Qed.

Ltac eval_language :=
  cbv -[language_arg_set String.append endswith oclint_version_search];
  repeat (rewrite language_arg_set_eval;
          cbv -[language_arg_set String.append endswith oclint_version_search]).

Ltac solve_consistent :=
  let H := fresh in
  intros H; first [discriminate H | apply Ok_inj in H; subst];
  repeat (constructor;
          [repeat match goal with
                  | |- context [endswith ?f ".cpp"] =>
                      destruct (endswith f ".cpp")
                  end; reflexivity|]);
  constructor.

Lemma generate_clang_tidy_consistent cls l :
  attributes_set cls -> generate_clang_tidy_tests cls = Ok l ->
  Forall (fun s => language_consistent s = true) l.
Proof.
  open_attributes cls. unfold generate_clang_tidy_tests.
  eval_language. solve_consistent.
Qed.

Lemma generate_oclint_consistent env cls l :
  attributes_set cls -> generate_oclint_tests env cls = Ok l ->
  Forall (fun s => language_consistent s = true) l.
Proof.
  open_attributes cls. unfold generate_oclint_tests. unfold_binds.
  destruct (v !! "oclint") as [ver|]; [|discriminate].
  destruct (oclint_version_output env) as [out|];
    [|destruct (str_gt ver "20"); eval_table; discriminate].
  destruct (search_group1 out) as [g|];
    [|destruct (str_gt ver "20"); eval_table; discriminate].
  destruct (str_gt ver "20"); eval_language; solve_consistent.
Qed.

(** X12.  In the table, the language flag of every clang-tidy and oclint
    scenario fits its target: a scenario over a file ending in [.cpp]
    carries no [-std=c18], and a scenario over any other file carries no
    [-std=c++20]. *)
Theorem language_flags_fit_targets env table s :
  generate_list_tests env = Ok table -> s ∈ table ->
  sc_class s = ClangTidyCmd \/ sc_class s = OCLintCmd ->
  forall f, f ∈ sc_files s ->
    (endswith f ".cpp" = true -> list_in "-std=c18" (sc_args s) = false) /\
    (endswith f ".cpp" = false -> list_in "-std=c++20" (sc_args s) = false).
Proof.
  intros Ht Hs Hclass. pose proof (generator_attributes_set env) as Hset.
  destruct (generate_table_split env _ table Ht)
    as (l1 & l2 & l3 & l4 & rest & H1 & H2 & H3 & H4 & -> & Hrest).
  pose proof (generate_formatter_rows env _ l1 Hset H1) as R1.
  pose proof (generate_clang_tidy_consistent _ l2 Hset H2) as R2.
  pose proof (generate_cppcheck_rows _ l3 Hset H3) as R3.
  pose proof (generate_cpplint_rows _ l4 Hset H4) as R4.
  rewrite Forall_forall in R1, R2, R3, R4.
  assert (language_consistent s = true) as Hcons.
  { rewrite !elem_of_app in Hs.
    destruct Hs as [Hs|[Hs|[Hs|[Hs|[Hs|Hs]]]]].
    - unfold get_multifile_scenarios_no_diff in Hs.
      rewrite !elem_of_cons, elem_of_nil in Hs.
      destruct Hs as [->|[->|[]]]; destruct Hclass; discriminate.
    - destruct (R1 s Hs) as [[Hc|Hc] _]; destruct Hclass; congruence.
    - by apply R2.
    - destruct (R3 s Hs) as [Hc _]; destruct Hclass; congruence.
    - destruct (R4 s Hs) as [Hc _]; destruct Hclass; congruence.
    - destruct (is_nt (os_name env)); [subst rest; by inversion Hs|].
      destruct Hrest as (l5 & l6 & H5 & H6 & ->).
      apply elem_of_app in Hs as [Hs|Hs].
      + pose proof (generate_iwyu_rows _ l5 Hset H5) as R5.
        rewrite Forall_forall in R5.
        destruct (R5 s Hs) as [Hc _]; destruct Hclass; congruence.
      + pose proof (generate_oclint_consistent env _ l6 Hset H6) as R6.
        rewrite Forall_forall in R6. by apply R6. }
  intros f Hf. unfold language_consistent in Hcons.
  rewrite forallb_forall in Hcons.
  specialize (Hcons f (proj1 (list_elem_of_In _ _) Hf)).
  destruct (endswith f ".cpp"); split; try discriminate; intros _;
    by apply negb_true_iff.
Qed.

Lemma language_flags_witness :
  exists table s,
    generate_list_tests posix_env = Ok table /\ s ∈ table /\
    sc_class s = ClangTidyCmd /\
    sc_files s = ["/repo/tests/test_repo/err.cpp"] /\
    list_in "-std=c++20" (sc_args s) = true /\
    list_in "-std=c18" (sc_args s) = false.
Proof.
  destruct (generate_list_tests posix_env) as [table|] eqn:Ht;
    [|vm_compute in Ht; discriminate].
  set (s := mkScenario ClangTidyCmd
              ["-quiet"; "-checks=clang-diagnostic-return-type"; "--";
               "-std=c++20"]
              ["/repo/tests/test_repo/err.cpp"]
              (match str_format clang_tidy_err_str
                       ["/repo/tests/test_repo/err.cpp"] with
               | Ok o => encode o
               | Raise _ => ""
               end)
              1).
  assert (s ∈ table) as Hs.
  { subst s. vm_compute in Ht. apply Ok_inj in Ht. subst table.
    do 33 apply list_elem_of_further. apply list_elem_of_here. }
  exists table, s. split; [reflexivity|]. split; [exact Hs|].
  split; [reflexivity|]. split; [reflexivity|]. split; [reflexivity|].
  apply (language_flags_fit_targets posix_env table s Ht Hs (or_introl eq_refl)
           "/repo/tests/test_repo/err.cpp").
  - apply list_elem_of_here.
  - reflexivity.
Defined.

(** X13.  The cppcheck scenarios by version bucket: for a version up to
    [1.88] in string order the flawed files expect the one-line bracketed
    report, for a version from [1.89] the three-line report with the source
    line and a caret; the clean files expect no output, the exit codes are
    0 and 1, and no scenario passes any argument. *)
Theorem cppcheck_expectations cls ver :
  attributes_set cls ->
  versions cls !! "cppcheck" = Some ver ->
  str_le ver "1.88" || str_ge ver "1.89" = true ->
  let report :=
    if str_le ver "1.88" then cppcheck_old_report else cppcheck_new_report in
  generate_cppcheck_tests cls
  = Ok [ mkScenario CppcheckCmd [] [ok_c cls] "" 0;
         mkScenario CppcheckCmd [] [ok_cpp cls] "" 0;
         mkScenario CppcheckCmd [] [err_c cls] (report (err_c cls)) 1;
         mkScenario CppcheckCmd [] [err_cpp cls] (report (err_cpp cls)) 1 ].
Proof.
  open_attributes cls. unfold_binds. intros Hver Hor.
  unfold generate_cppcheck_tests. unfold_binds. rewrite Hver.
  destruct (str_le ver "1.88"); [eval_table; reflexivity|].
  destruct (str_ge ver "1.89"); [eval_table; reflexivity|discriminate].
Qed.

Lemma cppcheck_expectations_witness :
  generate_cppcheck_tests (generator_attributes posix_env)
  = Ok [ mkScenario CppcheckCmd [] ["/repo/tests/test_repo/ok.c"] "" 0;
         mkScenario CppcheckCmd [] ["/repo/tests/test_repo/ok.cpp"] "" 0;
         mkScenario CppcheckCmd [] ["/repo/tests/test_repo/err.c"]
           (cppcheck_new_report "/repo/tests/test_repo/err.c") 1;
         mkScenario CppcheckCmd [] ["/repo/tests/test_repo/err.cpp"]
           (cppcheck_new_report "/repo/tests/test_repo/err.cpp") 1 ].
Proof.
  exact (cppcheck_expectations (generator_attributes posix_env) "2.3"
           (generator_attributes_set posix_env) eq_refl eq_refl).
Defined.

Ltac solve_oclint_row :=
  split_and!;
  [ repeat match goal with
           | |- context [endswith ?f ".cpp"] => destruct (endswith f ".cpp")
           end; reflexivity ..
  | first [ left; reflexivity
          | right; eexists; split; reflexivity ] ].

(** X14.  The oclint scenarios by version bucket: for a version above [20]
    in string order every scenario uses the double-dash options and never
    [-no-analytics], and the expected report links to https; otherwise
    every scenario uses the single-dash options with [-no-analytics] and
    the link is an http one.  The report of a flawed file ends with the
    version read from [oclint --version]. *)
Theorem oclint_expectations env cls ver out g :
  attributes_set cls ->
  versions cls !! "oclint" = Some ver ->
  oclint_version_output env = Ok out ->
  oclint_version_search out = Some g ->
  let modern := str_gt ver "20" in
  exists l,
    generate_oclint_tests env cls = Ok l /\
    Forall (fun s =>
              list_in "-no-analytics" (sc_args s) = negb modern /\
              list_in "-enable-global-analysis" (sc_args s) = negb modern /\
              list_in "--enable-global-analysis" (sc_args s) = modern /\
              (sc_expd_output s = "" \/
               exists f, sc_files s = [f] /\
                 sc_expd_output s
                 = oclint_report f (if modern then "s" else "") g)) l.
Proof.
  open_attributes cls. unfold_binds. intros Hver Hout Hg modern. subst modern.
  unfold generate_oclint_tests, search_group1. unfold_binds.
  rewrite Hver, Hout, Hg.
  destruct (str_gt ver "20"); eval_language; eexists; (split; [reflexivity|]);
    repeat (constructor; [solve_oclint_row|]); constructor.
Qed.

Lemma oclint_expectations_witness :
  exists l,
    generate_oclint_tests posix_env (generator_attributes posix_env) = Ok l /\
    Forall (fun s => list_in "-no-analytics" (sc_args s) = false) l.
Proof.
  destruct (oclint_expectations posix_env (generator_attributes posix_env)
              "22.02" "OCLint version 22.02." "22.02"
              (generator_attributes_set posix_env) eq_refl eq_refl eq_refl)
    as (l & Hl & Hrows).
  exists l. split; [exact Hl|].
  eapply Forall_impl; [exact Hrows|]. intros s Hs. exact (proj1 Hs).
Defined.

(** ** Properties of the regular expressions and the normalisation *)

Lemma append_assoc a b c : (a +:+ b) +:+ c = a +:+ b +:+ c.
Proof.
  induction a as [|x a IH]; [done|].
  change (String x ((a +:+ b) +:+ c) = String x (a +:+ b +:+ c)). by f_equal.
Qed.

Lemma append_empty_r a : a +:+ "" = a.
Proof.
  induction a as [|x a IH]; [done|].
  change (String x (a +:+ "") = String x a). by f_equal.
Qed.

Ltac div_lia := zify; Z.to_euclidean_division_equations; lia.

Lemma continuation_spec c x :
  continuation c = Some x ->
  (128 <= N_of_ascii c < 192)%N /\ x = (N_of_ascii c - 128)%N.
Proof.
  unfold continuation. cbv zeta.
  destruct (N.leb_spec 128 (N_of_ascii c)); [|discriminate].
  destruct (N.ltb_spec (N_of_ascii c) 192); [|discriminate].
  cbn [andb]. intros [= <-]. lia.
Qed.

Lemma byte_eq c n : N_of_ascii c = n -> ascii_of_N n = c.
Proof. intros <-. apply ascii_N_embedding. Qed.

Lemma utf8_head_encode s cp n :
  utf8_head s = Some (cp, n) ->
  exists rest,
    s = utf8_encode cp +:+ rest /\ String.length (utf8_encode cp) = n.
Proof.
  destruct s as [|c0 s1]; [discriminate|].
  unfold utf8_head. cbv zeta.
  destruct (N.ltb_spec (N_of_ascii c0) 128) as [H0|H0].
  { intros [= <- <-]. exists s1. unfold utf8_encode.
    destruct (N.ltb_spec (N_of_ascii c0) 128); [|lia].
    by rewrite ascii_N_embedding. }
  destruct (N.ltb_spec (N_of_ascii c0) 192) as [H1|H1]; [discriminate|].
  destruct (N.ltb_spec (N_of_ascii c0) 224) as [H2|H2].
  { destruct s1 as [|c1 s2]; [discriminate|].
    destruct (continuation c1) as [x1|] eqn:E1; [|discriminate].
    apply continuation_spec in E1 as [B1 ->]. cbn [mbind option_bind].
    destruct (N.leb_spec 128
                ((N_of_ascii c0 - 192) * 64 + (N_of_ascii c1 - 128))%N)
      as [L|L]; [|discriminate].
    intros [= <- <-]. exists s2. unfold utf8_encode.
    set (v := ((N_of_ascii c0 - 192) * 64 + (N_of_ascii c1 - 128))%N) in *.
    destruct (N.ltb_spec v 128); [lia|].
    destruct (N.ltb_spec v 2048); [|subst v; lia].
    split; [|done].
    rewrite (byte_eq c0), (byte_eq c1); [done| |]; subst v; div_lia. }
  destruct (N.ltb_spec (N_of_ascii c0) 240) as [H3|H3].
  { destruct s1 as [|c1 [|c2 s3]]; [discriminate|discriminate|].
    destruct (continuation c1) as [x1|] eqn:E1; [|discriminate].
    destruct (continuation c2) as [x2|] eqn:E2; [|discriminate].
    apply continuation_spec in E1 as [B1 ->].
    apply continuation_spec in E2 as [B2 ->]. cbn [mbind option_bind].
    set (v := ((N_of_ascii c0 - 224) * 4096 + (N_of_ascii c1 - 128) * 64
                + (N_of_ascii c2 - 128))%N).
    destruct (N.leb_spec 2048 v) as [L|L]; [|discriminate].
    cbn [andb].
    destruct ((55296 <=? v)%N && (v <? 57344)%N); [discriminate|].
    cbn [negb].
    intros [= <- <-]. exists s3. unfold utf8_encode.
    destruct (N.ltb_spec v 128); [lia|].
    destruct (N.ltb_spec v 2048); [lia|].
    destruct (N.ltb_spec v 65536); [|subst v; lia].
    split; [|done].
    rewrite (byte_eq c0), (byte_eq c1), (byte_eq c2); [done| | |];
      subst v; div_lia. }
  destruct (N.ltb_spec (N_of_ascii c0) 248) as [H4|H4]; [|discriminate].
  destruct s1 as [|c1 [|c2 [|c3 s4]]]; [discriminate..|].
  destruct (continuation c1) as [x1|] eqn:E1; [|discriminate].
  destruct (continuation c2) as [x2|] eqn:E2; [|discriminate].
  destruct (continuation c3) as [x3|] eqn:E3; [|discriminate].
  apply continuation_spec in E1 as [B1 ->].
  apply continuation_spec in E2 as [B2 ->].
  apply continuation_spec in E3 as [B3 ->]. cbn [mbind option_bind].
  set (v := ((N_of_ascii c0 - 240) * 262144 + (N_of_ascii c1 - 128) * 4096
              + (N_of_ascii c2 - 128) * 64 + (N_of_ascii c3 - 128))%N).
  destruct (N.leb_spec 65536 v) as [L|L]; [|discriminate].
  destruct (N.ltb_spec v 1114112) as [U|U]; [|discriminate].
  cbn [andb]. intros [= <- <-]. exists s4. unfold utf8_encode.
  destruct (N.ltb_spec v 128); [lia|].
  destruct (N.ltb_spec v 2048); [lia|].
  destruct (N.ltb_spec v 65536); [lia|].
  split; [|done].
  rewrite (byte_eq c0), (byte_eq c1), (byte_eq c2), (byte_eq c3);
    [done| | | |]; subst v; div_lia.
Qed.

Lemma utf8_encode_nonempty cp : utf8_encode cp <> "".
Proof. unfold utf8_encode. by repeat destruct (_ <? _)%N. Qed.

Lemma digits_and_dots_skip t rest :
  digits_and_dots (String.length t) (t +:+ rest)
  = t +:+ digits_and_dots 0 rest.
Proof.
  induction t as [|c t IH]; [done|].
  change (String c (digits_and_dots (String.length t) (t +:+ rest))
          = String c (t +:+ digits_and_dots 0 rest)).
  by rewrite IH.
Qed.

Lemma length_append a b :
  String.length (a +:+ b) = (String.length a + String.length b)%nat.
Proof.
  induction a as [|c a IH]; [done|].
  change (S (String.length (a +:+ b))
          = S (String.length a + String.length b)). by rewrite IH.
Qed.

(** The greedy run is a prefix of the text and is made of whole characters
    of the class. *)
Lemma digits_and_dots_sound s :
  exists cps rest,
    digits_and_dots 0 s = utf8_encode_all cps /\
    s = utf8_encode_all cps +:+ rest /\
    Forall version_char cps.
Proof.
  remember (String.length s) as n eqn:Hn. revert s Hn.
  induction n as [n IH] using lt_wf_ind. intros s Hn.
  destruct s as [|c s']; [by exists [], ""|].
  cbn [digits_and_dots].
  destruct (Ascii.eqb_spec c ".") as [->|Hc].
  { destruct (IH (String.length s')) with (s := s')
      as (cps & rest & Hrun & Hs & Hall); [subst n; cbn; lia|done|].
    exists (46%N :: cps), rest. split_and!.
    - by rewrite Hrun.
    - change (String "." s' = String "." (utf8_encode_all cps +:+ rest)).
      by rewrite <- Hs.
    - constructor; [by left|done]. }
  destruct (utf8_head (String c s')) as [[cp k]|] eqn:Hhead;
    [|by exists [], (String c s')].
  destruct (is_decimal cp) eqn:Hdec; [|by exists [], (String c s')].
  apply utf8_head_encode in Hhead as (rest0 & Hs & Hk).
  destruct (utf8_encode cp) as [|c' t] eqn:Henc;
    [by destruct (utf8_encode_nonempty cp)|].
  change (String c s' = String c' (t +:+ rest0)) in Hs.
  injection Hs as -> ->. cbn [String.length] in Hk. subst k.
  replace (S (String.length t) - 1)%nat with (String.length t) by lia.
  rewrite digits_and_dots_skip.
  destruct (IH (String.length rest0)) with (s := rest0)
    as (cps & rest & Hrun & Hs & Hall).
  { subst n. cbn [String.length]. rewrite length_append. lia. }
  { done. }
  exists (cp :: cps), rest. cbn [utf8_encode_all]. rewrite Henc. split_and!.
  - change (String c' (t +:+ digits_and_dots 0 rest0)
            = String c' (t +:+ utf8_encode_all cps)). by rewrite Hrun.
  - change (String c' (t +:+ rest0)
            = String c' ((t +:+ utf8_encode_all cps) +:+ rest)).
    by rewrite append_assoc, <- Hs.
  - constructor; [by right|done].
Qed.

Lemma upto_last_dot_app t r :
  no_dot t = true ->
  upto_last_dot (t +:+ r) = (fun g => t +:+ g) <$> upto_last_dot r.
Proof.
  induction t as [|c t IH]; intros Ht.
  - change (upto_last_dot r = (fun g => g) <$> upto_last_dot r).
    destruct (upto_last_dot r); reflexivity.
  - unfold no_dot in Ht. cbn [string_forall] in Ht.
    apply andb_true_iff in Ht as [Hc Ht].
    change (upto_last_dot (String c (t +:+ r))
            = (fun g => String c (t +:+ g)) <$> upto_last_dot r).
    cbn [upto_last_dot]. rewrite (IH Ht).
    destruct (upto_last_dot r) as [g|]; [done|].
    cbn [fmap option_fmap option_map].
    apply negb_true_iff in Hc. by rewrite Hc.
Qed.

Lemma is_decimal_bound cp :
  is_decimal cp = true -> (48 <= cp < 130042)%N.
Proof.
  unfold is_decimal. rewrite existsb_exists. intros (z & Hin & H).
  apply andb_true_iff in H as [H1 H2].
  apply N.leb_le in H1. apply N.ltb_lt in H2.
  cbv [decimal_zeros In] in Hin.
  repeat (destruct Hin as [<-|Hin]; [lia|]). done.
Qed.

Lemma byte_not_dot n :
  (n < 256)%N -> n <> 46%N -> negb (Ascii.eqb (ascii_of_N n) ".") = true.
Proof.
  intros Hn Hne. destruct (Ascii.eqb_spec (ascii_of_N n) ".") as [E|]; [|done].
  apply (f_equal N_of_ascii) in E. rewrite N_ascii_embedding in E by done.
  done.
Qed.

Lemma decimal_no_dot cp : is_decimal cp = true -> no_dot (utf8_encode cp) = true.
Proof.
  intros [Hlo Hhi]%is_decimal_bound. unfold utf8_encode, no_dot.
  destruct (N.ltb_spec cp 128);
    [|destruct (N.ltb_spec cp 2048); [|destruct (N.ltb_spec cp 65536)]];
    cbn [string_forall]; rewrite ?byte_not_dot; try done; div_lia.
Qed.

(** Cutting a run of class characters before its last dot cuts it between
    two characters. *)
Lemma upto_last_dot_chars cps g :
  Forall version_char cps ->
  upto_last_dot (utf8_encode_all cps) = Some g ->
  exists cps1 cps2, cps = cps1 ++ (46%N :: cps2) /\ g = utf8_encode_all cps1.
Proof.
  intros Hall. revert g. induction Hall as [|cp cps Hcp Hall IH]; intros g.
  { discriminate. }
  cbn [utf8_encode_all]. destruct Hcp as [->|Hdec].
  - change (utf8_encode 46 +:+ utf8_encode_all cps)
      with (String "." (utf8_encode_all cps)).
    cbn [upto_last_dot].
    destruct (upto_last_dot (utf8_encode_all cps)) as [g1|].
    + intros [= <-]. destruct (IH g1 eq_refl) as (cps1 & cps2 & -> & ->).
      by exists (46%N :: cps1), cps2.
    + intros [= <-]. by exists [], cps.
  - rewrite upto_last_dot_app by by apply decimal_no_dot.
    destruct (upto_last_dot (utf8_encode_all cps)) as [g1|]; [|discriminate].
    intros [= <-]. destruct (IH g1 eq_refl) as (cps1 & cps2 & -> & ->).
    by exists (cp :: cps1), cps2.
Qed.

(** Group 1 of a match at the head of a run of class characters. *)
Lemma group_chars cps c0 run g :
  Forall version_char cps ->
  utf8_encode_all cps = String c0 run ->
  upto_last_dot run = Some g ->
  exists cps1 cps2,
    cps = cps1 ++ (46%N :: cps2) /\ cps1 <> [] /\
    String c0 g = utf8_encode_all cps1.
Proof.
  intros Hall Hrun Hg. destruct Hall as [|cp cps Hcp Hall]; [discriminate|].
  cbn [utf8_encode_all] in Hrun. destruct Hcp as [->|Hdec].
  - change (String "." (utf8_encode_all cps) = String c0 run) in Hrun.
    injection Hrun as <- <-.
    destruct (upto_last_dot_chars cps g Hall Hg) as (cps1 & cps2 & -> & ->).
    by exists (46%N :: cps1), cps2.
  - pose proof (decimal_no_dot cp Hdec) as Hno.
    destruct (utf8_encode cp) as [|c' t] eqn:Henc;
      [by destruct (utf8_encode_nonempty cp)|].
    change (String c' (t +:+ utf8_encode_all cps) = String c0 run) in Hrun.
    injection Hrun as <- <-.
    unfold no_dot in Hno. cbn [string_forall] in Hno.
    apply andb_true_iff in Hno as [_ Hno].
    rewrite upto_last_dot_app in Hg by exact Hno.
    destruct (upto_last_dot (utf8_encode_all cps)) as [g1|] eqn:Hg1;
      [|discriminate].
    injection Hg as <-.
    destruct (upto_last_dot_chars cps g1 Hall Hg1) as (cps1 & cps2 & -> & ->).
    exists (cp :: cps1), cps2. split; [done|]. split; [done|].
    cbn [utf8_encode_all]. by rewrite Henc.
Qed.

Lemma upto_last_dot_split s g :
  upto_last_dot s = Some g -> exists rest, s = g +:+ "." +:+ rest.
Proof.
  revert g. induction s as [|c s IH]; intros g; [discriminate|].
  cbn [upto_last_dot]. destruct (upto_last_dot s) as [g'|].
  - intros [= <-]. destruct (IH g' eq_refl) as [rest ->].
    by exists rest.
  - destruct (Ascii.eqb_spec c "."); [|discriminate].
    intros [= <-]. subst c. by exists s.
Qed.

Lemma oclint_version_at_sound s g :
  oclint_version_at s = Some g ->
  exists post cps,
    s = "OCLint version " +:+ g +:+ "." +:+ post /\
    (cps <> []) /\ g = utf8_encode_all cps /\ Forall version_char cps.
Proof.
  unfold oclint_version_at.
  destruct (String.prefix "OCLint version " s) eqn:Hp; [|discriminate].
  apply prefix_split in Hp as [body ->].
  change (string_drop 15 ("OCLint version " +:+ body)) with body.
  destruct (digits_and_dots_sound body) as (cps & rest & Hrun & Hbody & Hall).
  destruct (digits_and_dots 0 body) as [|c0 run]; [discriminate|].
  destruct (upto_last_dot run) as [g'|] eqn:Hg'; [|discriminate].
  intros [= <-].
  destruct (group_chars cps c0 run g' Hall (eq_sym Hrun) Hg')
    as (cps1 & cps2 & Hcps & Hne & Hg).
  apply upto_last_dot_split in Hg' as [tail ->].
  exists (tail +:+ rest), cps1. split; [|split; [done|split; [done|]]].
  - rewrite Hbody, <- Hrun.
    change (String c0 (g' +:+ "." +:+ tail) +:+ rest)
      with (String c0 ((g' +:+ "." +:+ tail) +:+ rest)).
    by rewrite append_assoc.
  - rewrite Hcps in Hall. by apply Forall_app in Hall as [? _].
Qed.

(** X15.  The version the oclint generator reads from the output of
    [oclint --version] is text of that output: it stands right after the
    words [OCLint version ] and right before a dot, it is not empty, and it
    is made of whole characters, each a dot or a decimal digit, ASCII or
    not. *)
Theorem oclint_version_search_sound out g :
  oclint_version_search out = Some g ->
  exists pre post cps,
    out = pre +:+ "OCLint version " +:+ g +:+ "." +:+ post /\
    (cps <> []) /\ g = utf8_encode_all cps /\ Forall version_char cps.
Proof.
  induction out as [|c out IH].
  - cbn [oclint_version_search]. destruct (oclint_version_at "") eqn:Hat;
      [|discriminate].
    intros [= <-].
    apply oclint_version_at_sound in Hat as (post & cps & H & ?).
    by exists "", post, cps.
  - cbn [oclint_version_search].
    destruct (oclint_version_at (String c out)) eqn:Hat.
    + intros [= <-].
      apply oclint_version_at_sound in Hat as (post & cps & H & ?).
      by exists "", post, cps.
    + intros Hs. destruct (IH Hs) as (pre & post & cps & -> & ?).
      by exists (String c pre), post, cps.
Qed.

Lemma oclint_version_search_witness :
  exists pre post cps,
    "oclint: OCLint version ٣.02. Built" =
    pre +:+ "OCLint version " +:+ "٣.02" +:+ "." +:+ post /\
    "٣.02" = utf8_encode_all cps /\ Forall version_char cps.
Proof.
  destruct (oclint_version_search_sound
              "oclint: OCLint version ٣.02. Built" "٣.02" eq_refl)
    as (pre & post & cps & H & _ & Hg & Hall).
  by exists pre, post, cps.
Defined.

Lemma str_in_tail n c s : str_in n (String c s) = false -> str_in n s = false.
Proof. cbn [str_in]. by intros [_ H]%orb_false_iff. Qed.

Lemma str_in_head n s : str_in n s = false -> String.prefix n s = false.
Proof. destruct s; cbn [str_in]; by intros [H _]%orb_false_iff. Qed.

(** X16.  Stripping the informational lines leaves an output without the
    marker [[INFO]] exactly as it is. *)
Theorem sub_info_without_marker s :
  str_in "[INFO]" s = false -> sub_info s = s.
Proof.
  unfold sub_info. induction s as [|c s IH]; [done|].
  intros H. cbn [sub_info_go]. rewrite (str_in_head _ _ H). cbn [andb].
  by rewrite IH by (by apply str_in_tail in H).
Qed.

Lemma sub_info_without_marker_witness :
  sub_info "clang-format.............Failed" = "clang-format.............Failed".
Proof.
  exact (sub_info_without_marker "clang-format.............Failed" eq_refl).
Defined.

Lemma has_newline_app a b :
  has_newline (a +:+ b) = has_newline a || has_newline b.
Proof.
  induction a as [|c a IH]; [done|].
  change (Ascii.eqb c (ascii_of_nat 10) || has_newline (a +:+ b)
          = Ascii.eqb c (ascii_of_nat 10) || has_newline a || has_newline b).
  by rewrite IH, orb_assoc.
Qed.

Lemma sub_info_skip_line a rest :
  has_newline a = false ->
  sub_info_go true (a +:+ nl +:+ rest) = sub_info_go false rest.
Proof.
  induction a as [|c a IH]; intros Ha; [done|].
  cbn [has_newline] in Ha. apply orb_false_iff in Ha as [Hc Ha].
  change (sub_info_go true (String c (a +:+ nl +:+ rest))
          = sub_info_go false rest).
  cbn [sub_info_go]. rewrite Hc. cbn [negb]. by apply IH.
Qed.

Lemma sub_info_one_line l rest :
  has_newline l = false ->
  sub_info_go false ("[INFO]" +:+ l +:+ nl +:+ rest) = sub_info_go false rest.
Proof.
  intros Hl.
  assert (String.prefix "[INFO]" ("[INFO]" +:+ l +:+ nl +:+ rest) = true) as Hp
    by (apply prefix_split; by eexists).
  assert (has_newline ("[INFO]" +:+ l +:+ nl +:+ rest) = true) as Hn.
  { rewrite !has_newline_app. cbn. by rewrite Hl. }
  change ("[INFO]" +:+ l +:+ nl +:+ rest)
    with (String "[" ("INFO]" +:+ l +:+ nl +:+ rest)) in *.
  cbn [sub_info_go]. rewrite Hp, Hn. cbn [andb].
  change (sub_info_go true
            (String "I" (String "N" (String "F" (String "O" (String "]"
               (l +:+ nl +:+ rest))))))
          = sub_info_go false rest).
  cbn. by apply sub_info_skip_line.
Qed.

(** X17.  Informational lines are removed whole: an output that opens with
    any number of lines starting with [[INFO]] is stripped to what follows
    them, so an output made of such lines only is stripped to nothing. *)
Theorem sub_info_strips_info_lines lines rest :
  Forall (fun l => has_newline l = false) lines ->
  sub_info (info_lines lines +:+ rest) = sub_info rest /\
  sub_info (info_lines lines) = "".
Proof.
  intros Hlines.
  assert (forall r, sub_info (info_lines lines +:+ r) = sub_info r) as H.
  { intros r. unfold sub_info.
    induction Hlines as [|l lines Hl _ IH]; [done|].
    cbn [info_lines foldr]. fold (info_lines lines).
    rewrite !append_assoc.
    change (("[INFO]" +:+ l) +:+ ?x) with ("[INFO]" +:+ l +:+ x).
    rewrite sub_info_one_line by done. exact IH. }
  split; [apply H|].
  specialize (H ""). by rewrite append_empty_r in H.
Qed.

Lemma sub_info_strips_witness :
  sub_info (info_lines [" Initializing environment."; " Installing."] +:+
            "clang-format....Passed")
  = sub_info "clang-format....Passed".
Proof.
  refine (proj1 (sub_info_strips_info_lines
                   [" Initializing environment."; " Installing."]
                   "clang-format....Passed" _)).
  repeat constructor.
Defined.

Lemma prefix_drop_str_in n k s :
  String.prefix n (string_drop k s) = true -> str_in n s = true.
Proof.
  revert s. induction k as [|k IH]; intros s H.
  - destruct s; cbn [string_drop] in H; cbn [str_in]; by rewrite H.
  - destruct s as [|c s]; cbn [string_drop] in H.
    + cbn [str_in]. by rewrite H.
    + cbn [str_in]. rewrite (IH s H). apply orb_true_r.
Qed.

Lemma sub_warnings_without_text s :
  str_in " warnings and " s = false -> sub_warnings s = s.
Proof.
  unfold sub_warnings. induction s as [|c s IH]; [done|].
  intros H. cbn [sub_warnings_go].
  destruct (warnings_match (String c s)) as [n|] eqn:Hm.
  - exfalso. unfold warnings_match in Hm.
    destruct (take_while is_digit_or_comma (String c s)) as [|c0 run];
      [discriminate|].
    destruct (String.prefix _ _) eqn:Hp; [|discriminate].
    apply prefix_drop_str_in in Hp. congruence.
  - by rewrite IH by (by apply str_in_tail in H).
Qed.

(** X18.  The normalisation of warning counts changes nothing unless a
    target ends in [err.cpp], [-std=c++20] is among the arguments and the
    output holds the words [ warnings and ]: in every other case the
    compared output is the captured output, byte for byte. *)
Theorem normalize_warnings_unchanged files args out :
  existsb (fun f => endswith f "err.cpp") files = false \/
  list_in "-std=c++20" args = false \/
  str_in " warnings and " out = false ->
  normalize_warnings files args out = out.
Proof.
  unfold normalize_warnings.
  intros [H|[H|H]].
  - by rewrite H.
  - rewrite H. by rewrite andb_false_r.
  - destruct (_ && _); [|done]. by apply sub_warnings_without_text.
Qed.

Lemma normalize_warnings_unchanged_witness :
  normalize_warnings ["/repo/tests/test_repo/err.cpp"] ["--"; "-std=c++20"]
    "1 error generated."
  = "1 error generated.".
Proof.
  apply normalize_warnings_unchanged. right; right. reflexivity.
Defined.

(** X19.  Whether a scenario counts as editing in place depends only on
    which arguments occur: adding arguments, repeating them or changing
    their order never turns an in-place scenario into another one, and a
    command other than clang-format, clang-tidy and uncrustify is never in
    place. *)
Theorem determine_edit_in_place_monotone cmd_name args args' :
  (forall x, x ∈ args -> x ∈ args') ->
  (determine_edit_in_place cmd_name args = true ->
   determine_edit_in_place cmd_name args' = true) /\
  (cmd_name <> "clang-format" -> cmd_name <> "clang-tidy" ->
   cmd_name <> "uncrustify" ->
   determine_edit_in_place cmd_name args = false).
Proof.
  intros Hsub. split.
  - rewrite !determine_edit_in_place_spelling. unfold in_place_spelling.
    intros [[? ?]|[[? [?|?]]|[? ?]]]; auto 10.
  - intros H1 H2 H3.
    destruct (determine_edit_in_place cmd_name args) eqn:Hd; [|done].
    apply determine_edit_in_place_spelling in Hd.
    destruct Hd as [[? _]|[[? _]|[? _]]]; congruence.
Qed.

Lemma determine_edit_in_place_witness :
  determine_edit_in_place "clang-tidy" ["-quiet"; "-fix"; "--export-fixes"]
  = true.
Proof.
  refine (proj1 (determine_edit_in_place_monotone "clang-tidy" ["-fix"]
                   ["-quiet"; "-fix"; "--export-fixes"] _) eq_refl).
  intros x Hx. apply list_elem_of_singleton in Hx. subst x.
  apply list_elem_of_further, list_elem_of_here.
Defined.

Lemma replace_slash_free s : str_in "/" (replace "/" "\\" s) = false.
Proof.
  change (replace "/" "\\" s) with (replace_go "/" "\\" 0 s).
  induction s as [|c s IH]; [done|].
  cbn [replace_go]. destruct (Ascii.eqb_spec c "/") as [->|Hc].
  - assert (String.prefix "/" (String "/" s) = true) as ->
      by (apply prefix_split; by exists s).
    change (String.length "/" - 1)%nat with 0%nat.
    change (str_in "/" (String "\" (String "\" (replace_go "/" "\\" 0 s)))
            = false).
    cbn [str_in]. rewrite IH.
    rewrite !prefix_slash_false by discriminate. done.
  - rewrite (prefix_slash_false c s Hc). cbn [str_in].
    rewrite IH. by rewrite (prefix_slash_false c _ Hc).
Qed.

(** X23.  On Windows no target path of a table entry, generated or read
    from the JSON table, holds a forward slash: each one is replaced by two
    backslashes. *)
Theorem windows_targets_have_no_slash gettempdir cwd s t f :
  (f ∈ ts_files (shell_scenario "nt" s) -> str_in "/" f = false) /\
  (f ∈ ts_files (integration_scenario "nt" gettempdir cwd t) ->
   str_in "/" f = false).
Proof.
  split.
  - unfold shell_scenario. cbn [ts_files String.eqb]. cbn.
    intros (g & -> & _)%list_elem_of_fmap. apply replace_slash_free.
  - unfold integration_scenario. cbn [ts_files]. cbn.
    intros (g & -> & _)%list_elem_of_fmap. apply replace_slash_free.
Qed.

(** ** The table's targets and the fixture dict *)

Lemma last_char_cons c s :
  last_char (String c s)
  = match s with EmptyString => Some c | _ => last_char s end.
Proof. destruct s as [|c' s]; [done|]. unfold last_char. by cbn. Qed.

Lemma last_char_split d l :
  last_char d = Some l -> exists p0, d = p0 +:+ String l "".
Proof.
  induction d as [|c d IH]; [discriminate|].
  rewrite last_char_cons. destruct d as [|c' d].
  - intros [= <-]. by exists "".
  - intros H. destruct (IH H) as [p0 Hp0]. exists (String c p0).
    change (String c (String c' d) = String c (p0 +:+ String l "")).
    by f_equal.
Qed.

Lemma last_char_none d : last_char d = None -> d = "".
Proof.
  induction d as [|c d IH]; [done|].
  rewrite last_char_cons. destruct d; [discriminate|].
  intros H. by specialize (IH H).
Qed.

Lemma has_sep_weaken (p q : ascii -> bool) s :
  (forall c, p c = true -> q c = true) ->
  has_sep q s = false -> has_sep p s = false.
Proof.
  intros Hpq. induction s as [|c s IH]; [done|].
  cbn [has_sep]. intros [Hc Hs]%orb_false_iff. rewrite (IH Hs).
  destruct (p c) eqn:Hp; [|done]. apply Hpq in Hp. congruence.
Qed.

Lemma tail_after_last_no_sep is_sep b :
  has_sep is_sep b = false -> tail_after_last is_sep b = b.
Proof.
  destruct b as [|c b]; [done|]. cbn [has_sep tail_after_last].
  intros [Hc Hb]%orb_false_iff. by rewrite Hb, Hc.
Qed.

Lemma has_sep_middle is_sep p0 x b :
  is_sep x = true -> has_sep is_sep ((p0 +:+ String x "") +:+ b) = true.
Proof.
  intros Hx. induction p0 as [|y p0 IH].
  - change (is_sep x || has_sep is_sep b = true). by rewrite Hx.
  - change (is_sep y || has_sep is_sep ((p0 +:+ String x "") +:+ b) = true).
    rewrite IH. apply orb_true_r.
Qed.

Lemma tail_after_last_middle is_sep p0 x b :
  is_sep x = true -> has_sep is_sep b = false ->
  tail_after_last is_sep ((p0 +:+ String x "") +:+ b) = b.
Proof.
  intros Hx Hb. induction p0 as [|y p0 IH].
  - change (tail_after_last is_sep (String x b) = b).
    cbn [tail_after_last]. by rewrite Hb, Hx.
  - change (tail_after_last is_sep
              (String y ((p0 +:+ String x "") +:+ b)) = b).
    cbn [tail_after_last]. by rewrite has_sep_middle.
Qed.

(** Splitting what was joined gives the joined component back, when it
    holds no separator. *)
Lemma join_then_split os d c b :
  has_sep is_nt_sep (String c b) = false ->
  os_path_split_last os (os_path_join os d [String c b]) = String c b.
Proof.
  intros Hcb. pose proof Hcb as Hcb'.
  cbn [has_sep] in Hcb'. apply orb_false_iff in Hcb' as [Hc Hb].
  unfold os_path_split_last, os_path_join. cbn [fold_left].
  destruct (is_nt os).
  - unfold nt_join1. rewrite Hc.
    destruct (last_char d) as [l|] eqn:Hl.
    + destruct (is_nt_sep l) eqn:Hsep.
      * apply last_char_split in Hl as [p0 ->].
        by apply tail_after_last_middle.
      * change (d +:+ "\" +:+ String c b)
          with (d +:+ String "\" (String c b)).
        rewrite <- (append_assoc_char d "\" (String c b)).
        by apply tail_after_last_middle.
    + apply last_char_none in Hl as ->.
      by apply tail_after_last_no_sep.
  - assert (has_sep (fun x => Ascii.eqb x "/") (String c b) = false) as Hposix.
    { apply (has_sep_weaken _ is_nt_sep); [|done].
      intros x Hx. unfold is_nt_sep. rewrite Hx. apply orb_true_r. }
    assert (c <> "/"%char) as Hne.
    { intros ->. unfold is_nt_sep in Hc. cbn in Hc. discriminate. }
    unfold posix_join1. rewrite (prefix_slash_false c b Hne).
    destruct (String.eqb_spec d "") as [->|Hd]; cbn [orb].
    + by apply tail_after_last_no_sep.
    + destruct (endswith d "/") eqn:He.
      * apply endswith_split in He as [a ->].
        by apply tail_after_last_middle.
      * change (d +:+ "/" +:+ String c b)
          with (d +:+ String "/" (String c b)).
        rewrite <- (append_assoc_char d "/" (String c b)).
        by apply tail_after_last_middle.
Qed.

Lemma fixture_base_names env f :
  f ∈ files (generator_attributes env) ->
  os_path_split_last (os_name env) f ∈ ["ok.c"; "ok.cpp"; "err.c"; "err.cpp"].
Proof.
  unfold generator_attributes, join. cbn [files].
  rewrite !elem_of_cons, elem_of_nil.
  intros [->|[->|[->|[->|[]]]]]; rewrite join_then_split by reflexivity;
    tauto.
Qed.

(** X24.  The targets of the table fit the fixture dict: the base name of
    every target of every scenario is one of [ok.c], [ok.cpp], [err.c] and
    [err.cpp]; a scenario over a flawed file names an [err.c] path; and
    with a fixture dict that holds those four names, writing the fixtures
    of a scenario's targets cannot raise and leaves each target with the
    content the dict gives for its base name. *)
Theorem table_targets_fit_fixtures env table s :
  generate_list_tests env = Ok table -> s ∈ table ->
  let cls := generator_attributes env in
  let base := os_path_split_last (os_name env) in
  (forall f, f ∈ sc_files s ->
     base f ∈ ["ok.c"; "ok.cpp"; "err.c"; "err.cpp"]) /\
  (flawed_target cls s -> has_err_file (sc_files s) = true) /\
  (forall (test_file_strs d : gmap string string),
     (forall b, b ∈ ["ok.c"; "ok.cpp"; "err.c"; "err.cpp"] ->
                is_Some (test_file_strs !! b)) ->
     exists d',
       write_fixtures (os_name env) test_file_strs (sc_files s) d = (Ok (), d')
       /\ forall f, f ∈ sc_files s -> d' !! f = test_file_strs !! base f).
Proof.
  intros Ht Hs cls base.
  pose proof (generate_table_rows env cls table
                (generator_attributes_set env) Ht) as Hrows.
  rewrite Forall_forall in Hrows. specialize (Hrows s Hs).
  assert (forall f, f ∈ sc_files s -> f ∈ files cls) as Hfix.
  { change (files cls) with [ok_c cls; ok_cpp cls; err_c cls; err_cpp cls].
    destruct Hrows as [(Hfiles & _)|[([Hc|Hc] & _)|([Hc|Hc] & _)]];
      rewrite ?Hfiles, ?Hc; intros f Hin;
      rewrite !elem_of_cons, elem_of_nil in *; tauto. }
  assert (forall f, f ∈ sc_files s ->
            base f ∈ ["ok.c"; "ok.cpp"; "err.c"; "err.cpp"]) as Hbase
    by (intros f Hf; by apply fixture_base_names, Hfix).
  split; [exact Hbase|]. split.
  - destruct (join1_relative (os_name env)
                (join env (getcwd env) ["tests"; "test_repo"])) as [pre Hpre].
    intros [Hf|Hf]; rewrite Hf; unfold has_err_file; cbn [existsb];
      rewrite orb_false_r; unfold cls, generator_attributes, join;
      cbn [err_c err_cpp]; rewrite Hpre by discriminate;
      by apply str_in_append_r.
  - intros test_file_strs d Hdict.
    destruct (write_fixtures_ok (os_name env) test_file_strs (sc_files s) d)
      as (d' & Hw & Hin & _).
    + intros f Hf. by apply Hdict, Hbase.
    + by exists d'.
Qed.

Lemma table_targets_fit_witness :
  exists table,
    generate_list_tests posix_env = Ok table /\
    sample_flawed_scenario ∈ table /\
    has_err_file (sc_files sample_flawed_scenario) = true /\
    os_path_split_last "posix" "/repo/tests/test_repo/err.c"
    ∈ ["ok.c"; "ok.cpp"; "err.c"; "err.cpp"].
Proof.
  destruct (generate_list_tests posix_env) as [table|] eqn:Ht;
    [|vm_compute in Ht; discriminate].
  assert (sample_flawed_scenario ∈ table) as Hs.
  { vm_compute in Ht. apply Ok_inj in Ht. subst table.
    do 10 apply list_elem_of_further. apply list_elem_of_here. }
  exists table. split; [reflexivity|]. split; [exact Hs|].
  destruct (table_targets_fit_fixtures posix_env table _ Ht Hs)
    as (Hbase & Herr & _).
  split; [apply Herr; by left|].
  apply (Hbase "/repo/tests/test_repo/err.c"), list_elem_of_here.
Defined.

(** ** Properties of the teardown and the table recorder *)

Lemma remove_if_exists_lookup (d : gmap string string) p f :
  (if path_exists d p then delete p d else d) !! f
  = if decide (f = p) then None else d !! f.
Proof.
  unfold path_exists. destruct (decide (f = p)) as [->|Hne].
  - case_bool_decide as Hp.
    + by rewrite lookup_delete_eq.
    + destruct (d !! p) eqn:E; [|done]. destruct Hp. by eexists.
  - case_bool_decide; [|done]. by rewrite lookup_delete_ne.
Qed.

(** X20.  The teardown removes the two generated report files
    [ok.plist] and [err.plist] of the test repository when they are there,
    changes no other file, and is idempotent. *)
Theorem teardown_class_removes_reports platform (d : gmap string string) :
  let dir := os_path_join platform "tests" ["test_repo"] in
  let ok_plist := os_path_join platform dir ["ok.plist"] in
  let err_plist := os_path_join platform dir ["err.plist"] in
  teardown_class platform d !! ok_plist = None /\
  teardown_class platform d !! err_plist = None /\
  (forall f, f <> ok_plist -> f <> err_plist ->
             teardown_class platform d !! f = d !! f) /\
  teardown_class platform (teardown_class platform d)
  = teardown_class platform d.
Proof.
  intros dir ok_plist err_plist.
  assert (forall d0 : gmap string string, forall f,
             teardown_class platform d0 !! f
             = if decide (f = err_plist) then None
               else if decide (f = ok_plist) then None else d0 !! f) as Hl.
  { intros d0 f. unfold teardown_class. cbn [fmap list_fmap foldl].
    fold dir. fold ok_plist. fold err_plist.
    by rewrite !remove_if_exists_lookup. }
  split_and!.
  - rewrite Hl. repeat case_decide; done.
  - rewrite Hl. repeat case_decide; done.
  - intros f H1 H2. rewrite Hl. repeat case_decide; done.
  - apply map_eq. intros f. rewrite !Hl. repeat case_decide; done.
Qed.

Section RecorderProperties.
Variable json_loads : string -> result (list TableTest).
Variable json_dumps : list TableTest -> string.
Variable decode : string -> result string.
Variable cwd : string.

Local Abbreviation record :=
  (generate_table_json json_loads json_dumps decode cwd).

(** X21.  The table recorder cannot start a table: when [table_tests.json]
    does not exist it opens [table_test.json], a different name, for
    reading, so it raises, [FileNotFoundError] when that file is missing and
    the write error otherwise, and it leaves the disk as it was. *)
Theorem recorder_cannot_start_a_table command files args output_actual
  target_retcode (d : gmap string string) :
  d !! "table_tests.json" = None ->
  generate_table_json json_loads json_dumps decode cwd command files args
    output_actual target_retcode d
  = (Raise (if path_exists d "table_test.json"
            then ValueError else FileNotFoundError), d).
Proof.
  intros Hnone. unfold generate_table_json, path_exists.
  rewrite Hnone. rewrite bool_decide_eq_false_2 by (by intros [? ?]).
  cbn [negb]. destruct (d !! "table_test.json") as [x|] eqn:E.
  - rewrite bool_decide_eq_true_2 by (by eexists). done.
  - rewrite bool_decide_eq_false_2 by (by intros [? ?]). done.
Qed.

(** X22.  When the table exists and parses, the recorder appends one entry
    after the entries already there and rewrites only [table_tests.json];
    the entry keeps the command, the arguments and the exit code, drops the
    working directory from the file paths and puts the placeholder in the
    output.  With a JSON codec that reads back what it writes, the table
    read after the call is the old table followed by the new entry. *)
Theorem recorder_appends command files args output_actual target_retcode
  (d : gmap string string) text old decoded :
  d !! "table_tests.json" = Some text ->
  json_loads text = Ok old ->
  decode output_actual = Ok decoded ->
  let entry :=
    mkTableTest command ((fun f => replace cwd "" f) <$> files) args
      (replace "/tmp/pre-commit-testing" "{test_dir}" decoded)
      target_retcode in
  exists d',
    generate_table_json json_loads json_dumps decode cwd command files args
    output_actual target_retcode d
    = (Ok (), d') /\
    d' !! "table_tests.json" = Some (json_dumps (old ++ [entry])) /\
    (forall f, f <> "table_tests.json" -> d' !! f = d !! f) /\
    (json_loads (json_dumps (old ++ [entry])) = Ok (old ++ [entry]) ->
     forall command' files' args' output' retcode' decoded',
       decode output' = Ok decoded' ->
       exists d'',
         generate_table_json json_loads json_dumps decode cwd command' files'
           args' output'
           retcode' d' = (Ok (), d'') /\
         d'' !! "table_tests.json"
         = Some (json_dumps
                   (old ++ [entry;
                            new_test cwd command' files' args' decoded'
                              retcode']))).
Proof.
  intros Htext Hold Hdec entry.
  assert (forall (d0 : gmap string string) t l c fs a o r dec,
             d0 !! "table_tests.json" = Some t -> json_loads t = Ok l ->
             decode o = Ok dec ->
             record c fs a o r d0
             = (Ok (), <["table_tests.json" :=
                           json_dumps (l ++ [new_test cwd c fs a dec r])]> d0))
    as Hstep.
  { intros d0 t l c fs a o r dec Ht Hl Hd.
    unfold generate_table_json, path_exists.
    rewrite bool_decide_eq_true_2 by (by eexists). cbn [negb].
    by rewrite Ht, Hl, Hd. }
  eexists. split; [by apply (Hstep d text old)|].
  split; [by rewrite lookup_insert_eq|].
  split; [intros f Hf; by rewrite lookup_insert_ne|].
  intros Hcodec command' files' args' output' retcode' decoded' Hdec'.
  eexists. split.
  - eapply Hstep; [apply lookup_insert_eq|exact Hcodec|exact Hdec'].
  - rewrite lookup_insert_eq. by rewrite <- (assoc_L (++)).
Qed.

End RecorderProperties.

Lemma recorder_cannot_start_witness :
  generate_table_json (fun _ => Ok []) (fun _ => "[]") Ok "/repo"
    "clang-format" ["/repo/tests/test_repo/err.c"] ["--style=google"] "" 1 ∅
  = (Raise FileNotFoundError, ∅).
Proof.
  exact (recorder_cannot_start_a_table (fun _ => Ok []) (fun _ => "[]") Ok
           "/repo" "clang-format" ["/repo/tests/test_repo/err.c"]
           ["--style=google"] "" 1 ∅ eq_refl).
Defined.

Lemma recorder_appends_witness :
  exists d',
    generate_table_json (fun _ => Ok []) (fun l => "entries") Ok "/repo"
      "clang-format" ["/repo/tests/test_repo/err.c"] ["--style=google"]
      "/tmp/pre-commit-testing/err.c" 1 (<["table_tests.json" := "[]"]> ∅)
    = (Ok (), d') /\
    d' !! "table_tests.json" = Some "entries".
Proof.
  assert ((<["table_tests.json" := "[]"]> ∅ : gmap string string)
            !! "table_tests.json" = Some "[]") as Htext by reflexivity.
  destruct (recorder_appends (fun _ => Ok []) (fun l => "entries") Ok "/repo"
              "clang-format" ["/repo/tests/test_repo/err.c"]
              ["--style=google"] "/tmp/pre-commit-testing/err.c" 1
              (<["table_tests.json" := "[]"]> ∅) "[]" []
              "/tmp/pre-commit-testing/err.c" Htext eq_refl eq_refl)
    as (d' & Hrun & Hlook & _).
  exists d'. split; [exact Hrun|exact Hlook].
Defined.

(** ** The format-checking wrapper on the fixtures *)

Example report_example :
  FormatChecker.report "err.c" (flawed_source "<stdio.h>")
    (google_source "<stdio.h>")
  = google_style_diff "err.c" "<stdio.h>".
Proof. vm_compute. reflexivity. Qed.


Lemma row_ok_first xs ys row :
  row_ok xs ys row ->
  original_lines (FormatChecker.first row).2 = xs /\
  formatted_lines (FormatChecker.first row).2 = ys.
Proof. destruct row as [|c row]; [intros []|]. by intros [H _]. Qed.

Lemma row_ok_tl xs y ys row :
  row_ok xs (y :: ys) row -> row_ok xs ys (tl row).
Proof. destruct row as [|c row]; [intros []|]. by intros [_ H]. Qed.

Lemma insert_row_ok ys : row_ok [] ys (FormatChecker.insert_row ys).
Proof.
  induction ys as [|y ys IH]; [by repeat split|].
  cbn [FormatChecker.insert_row]. cbv zeta.
  destruct (row_ok_first _ _ _ IH) as [Ho Hf].
  split; [|exact IH]. unfold original_lines, formatted_lines in *.
  cbn [snd omap list_omap]. by rewrite Ho, Hf.
Qed.

Lemma diff_row_ok x xs ys below :
  row_ok xs ys below -> row_ok (x :: xs) ys (FormatChecker.diff_row x ys below).
Proof.
  revert below. induction ys as [|y ys IH]; intros below Hb.
  - destruct (row_ok_first _ _ _ Hb) as [Ho Hf].
    cbn [FormatChecker.diff_row]. split; [|done].
    cbn [snd]. unfold original_lines, formatted_lines in *.
    cbn [omap list_omap]. by rewrite Ho, Hf.
  - pose proof (row_ok_tl _ _ _ _ Hb) as Ht.
    pose proof (IH _ Ht) as Hrest.
    destruct (row_ok_first _ _ _ Hb) as [Ho Hf].
    destruct (row_ok_first _ _ _ Ht) as [Hto Htf].
    destruct (row_ok_first _ _ _ Hrest) as [Hro Hrf].
    cbn [FormatChecker.diff_row]. cbv zeta. split; [|exact Hrest].
    unfold original_lines, formatted_lines in *.
    destruct (String.eqb_spec x y) as [->|_].
    + cbn [snd omap list_omap]. by rewrite Hto, Htf.
    + destruct (_ <? _)%nat; cbn [snd omap list_omap].
      * by rewrite Hro, Hrf.
      * by rewrite Ho, Hf.
Qed.

Lemma diff_rows_ok xs ys : row_ok xs ys (FormatChecker.diff_rows xs ys).
Proof.
  induction xs as [|x xs IH]; [apply insert_row_ok|].
  cbn [FormatChecker.diff_rows]. by apply diff_row_ok.
Qed.

(** The line diff of the reporter is a diff: its kept and deleted lines are
    the original lines, its kept and inserted lines the formatted ones. *)
Lemma line_diff_sound xs ys :
  original_lines (FormatChecker.line_diff xs ys) = xs /\
  formatted_lines (FormatChecker.line_diff xs ys) = ys.
Proof. apply row_ok_first, diff_rows_ok. Qed.


